(** * Worker lifecycle of ComfyUI-Deadline-Distributed

    A shallow embedding of [deadline_integration_simple.py], the module the
    package loads as its Deadline integration ([__init__.py] imports it under
    the name [deadline_integration]).  The class [DeadlineIntegration] keeps a
    registry of claimed workers and a table of provisioning jobs, mirrors the
    registry into the shared configuration file, and drives the external
    [deadlinecommand] executable.

    Conventions of the embedding

    - a Python [str] is a [string]; a character stands for the code point of
      the same number (0..255);
    - a Python [int], and a reading of [time.time()], is a [Z];
    - a Python [dict] is an association list in insertion order;
    - a method is a computation over the [system] state that returns a value
      or raises, so that [try]/[except] is written as it is in the source;
    - everything the process cannot decide by itself (clock, host name,
      configuration store, file system, child processes) is read from an
      [environment] record, one reading per request. *)

From Stdlib Require Import ZArith List String Ascii Bool Lia DecimalString.
Import ListNotations.

Open Scope string_scope.
Open Scope list_scope.
Open Scope Z_scope.

(** ** Python built-ins used by the module *)

Module Py.

(** [str(n)] for an [int]. *)
Definition str (n : Z) : string := NilZero.string_of_int (Z.to_int n).

(** [c.isspace()]: the separators of [str.split()] and of [\s]. *)
Definition isspace (c : ascii) : bool :=
  let n := N_of_ascii c in
  (((9 <=? n) && (n <=? 13)) || ((28 <=? n) && (n <=? 32))
   || (n =? 133) || (n =? 160))%N.

Definition flush (tok : string) : list string :=
  match tok with EmptyString => [] | _ => [tok] end.

(** [s.split()]: the maximal runs of non-space characters, in order.
    [tok] is the run being read. *)
Fixpoint split_from (tok s : string) : list string :=
  match s with
  | EmptyString => flush tok
  | String c rest =>
      if isspace c then flush tok ++ split_from EmptyString rest
      else split_from (tok ++ String c EmptyString)%string rest
  end.

Definition split (s : string) : list string := split_from EmptyString s.

(** [s.startswith(p)]. *)
Definition startswith (p s : string) : bool := String.prefix p s.

(** [s[n:]]. *)
Fixpoint drop (n : nat) (s : string) : string :=
  match n, s with
  | O, _ => s
  | S _, EmptyString => EmptyString
  | S m, String _ rest => drop m rest
  end.

(** [s[:n]]. *)
Fixpoint take (n : nat) (s : string) : string :=
  match n, s with
  | O, _ => EmptyString
  | S _, EmptyString => EmptyString
  | S m, String c rest => String c (take m rest)
  end.

(** [s.split(sep)] for a one-character separator: never empty. *)
Fixpoint split_on_from (sep : ascii) (tok s : string) : list string :=
  match s with
  | EmptyString => [tok]
  | String c rest =>
      if Ascii.eqb c sep then tok :: split_on_from sep EmptyString rest
      else split_on_from sep (tok ++ String c EmptyString)%string rest
  end.

Definition split_on (sep : ascii) (s : string) : list string :=
  split_on_from sep EmptyString s.

(** [c in s] for a character. *)
Fixpoint contains (c : ascii) (s : string) : bool :=
  match s with
  | EmptyString => false
  | String d rest => Ascii.eqb d c || contains c rest
  end.

(** Every character of [s] satisfies [p]. *)
Fixpoint all_chars (p : ascii -> bool) (s : string) : bool :=
  match s with
  | EmptyString => true
  | String c rest => p c && all_chars p rest
  end.

(** [c.lower()] on the letters A..Z. *)
Definition lower (c : ascii) : ascii :=
  let n := N_of_ascii c in
  if ((65 <=? n) && (n <=? 90))%N then ascii_of_N (n + 32) else c.

End Py.

(** ** Dictionaries in insertion order *)

Module Dict.
Section Dict.
Context {V : Type}.

Definition t := list (string * V).

Definition is_key (k : string) (kv : string * V) : bool := String.eqb k (fst kv).

(** [d.get(k)] *)
Fixpoint get (k : string) (d : t) : option V :=
  match d with
  | [] => None
  | (k', v) :: rest => if String.eqb k k' then Some v else get k rest
  end.

(** [k in d] *)
Definition mem (k : string) (d : t) : bool :=
  match get k d with Some _ => true | None => false end.

(** [d[k] = v]: an existing key keeps its place, a new one goes last. *)
Fixpoint set (k : string) (v : V) (d : t) : t :=
  match d with
  | [] => [(k, v)]
  | (k', v') :: rest =>
      if String.eqb k k' then (k', v) :: rest else (k', v') :: set k v rest
  end.

(** [del d[k]] for a key that is present, [d.pop(k, None)] in general. *)
Definition del (k : string) (d : t) : t :=
  filter (fun kv => negb (is_key k kv)) d.

Definition keys (d : t) : list string := map fst d.
Definition values (d : t) : list V := map snd d.

(** [len(d)] *)
Definition len (d : t) : Z := Z.of_nat (List.length d).

(** The keys of a dictionary are pairwise distinct. *)
Definition ok (d : t) : Prop := NoDup (keys d).

End Dict.
Arguments t : clear implicits.
End Dict.

(** ** Data model *)

(** A record of [self.claimed_workers], as [register_worker] builds it. *)
Record worker_info := {
  w_id : string;
  w_ip : string;
  w_port : Z;
  w_job_id : option string;
  w_last_seen : Z
}.

(** A record of [self.active_jobs], as [claim_workers] builds it. *)
Record job_data := {
  j_type : string;
  j_count : Z;
  j_master_ws : string;
  j_submitted_at : Z
}.

(** The instance attributes set by [__init__]. *)
Record DeadlineIntegration := {
  deadline_command : option string;
  claimed_workers : Dict.t worker_info;
  active_jobs : Dict.t job_data;
  worker_heartbeat_timeout : Z
}.

(** An entry of the [workers] list of the shared configuration.  Entries
    written by other parts of the application may lack an [id]. *)
Record worker_config := {
  c_id : option string;
  c_host : string;
  c_port : Z;
  c_cuda_device : Z;
  c_enabled : bool;
  c_source : string;
  c_name : string;
  c_args : string;
  c_platform : string
}.

(** The configuration document; only its [workers] key is read or written
    here, and the key may be absent. *)
Record config := { workers : option (list worker_config) }.

(** What [subprocess.run] does with a command line: the child runs to
    completion, or the call raises (time-out, executable not found). *)
Inductive completed :=
| Completed (returncode : Z) (stdout stderr : string)
| Crashed (e : string).

(** What [_create_worker_job_files] puts in a file: the strings passed to
    [f.write], in order, or the JSON dump of the registration workflow; a
    file whose [with] block raised is left with some part of that. *)
Inductive content :=
| Text (writes : list string)
| RegistrationWorkflow
| Incomplete.

(** The three files of a submission, and the places at which
    [_create_worker_job_files] can fail: [tempfile.mkdtemp], the [open] of a
    file, and the body of its [with] block. *)
Inductive job_file :=
| Job_info
| Workflow
| Plugin_info.

Inductive fs_step :=
| At_mkdtemp
| At_open (f : job_file)
| At_write (f : job_file).

(** The lines sent to [debug_log], one constructor per call site. *)
Inductive log_line :=
| Log_initialized
| Log_submit_returncode (rc : Z)
| Log_submit_stdout (out : string)
| Log_submit_stderr (err : string)
| Log_claim_error (e : string)
| Log_releasing (jid : string)
| Log_delete_returncode (rc : Z)
| Log_delete_stderr (err : string)
| Log_released (jid : string)
| Log_release_failed (jid err : string)
| Log_registered (worker_id worker_ip : string) (worker_port : Z)
| Log_register_error (e : string)
| Log_heartbeat_error (e : string)
| Log_unregistered (worker_id : string)
| Log_unregister_error (e : string)
| Log_status_error (e : string)
| Log_stale (worker_id : string)
| Log_imported_importlib (removing : bool)
| Log_importlib_failed (e : string)
| Log_imported_relative (removing : bool)
| Log_config_updated (worker_id : string)
| Log_config_added (worker_id : string)
| Log_config_removed (worker_id : string)
| Log_config_add_warning (e : string)
| Log_config_remove_warning (e : string)
| Log_job_files (job_info_file plugin_info_file workflow_file : string)
| Log_job_id (job_id : string)
| Log_job_id_regex (job_id : string)
| Log_no_job_id (stdout : string).

(** The dictionaries that the methods return. *)
Inductive reply :=
| Success (message : option string)
| Failure (error : string)
| Claimed (job_id message : string)
| Released (released_jobs : Z) (message : string)
| StatusUp (available_workers claimed_workers total_workers n_active_jobs : Z)
           (active_workers : list worker_info)
| StatusDown (error : string).

(** Everything a request can change: the global instance, the configuration
    file behind [load_config]/[save_config], the console, the command lines
    launched so far and the files written so far. *)
Record system := {
  self : DeadlineIntegration;
  config_file : config;
  console : list log_line;
  spawned : list (list string);
  disk : list (string * content)
}.

(** Everything a request reads from outside.  [subprocess_run n argv] is the
    fate of the command line [argv] when [n] command lines were launched
    before it; [fs_error] is the step at which the file system fails, if it
    does, with the exception raised there. *)
Record environment := {
  clock : Z;
  hostname : string;
  importlib_error : option string;
  relative_import_error : option string;
  load_error : option string;
  save_error : option string;
  mkdtemp : string;
  os_sep : string;
  fs_error : option (fs_step * string);
  subprocess_run : nat -> list string -> completed
}.

(** ** Computations that may raise *)

Inductive outcome (A : Type) :=
| Return (a : A)
| Raise (e : string).
Arguments Return {A} a.
Arguments Raise {A} e.

Definition M (A : Type) : Type := system -> outcome A * system.

Definition ret {A} (a : A) : M A := fun s => (Return a, s).

Definition raise {A} (e : string) : M A := fun s => (Raise e, s).

Definition bind {A B} (m : M A) (k : A -> M B) : M B :=
  fun s => match m s with
           | (Return a, s') => k a s'
           | (Raise e, s') => (Raise e, s')
           end.

(** [try: m except Exception as e: h e]; what [m] did before raising stays. *)
Definition try_except {A} (m : M A) (h : string -> M A) : M A :=
  fun s => match m s with
           | (Return a, s') => (Return a, s')
           | (Raise e, s') => h e s'
           end.

Notation "x <- m ;; k" := (bind m (fun x => k))
  (at level 61, m at next level, right associativity).
Notation "m ;; k" := (bind m (fun _ => k))
  (at level 61, right associativity).

Definition gets {A} (f : system -> A) : M A := fun s => (Return (f s), s).

Definition modify (f : system -> system) : M unit := fun s => (Return tt, f s).

Definition with_self (f : DeadlineIntegration -> DeadlineIntegration) (s : system) : system :=
  {| self := f (self s); config_file := config_file s; console := console s;
     spawned := spawned s; disk := disk s |}.

Definition set_claimed_workers (d : Dict.t worker_info) (o : DeadlineIntegration) :=
  {| deadline_command := deadline_command o; claimed_workers := d;
     active_jobs := active_jobs o;
     worker_heartbeat_timeout := worker_heartbeat_timeout o |}.

Definition set_active_jobs (d : Dict.t job_data) (o : DeadlineIntegration) :=
  {| deadline_command := deadline_command o;
     claimed_workers := claimed_workers o; active_jobs := d;
     worker_heartbeat_timeout := worker_heartbeat_timeout o |}.

Definition update_claimed (f : Dict.t worker_info -> Dict.t worker_info) : M unit :=
  modify (with_self (fun o => set_claimed_workers (f (claimed_workers o)) o)).

Definition update_jobs (f : Dict.t job_data -> Dict.t job_data) : M unit :=
  modify (with_self (fun o => set_active_jobs (f (active_jobs o)) o)).

Definition debug_log (l : log_line) : M unit :=
  modify (fun s => {| self := self s; config_file := config_file s;
                      console := console s ++ [l];
                      spawned := spawned s; disk := disk s |}).

(** [save_config(config)] once it succeeds. *)
Definition store (c : config) : M unit :=
  modify (fun s => {| self := self s; config_file := c; console := console s;
                      spawned := spawned s; disk := disk s |}).

Definition write_file (path : string) (c : content) : M unit :=
  modify (fun s => {| self := self s; config_file := config_file s;
                      console := console s; spawned := spawned s;
                      disk := disk s ++ [(path, c)] |}).

Definition launch (argv : list string) : M unit :=
  modify (fun s => {| self := self s; config_file := config_file s;
                      console := console s; spawned := spawned s ++ [argv];
                      disk := disk s |}).

(** A non-empty string is true, [None] and the empty string are false. *)
Definition nonempty (s : string) : bool :=
  match s with EmptyString => false | String _ _ => true end.

(** ** The fallback pattern of [_extract_job_id]

    [re.search(r'Job ID[:\s=]+([a-f0-9]{24})', stdout, re.IGNORECASE)].
    The separator class and the class of hexadecimal digits share no
    character, so the greedy [+] never has to give a character back: at a
    given position the pattern matches exactly when the label is followed by
    a maximal, non-empty run of separators and then by 24 digits. *)

Module Re.

Definition is_sep (c : ascii) : bool :=
  Ascii.eqb c ":" || Py.isspace c || Ascii.eqb c "=".

(** [[a-f0-9]] under [IGNORECASE]. *)
Definition is_hex (c : ascii) : bool :=
  let n := N_of_ascii (Py.lower c) in
  (((48 <=? n) && (n <=? 57)) || ((97 <=? n) && (n <=? 102)))%N.

(** The literal [p], letters compared without case; the rest of [s] after it. *)
Fixpoint literal (p s : string) : option string :=
  match p, s with
  | EmptyString, _ => Some s
  | String _ _, EmptyString => None
  | String a p', String c s' =>
      if Ascii.eqb (Py.lower a) (Py.lower c) then literal p' s' else None
  end.

(** The string after its longest prefix of separators. *)
Fixpoint skip_seps (s : string) : string :=
  match s with
  | String c rest => if is_sep c then skip_seps rest else s
  | EmptyString => s
  end.

(** A match that starts at the first character of [s]: its group 1. *)
Definition match_here (s : string) : option string :=
  match literal "Job ID" s with
  | Some (String c rest) =>
      if is_sep c then
        let digits := Py.take 24 (skip_seps rest) in
        if (String.length digits =? 24)%nat && Py.all_chars is_hex digits
        then Some digits else None
      else None
  | _ => None
  end.

(** The leftmost match, as [re.search] finds it. *)
Fixpoint search (s : string) : option string :=
  match match_here s with
  | Some g => Some g
  | None => match s with
            | EmptyString => None
            | String _ rest => search rest
            end
  end.

End Re.

(** ** The methods of [DeadlineIntegration] *)

(** [worker.get('id') == worker_id] *)
Definition has_id (worker_id : string) (w : worker_config) : bool :=
  match c_id w with
  | Some i => String.eqb i worker_id
  | None => false
  end.

(** The [enumerate] loop of [_add_worker_to_distributed_config]: the index
    of the first entry whose [id] is [worker_id], counting from [i]. *)
Fixpoint find_existing (worker_id : string) (ws : list worker_config) (i : nat)
  : option nat :=
  match ws with
  | [] => None
  | w :: rest =>
      if has_id worker_id w then Some i else find_existing worker_id rest (S i)
  end.

(** [l[i] = x] for an index in range. *)
Fixpoint list_set {A} (i : nat) (x : A) (l : list A) : list A :=
  match l, i with
  | [], _ => []
  | _ :: rest, O => x :: rest
  | y :: rest, S j => y :: list_set j x rest
  end.

(** The first loop of [_extract_job_id] over [stdout.split()]. *)
Fixpoint first_job_token (tokens : list string) : option string :=
  match tokens with
  | [] => None
  | line :: rest =>
      if Py.startswith "JobID=" line then Some (Py.drop 6 line)
      else first_job_token rest
  end.

(** [__init__], with the result of [_find_deadline_command] given. *)
Definition new_DeadlineIntegration (command : option string) : DeadlineIntegration :=
  {| deadline_command := command;
     claimed_workers := [];
     active_jobs := [];
     worker_heartbeat_timeout := 60 |}.

(** The process right after the module is loaded, over a given
    configuration file. *)
Definition boot (command : option string) (c : config) : system :=
  {| self := new_DeadlineIntegration command;
     config_file := c;
     console := [Log_initialized];
     spawned := [];
     disk := [] |}.

Section Methods.

Variable env : environment.

(** The two ways the module tries to import [utils.config]. *)
Definition import_config (removing : bool) : M unit :=
  match importlib_error env with
  | None => debug_log (Log_imported_importlib removing)
  | Some e1 =>
      debug_log (Log_importlib_failed e1) ;;
      match relative_import_error env with
      | None => debug_log (Log_imported_relative removing)
      | Some e2 => raise e2
      end
  end.

(** Modelled from the spec: [load_config] of [utils/config.py], which is
    not among the sources.  It returns the stored JSON document, or
    raises. *)
Definition load_config : M config :=
  match load_error env with
  | Some e => raise e
  | None => gets config_file
  end.

(** Modelled from the spec: [save_config] of [utils/config.py], which is
    not among the sources.  It replaces the stored JSON document, or
    raises. *)
Definition save_config (c : config) : M unit :=
  match save_error env with
  | Some e => raise e
  | None => store c
  end.

(** [subprocess.run(argv, capture_output=True, text=True, timeout=...)] *)
Definition run_process (argv : list string) : M (Z * string * string) :=
  n <- gets (fun s => List.length (spawned s)) ;;
  launch argv ;;
  match subprocess_run env n argv with
  | Completed rc out err => ret (rc, out, err)
  | Crashed e => raise e
  end.

Definition worker_entry (worker_id worker_ip : string) (worker_port : Z)
  : worker_config :=
  {| c_id := Some worker_id;
     c_host := worker_ip;
     c_port := worker_port;
     c_cuda_device := 0;
     c_enabled := true;
     c_source := "deadline";
     c_name := ("Deadline Worker (" ++ hostname env ++ ")")%string;
     c_args := "";
     c_platform := "deadline" |}.

(** The body of the [try] of [_add_worker_to_distributed_config]. *)
Definition add_worker_body (worker_id worker_ip : string) (worker_port : Z)
  : M unit :=
  import_config false ;;
  config <- load_config ;;
  let ws := match workers config with Some ws => ws | None => [] end in
  let existing_worker := find_existing worker_id ws O in
  let worker_config := worker_entry worker_id worker_ip worker_port in
  ws' <- match existing_worker with
         | Some i =>
             debug_log (Log_config_updated worker_id) ;;
             ret (list_set i worker_config ws)
         | None =>
             debug_log (Log_config_added worker_id) ;;
             ret (ws ++ [worker_config])
         end ;;
  save_config {| workers := Some ws' |}.

Definition _add_worker_to_distributed_config
  (worker_id worker_ip : string) (worker_port : Z) : M unit :=
  try_except (add_worker_body worker_id worker_ip worker_port)
             (fun e => debug_log (Log_config_add_warning e)).

(** The body of the [try] of [_remove_worker_from_distributed_config]. *)
Definition remove_worker_body (worker_id : string) : M unit :=
  import_config true ;;
  config <- load_config ;;
  match workers config with
  | None => ret tt
  | Some ws =>
      let original_count := List.length ws in
      let ws' := filter (fun w => negb (has_id worker_id w)) ws in
      if (List.length ws' <? original_count)%nat then
        save_config {| workers := Some ws' |} ;;
        debug_log (Log_config_removed worker_id)
      else ret tt
  end.

Definition _remove_worker_from_distributed_config (worker_id : string)
  : M unit :=
  try_except (remove_worker_body worker_id)
             (fun e => debug_log (Log_config_remove_warning e)).

Definition register_worker (worker_id worker_ip : string) (worker_port : Z)
  (job_id : option string) : M reply :=
  try_except
    (update_claimed
       (Dict.set worker_id
          {| w_id := worker_id; w_ip := worker_ip; w_port := worker_port;
             w_job_id := job_id; w_last_seen := clock env |}) ;;
     _add_worker_to_distributed_config worker_id worker_ip worker_port ;;
     debug_log (Log_registered worker_id worker_ip worker_port) ;;
     ret (Success (Some ("Worker " ++ worker_id
                         ++ " registered and added to distributed config")%string)))
    (fun e => debug_log (Log_register_error e) ;; ret (Failure e)).

Definition touch (w : worker_info) : worker_info :=
  {| w_id := w_id w; w_ip := w_ip w; w_port := w_port w;
     w_job_id := w_job_id w; w_last_seen := clock env |}.

Definition worker_heartbeat (worker_id : string) : M reply :=
  try_except
    (registry <- gets (fun s => claimed_workers (self s)) ;;
     match Dict.get worker_id registry with
     | Some w =>
         update_claimed (Dict.set worker_id (touch w)) ;;
         ret (Success None)
     | None => ret (Failure "Worker not found")
     end)
    (fun e => debug_log (Log_heartbeat_error e) ;; ret (Failure e)).

Definition unregister_worker (worker_id : string) : M reply :=
  try_except
    (registry <- gets (fun s => claimed_workers (self s)) ;;
     if Dict.mem worker_id registry then
       update_claimed (Dict.del worker_id) ;;
       _remove_worker_from_distributed_config worker_id ;;
       debug_log (Log_unregistered worker_id) ;;
       ret (Success (Some ("Worker " ++ worker_id ++ " unregistered")%string))
     else ret (Failure "Worker not found"))
    (fun e => debug_log (Log_unregister_error e) ;; ret (Failure e)).

(** The loop of [get_active_workers] over [list(self.claimed_workers.items())]. *)
Fixpoint sweep (items : list (string * worker_info))
  (active_workers : list worker_info) : M (list worker_info) :=
  match items with
  | [] => ret active_workers
  | (worker_id, info) :: rest =>
      timeout <- gets (fun s => worker_heartbeat_timeout (self s)) ;;
      if clock env - w_last_seen info <? timeout then
        sweep rest (active_workers ++ [info])
      else
        update_claimed (Dict.del worker_id) ;;
        debug_log (Log_stale worker_id) ;;
        sweep rest active_workers
  end.

Definition get_active_workers : M (list worker_info) :=
  items <- gets (fun s => claimed_workers (self s)) ;;
  sweep items [].

(** A line of a job file: the text and the line feed that ends it. *)
Definition line (text : string) : string :=
  (text ++ String (ascii_of_nat 10) EmptyString)%string.

(** The strings written to [job_info.txt], one per [f.write]. *)
Definition job_info (job_name : string) (count : Z) (master_ws : string)
  (priority : Z) (pool group : string) : list string :=
  let parts := Py.split_on ":" master_ws in
  map line
    [ "Plugin=ComfyUI";
      ("Name=" ++ job_name)%string;
      "Comment=ComfyUI Distributed Workers - Interactive Mode";
      "Department=ComfyUI";
      ("Priority=" ++ Py.str priority)%string;
      ("Pool=" ++ (if String.eqb pool "none" then "" else pool))%string;
      ("Group=" ++ (if String.eqb group "none" then "" else group))%string;
      "TaskTimeoutMinutes=0";
      "EnableAutoTimeout=false";
      "ConcurrentTasks=1";
      "LimitConcurrentTasksToNumberOfCpus=false";
      ("MachineLimit=" ++ Py.str count)%string;
      ("Frames=1-" ++ Py.str count)%string;
      "ChunkSize=1";
      "EnvironmentKeyValue0=DEADLINE_DIST_MODE=1";
      ("EnvironmentKeyValue1=COMFY_MASTER_WS=" ++ master_ws)%string;
      ("EnvironmentKeyValue2=COMFY_MASTER_HOST=" ++ nth 0 parts "")%string;
      ("EnvironmentKeyValue3=COMFY_MASTER_PORT="
         ++ (if Py.contains ":" master_ws then nth 1 parts "" else "8188"))%string;
      "EnvironmentKeyValue4=COMFY_FORCE_NEW_INSTANCE=1";
      "EnvironmentKeyValue5=COMFY_WORKER_MODE=1" ].

(** The strings written to [plugin_info.txt]. *)
Definition plugin_info (dummy_workflow_file : string) : list string :=
  map line
    [ "DefaultCudaDeviceZero=True";
      "SeedMode=fixed";
      "BatchMode=False";
      "DistributedMode=True";
      "WorkerMode=True";
      "ForceNewInstance=True";
      "UseExistingInstance=False";
      ("WorkflowFile=" ++ dummy_workflow_file)%string ].

(** [os.path.join(temp_dir, name)] for a plain file name. *)
Definition path_join (temp_dir name : string) : string :=
  (temp_dir ++ os_sep env ++ name)%string.

Definition same_file (f g : job_file) : bool :=
  match f, g with
  | Job_info, Job_info | Workflow, Workflow | Plugin_info, Plugin_info => true
  | _, _ => false
  end.

(** One [with open(path, 'w') as f] block that writes [c]: when [open]
    raises nothing is written, and when the body raises the file stays
    behind, incomplete. *)
Definition with_open (f : job_file) (path : string) (c : content) : M unit :=
  match fs_error env with
  | Some (At_open g, e) =>
      if same_file f g then raise e else write_file path c
  | Some (At_write g, e) =>
      if same_file f g then write_file path Incomplete ;; raise e
      else write_file path c
  | _ => write_file path c
  end.

(** The directory, then the three files one after the other: a failure
    leaves the files written before it. *)
Definition _create_worker_job_files (job_name : string) (count : Z)
  (master_ws : string) (priority : Z) (pool group : string)
  : M (string * string * string) :=
  match fs_error env with
  | Some (At_mkdtemp, e) => raise e
  | _ =>
      let temp_dir := mkdtemp env in
      let job_info_file := path_join temp_dir "job_info.txt" in
      let plugin_info_file := path_join temp_dir "plugin_info.txt" in
      with_open Job_info job_info_file
        (Text (job_info job_name count master_ws priority pool group)) ;;
      let dummy_workflow_file := path_join temp_dir "worker_registration.json" in
      with_open Workflow dummy_workflow_file RegistrationWorkflow ;;
      with_open Plugin_info plugin_info_file
        (Text (plugin_info dummy_workflow_file)) ;;
      debug_log (Log_job_files job_info_file plugin_info_file dummy_workflow_file) ;;
      ret (job_info_file, plugin_info_file, dummy_workflow_file)
  end.

Definition _extract_job_id (stdout : string) : M string :=
  match first_job_token (Py.split stdout) with
  | Some job_id => debug_log (Log_job_id job_id) ;; ret job_id
  | None =>
      match Re.search stdout with
      | Some job_id => debug_log (Log_job_id_regex job_id) ;; ret job_id
      | None => debug_log (Log_no_job_id stdout) ;; ret ""
      end
  end.

Definition when (b : bool) (m : M unit) : M unit := if b then m else ret tt.

Definition claim_workers (count : Z) (master_ws : string) (priority : Z)
  (pool group : string) : M reply :=
  command <- gets (fun s => deadline_command (self s)) ;;
  match command with
  | Some ((String _ _) as deadline_command) =>
      try_except
        (let job_name := ("[DIST] ComfyUI Workers x" ++ Py.str count)%string in
         files <- _create_worker_job_files job_name count master_ws
                    priority pool group ;;
         let '(job_info_file, plugin_info_file, workflow_file) := files in
         result <- run_process [deadline_command; "-SubmitJob"; job_info_file;
                                plugin_info_file; workflow_file] ;;
         let '(returncode, stdout, stderr) := result in
         debug_log (Log_submit_returncode returncode) ;;
         debug_log (Log_submit_stdout stdout) ;;
         when (nonempty stderr) (debug_log (Log_submit_stderr stderr)) ;;
         if returncode =? 0 then
           job_id <- _extract_job_id stdout ;;
           if nonempty job_id then
             update_jobs
               (Dict.set job_id
                  {| j_type := "distributed"; j_count := count;
                     j_master_ws := master_ws;
                     j_submitted_at := clock env |}) ;;
             ret (Claimed job_id
                    ("Successfully claimed " ++ Py.str count
                     ++ " workers for distributed processing (Job: "
                     ++ job_id ++ ")")%string)
           else ret (Failure "Job submitted but JobID not found in output")
         else
           ret (Failure ("Deadline submission failed with code "
                         ++ Py.str returncode ++ ": " ++ stderr)%string))
        (fun e => debug_log (Log_claim_error e) ;; ret (Failure e))
  | _ => ret (Failure "Deadline not available")
  end.

(** The loop of [release_workers] over [jobs_to_release]. *)
Fixpoint release_loop (deadline_command : string) (jobs : list string)
  (released_count : Z) : M Z :=
  match jobs with
  | [] => ret released_count
  | jid :: rest =>
      debug_log (Log_releasing jid) ;;
      result <- run_process [deadline_command; "-DeleteJob"; jid] ;;
      let '(returncode, _, stderr) := result in
      debug_log (Log_delete_returncode returncode) ;;
      when (nonempty stderr) (debug_log (Log_delete_stderr stderr)) ;;
      if returncode =? 0 then
        update_jobs (Dict.del jid) ;;
        debug_log (Log_released jid) ;;
        release_loop deadline_command rest (released_count + 1)
      else
        debug_log (Log_release_failed jid stderr) ;;
        release_loop deadline_command rest released_count
  end.

Definition is_distributed (kv : string * job_data) : bool :=
  String.eqb (j_type (snd kv)) "distributed".

(** [jobs_to_release]: a missing or empty [job_ids] means every job whose
    type is "distributed". *)
Definition jobs_to_release (job_ids : option (list string))
  (jobs : Dict.t job_data) : list string :=
  match job_ids with
  | Some ((_ :: _) as ids) => filter (fun jid => Dict.mem jid jobs) ids
  | _ => map fst (filter is_distributed jobs)
  end.

Definition release_workers (job_ids : option (list string)) : M reply :=
  command <- gets (fun s => deadline_command (self s)) ;;
  match command with
  | Some ((String _ _) as deadline_command) =>
      try_except
        (jobs <- gets (fun s => active_jobs (self s)) ;;
         released_count <- release_loop deadline_command
                             (jobs_to_release job_ids jobs) 0 ;;
         ret (Released released_count
                ("Released " ++ Py.str released_count ++ " worker job(s)")%string))
        (fun e => ret (Failure e))
  | _ => ret (Failure "Deadline not available")
  end.

Definition get_worker_status : M reply :=
  command <- gets (fun s => deadline_command (self s)) ;;
  match command with
  | Some (String _ _) =>
      try_except
        (active_workers <- get_active_workers ;;
         jobs <- gets (fun s => active_jobs (self s)) ;;
         ret (StatusUp 16 (Z.of_nat (List.length active_workers)) 16
                (Dict.len jobs) active_workers))
        (fun e => debug_log (Log_status_error e) ;; ret (StatusDown e))
  | _ => ret (StatusDown "Deadline not available")
  end.

End Methods.

(** ** Requests

    The six endpoints registered by [register_api_endpoints], with the
    defaults of [data.get] already applied. *)

Inductive request :=
| Status
| Claim (count : Z) (master_ws : string) (priority : Z) (pool group : string)
| Release (job_ids : option (list string))
| Register (worker_id worker_ip : string) (worker_port : Z) (job_id : option string)
| Heartbeat (worker_id : string)
| Unregister (worker_id : string).

Definition handle (env : environment) (r : request) : M reply :=
  match r with
  | Status => get_worker_status env
  | Claim count master_ws priority pool group =>
      claim_workers env count master_ws priority pool group
  | Release job_ids => release_workers env job_ids
  | Register worker_id worker_ip worker_port job_id =>
      register_worker env worker_id worker_ip worker_port job_id
  | Heartbeat worker_id => worker_heartbeat env worker_id
  | Unregister worker_id => unregister_worker env worker_id
  end.

(** The state after a sequence of requests, each with its own environment. *)
Fixpoint run (trace : list (environment * request)) (s : system) : system :=
  match trace with
  | [] => s
  | (env, r) :: rest => run rest (snd (handle env r s))
  end.

(** The states the process can be in. *)
Inductive reachable : system -> Prop :=
| reachable_boot command c : reachable (boot command c)
| reachable_step env r s : reachable s -> reachable (snd (handle env r s)).

(** ** The legacy module

    [deadline_integration.py] defines an older [DeadlineIntegration].  The
    package does not import it; two of its helpers are kept here because
    they differ from the ones above: the extraction of the job identifier
    has no fallback pattern and answers "unknown", which [claim_workers]
    of that module records as a job, and the job file asks for one frame. *)

Module Legacy.

(** [s.lstrip()] and [s.rstrip()]. *)
Fixpoint lstrip (s : string) : string :=
  match s with
  | String c rest => if Py.isspace c then lstrip rest else s
  | EmptyString => s
  end.

Fixpoint rstrip (s : string) : string :=
  match s with
  | EmptyString => EmptyString
  | String c rest =>
      match rstrip rest with
      | EmptyString => if Py.isspace c then EmptyString else String c EmptyString
      | kept => String c kept
      end
  end.

Definition strip (s : string) : string := rstrip (lstrip s).

(** The text after the first occurrence of [p] in [s], if [p in s]. *)
Fixpoint after_first (p s : string) : option string :=
  if String.prefix p s then Some (Py.drop (String.length p) s)
  else match s with
       | EmptyString => None
       | String _ rest => after_first p rest
       end.

(** The text before the first occurrence of [p] in [s], or all of [s]. *)
Fixpoint before_first (p s : string) : string :=
  if String.prefix p s then EmptyString
  else match s with
       | EmptyString => EmptyString
       | String c rest => String c (before_first p rest)
       end.

(** The loop of the legacy [_extract_job_id] over the lines:
    [line.split('JobID=')[1].strip()] for the first line that holds
    [JobID=]. *)
Fixpoint scan (lines : list string) : string :=
  match lines with
  | [] => "unknown"
  | l :: rest =>
      match after_first "JobID=" l with
      | Some tail => strip (before_first "JobID=" tail)
      | None => scan rest
      end
  end.

Definition _extract_job_id (stdout : string) : string :=
  scan (Py.split_on (ascii_of_nat 10) (strip stdout)).

(** The strings written by the legacy [_create_worker_job_info]. *)
Definition job_info (job_name : string) (count : Z) (master_ws : string)
  : list string :=
  map line
    [ "Plugin=ComfyUI";
      ("Name=" ++ job_name)%string;
      "Comment=ComfyUI Distributed Workers";
      "Department=ComfyUI";
      "Priority=50";
      "TaskTimeoutMinutes=0";
      "EnableAutoTimeout=false";
      "ConcurrentTasks=1";
      "LimitConcurrentTasksToNumberOfCpus=false";
      ("MachineLimit=" ++ Py.str count)%string;
      "Frames=1";
      "ChunkSize=1";
      "EnvironmentKeyValue0=DEADLINE_DIST_MODE=1";
      ("EnvironmentKeyValue1=COMFY_MASTER_WS=" ++ master_ws)%string ].

(** The legacy [_create_worker_job_info]: one named temporary file, whose
    name is read from the environment like the directory above.  A failure
    in the body of the [with] block leaves the file incomplete; any other
    failure is that of [NamedTemporaryFile]. *)
Definition _create_worker_job_info (env : environment) (job_name : string)
  (count : Z) (master_ws : string) : M string :=
  let name := (mkdtemp env ++ ".job")%string in
  match fs_error env with
  | Some (At_write _, e) => write_file name Incomplete ;; raise e
  | Some (_, e) => raise e
  | None =>
      write_file name (Text (job_info job_name count master_ws)) ;;
      ret name
  end.

(** The legacy [claim_workers]: whatever the extraction answers is recorded
    as a job. *)
Definition claim_workers (env : environment) (count : Z) (master_ws : string)
  : M reply :=
  command <- gets (fun s => deadline_command (self s)) ;;
  match command with
  | Some ((String _ _) as deadline_command) =>
      try_except
        (let job_name := ("[DIST] ComfyUI Workers x" ++ Py.str count)%string in
         job_info_file <- _create_worker_job_info env job_name count master_ws ;;
         result <- run_process env
                     [deadline_command; "-SubmitJob"; job_info_file] ;;
         let '(returncode, stdout, stderr) := result in
         if returncode =? 0 then
           let job_id := _extract_job_id stdout in
           update_jobs
             (Dict.set job_id
                {| j_type := "distributed"; j_count := count;
                   j_master_ws := master_ws;
                   j_submitted_at := clock env |}) ;;
           ret (Claimed job_id
                  ("Claimed " ++ Py.str count
                   ++ " workers for distributed processing")%string)
         else
           ret (Failure ("Deadline submission failed: " ++ stderr)%string))
        (fun e => ret (Failure e))
  | _ => ret (Failure "Deadline not available")
  end.

End Legacy.

(** ** The worker side

    [deadline_worker_registration.py] is the node that a provisioned worker
    runs to announce itself to the coordinator.  It reads its flags through
    [get_distributed_config] of [utils/distributed_config.py]; the helper
    of the scheduler plug-in, [deadline_plugin_helpers.py], resolves the
    same flags in its own way.  The lines these functions print are left
    out; the requests sent and the thread started are kept. *)

Module Worker.

(** What [PluginLoader.GetDeadlinePlugin()] gives: the import or a call on
    the plug-in raises, the plug-in is missing, or it answers
    [GetBooleanPluginInfoEntryWithDefault(key, False)] for every key. *)
Inductive plugin_loader :=
| Loader_raises
| No_plugin
| Plugin (GetBooleanPluginInfoEntryWithDefault : string -> bool).

(** The JSON of the registration request. *)
Record registration_data := {
  worker_id : string;
  worker_ip : string;
  worker_port : Z;
  job_id : string
}.

(** What [response.json()] gives: it raises, or it is an object read
    through [result.get('success')] and
    [result.get('error', 'Unknown error')]. *)
Inductive body :=
| Bad_body (e : string)
| Json (success : bool) (error : string).

(** The fate of [requests.post]. *)
Inductive http :=
| Response (status_code : Z) (b : body)
| Request_raises (e : string).

(** Everything the node reads from its process. *)
Record process := {
  argv : list string;
  environ : Dict.t string;
  gethostname : string;
  getsockname : string -> option string;
  plugin : plugin_loader;
  post : string -> registration_data -> http
}.

(** What the node does to the outside. *)
Inductive effect :=
| Post (url : string) (data : registration_data)
| Start_heartbeat (master_host : string) (master_port : Z) (worker_id : string).

(** The five texts the node can return as its status. *)
Inductive status :=
| Skipped
| Registered (worker_id : string)
| Failed (error : string)
| Http_error (status_code : Z)
| Errored (e : string).

(** [os.environ.get(key)] and [os.environ.get(key, default)]. *)
Definition getenv (p : process) (key : string) : option string :=
  Dict.get key (environ p).

Definition getenv_default (p : process) (key default : string) : string :=
  match getenv p key with Some v => v | None => default end.

(** [a or b] for a string that may be missing. *)
Definition or_else (a : option string) (b : string) : string :=
  match a with
  | Some ((String _ _) as v) => v
  | _ => b
  end.

(** [c.lower()] for one character. *)
Definition lower_char (c : ascii) : ascii :=
  let n := N_of_ascii c in
  if (((65 <=? n) && (n <=? 90))
      || ((192 <=? n) && (n <=? 222) && negb (n =? 215)))%N
  then ascii_of_N (n + 32) else c.

(** [s.lower()]. *)
Fixpoint lower (s : string) : string :=
  match s with
  | EmptyString => EmptyString
  | String c rest => String (lower_char c) (lower rest)
  end.

(** [value.lower() in ('1', 'true', 'yes')]. *)
Definition truthy (value : string) : bool :=
  existsb (String.eqb (lower value)) ["1"; "true"; "yes"].

(** The three flags as the environment gives them. *)
Definition environment_flags (p : process) : bool * bool * bool :=
  (truthy (getenv_default p "COMFY_WORKER_MODE" "0"),
   truthy (getenv_default p "DEADLINE_DIST_MODE" "0"),
   truthy (getenv_default p "COMFY_FORCE_NEW_INSTANCE" "0")).

(** [get_distributed_config] of [utils/distributed_config.py]:
    [(worker_mode, distributed_mode, force_new_instance)]. *)
Definition get_distributed_config (p : process) : bool * bool * bool :=
  match plugin p with
  | Plugin entry =>
      (entry "WorkerMode", entry "DistributedMode", entry "ForceNewInstance")
  | _ => environment_flags p
  end.

(** [get_distributed_config_for_plugin] of [deadline_plugin_helpers.py],
    for a plug-in that answers [entry]. *)
Definition get_distributed_config_for_plugin (entry : string -> bool)
  (p : process) : bool * bool * bool :=
  let worker_mode := entry "WorkerMode" in
  let distributed_mode := entry "DistributedMode" in
  let force_new_instance := entry "ForceNewInstance" in
  if negb worker_mode && negb distributed_mode && negb force_new_instance
  then environment_flags p
  else (worker_mode, distributed_mode, force_new_instance).

(** [get_deadline_context]. *)
Record context := {
  ctx_worker_id : string;
  ctx_task_id : string;
  ctx_job_id : string;
  master_ws : string;
  master_host : string;
  master_port : string
}.

Definition get_deadline_context (p : process) : context :=
  {| ctx_worker_id := getenv_default p "DEADLINE_SLAVE_NAME" "unknown";
     ctx_task_id := getenv_default p "DEADLINE_TASK_ID" "unknown";
     ctx_job_id := getenv_default p "DEADLINE_JOB_ID" "unknown";
     master_ws := getenv_default p "COMFY_MASTER_WS" "localhost:8188";
     master_host := getenv_default p "COMFY_MASTER_HOST" "localhost";
     master_port := getenv_default p "COMFY_MASTER_PORT" "8188" |}.

(** The locals [task_id] and [job_id] of [_get_worker_id]. *)
Definition task_of (p : process) : string :=
  or_else (getenv p "DEADLINE_TASK_ID")
    (or_else (getenv p "DEADLINE_WORKER_ID")
       (or_else (getenv p "DEADLINE_SLAVE_ID") "w1")).

Definition job_of (p : process) : string :=
  or_else (getenv p "DEADLINE_JOB_ID")
    (or_else (getenv p "DEADLINE_JOBID") "unknown").

(** [job_id[-8:] if len(job_id) > 8 else job_id]. *)
Definition job_short (job_id : string) : string :=
  if (8 <? String.length job_id)%nat
  then Py.drop (String.length job_id - 8) job_id
  else job_id.

Definition _get_worker_id (p : process) : string :=
  let hostname := gethostname p in
  let task_id := task_of p in
  let job_id := job_of p in
  ("deadline-" ++ hostname ++ "-" ++ job_short job_id ++ "-" ++ task_id)%string.

(** [_get_worker_ip]: the bare [except] turns every failure of the socket
    into the loop-back address. *)
Definition _get_worker_ip (p : process) : string :=
  let master_host := getenv_default p "COMFY_MASTER_HOST" "localhost" in
  if existsb (String.eqb master_host) ["localhost"; "127.0.0.1"]
  then "127.0.0.1"
  else match getsockname p master_host with
       | Some address => address
       | None => "127.0.0.1"
       end.

(** [l.index(x)]: [None] stands for the [ValueError]. *)
Fixpoint index (x : string) (l : list string) : option nat :=
  match l with
  | [] => None
  | y :: rest =>
      if String.eqb y x then Some O else option_map S (index x rest)
  end.

Section Int.

(** [int(s)] for a string; [Raise] carries the [ValueError]. *)
Variable int : string -> outcome Z.

(** How the loop of [_get_worker_port] over [sys.argv] ends: with a
    [return], with an exception, or at the end of the list. *)
Inductive scanned :=
| Returned (port : Z)
| Raised
| Finished.

Definition parsed (s : option string) : scanned :=
  match s with
  | Some v => match int v with Return n => Returned n | Raise _ => Raised end
  | None => Raised
  end.

Fixpoint scan (sys_argv args : list string) : scanned :=
  match args with
  | [] => Finished
  | arg :: rest =>
      if Py.startswith "--port" arg then
        match index arg sys_argv with
        | None => Raised
        | Some i =>
            let next_idx := (i + 1)%nat in
            if (next_idx <? List.length sys_argv)%nat
            then parsed (nth_error sys_argv next_idx)
            else scan sys_argv rest
        end
      else if Py.contains "=" arg && Py.startswith "--port=" arg then
        parsed (nth_error (Py.split_on "=" arg) 1)
      else scan sys_argv rest
  end.

(** The second half of [_get_worker_port]: the port of the task. *)
Definition task_port (p : process) : Z :=
  match int (getenv_default p "DEADLINE_TASK_ID" "1") with
  | Return task_id =>
      let base_port := 8188 in
      base_port + 100 + task_id
  | Raise _ => 8289
  end.

Definition _get_worker_port (p : process) : Z :=
  match scan (argv p) (argv p) with
  | Returned port => port
  | _ => task_port p
  end.

(** [register_worker] of the node: the status it returns, or the exception
    it lets through, and what it has done. *)
Definition register_worker (p : process) : outcome status * list effect :=
  let '(worker_mode, distributed_mode, force_new_instance) :=
    get_distributed_config p in
  let deadline_context := get_deadline_context p in
  if negb distributed_mode then (Return Skipped, [])
  else
    let master_host := master_host deadline_context in
    match int (master_port deadline_context) with
    | Raise e => (Raise e, [])
    | Return master_port =>
        let worker_id := _get_worker_id p in
        let registration_data :=
          {| worker_id := worker_id;
             worker_ip := _get_worker_ip p;
             worker_port := _get_worker_port p;
             job_id := getenv_default p "DEADLINE_JOB_ID" "" |} in
        let url := ("http://" ++ master_host ++ ":" ++ Py.str master_port
                    ++ "/deadline/register_worker")%string in
        match post p url registration_data with
        | Request_raises e => (Return (Errored e), [Post url registration_data])
        | Response status_code b =>
            if status_code =? 200 then
              match b with
              | Bad_body e => (Return (Errored e), [Post url registration_data])
              | Json true _ =>
                  (Return (Registered worker_id),
                   [Post url registration_data;
                    Start_heartbeat master_host master_port worker_id])
              | Json false error =>
                  (Return (Failed error), [Post url registration_data])
              end
            else (Return (Http_error status_code), [Post url registration_data])
        end
    end.

End Int.

End Worker.

(** ** The seed node

    [DeadlineDistributedSeed] of [deadline_seed_node.py] gives every task
    its own seed.  The seeded generator of the mode "random" is read from
    outside: [randint key] is what [random.randint(0, 0xffffffffffffffff)]
    gives after [random.seed(key)]. *)

Module Seed.

Section Seed.

(** [int(s)] for a string; [Raise] carries the [ValueError]. *)
Variable int : string -> outcome Z.

Variable randint : string -> Z.

(** The loop of [_fibonacci], [count] rounds of [a, b = b, a + b]. *)
Fixpoint rounds (count : nat) (a b : Z) : Z :=
  match count with
  | O => b
  | S count' => rounds count' b (a + b)
  end.

(** [range(2, n + 1)] has [n - 1] elements. *)
Definition _fibonacci (n : Z) : Z :=
  if n <=? 1 then n
  else rounds (Z.to_nat (n + 1 - 2)) 0 1.

(** [0xffffffffffffffff]. *)
Definition max_seed : Z := 18446744073709551615.

(** [generate_seed]: the pair [(final_seed, info)], or [None] when the
    [return] finds [final_seed] unbound. *)
Definition generate_seed (environ : Dict.t string) (base_seed : Z)
  (mode : string) (seed_offset : Z) : option (Z * string) :=
  let get key := match Dict.get key environ with Some v => v | None => "" end in
  let worker_id := get "DEADLINE_SLAVE_NAME" in
  let task_id := get "DEADLINE_TASK_ID" in
  let job_id := get "DEADLINE_JOB_ID" in
  if nonempty worker_id && nonempty task_id then
    let task_num := match int task_id with Return n => n | Raise _ => 0 end in
    if String.eqb mode "increment" then
      let final_seed := base_seed + task_num + seed_offset in
      Some (final_seed,
            ("Deadline increment: Worker=" ++ worker_id ++ ", Task="
             ++ Py.str task_num ++ ", Seed=" ++ Py.str final_seed)%string)
    else if String.eqb mode "random" then
      let final_seed :=
        randint (job_id ++ "_" ++ task_id ++ "_" ++ Py.str base_seed) in
      Some (final_seed,
            ("Deadline random: Worker=" ++ worker_id ++ ", Task="
             ++ Py.str task_num ++ ", Seed=" ++ Py.str final_seed)%string)
    else if String.eqb mode "fibonacci" then
      let fib_n := _fibonacci (task_num + seed_offset) in
      let final_seed := (base_seed + fib_n) mod max_seed in
      Some (final_seed,
            ("Deadline fibonacci: Worker=" ++ worker_id ++ ", Task="
             ++ Py.str task_num ++ ", Fib=" ++ Py.str fib_n ++ ", Seed="
             ++ Py.str final_seed)%string)
    else None
  else
    let final_seed := base_seed + seed_offset in
    Some (final_seed,
          ("Local mode (no Deadline): Seed=" ++ Py.str final_seed)%string).

End Seed.

End Seed.

(** ** Notions used in the statements *)

(** A record is live when its last report is less than the time-out old. *)
Definition live (now timeout : Z) (kv : string * worker_info) : bool :=
  now - w_last_seen (snd kv) <? timeout.

Definition stale (now timeout : Z) (kv : string * worker_info) : bool :=
  negb (live now timeout kv).

(** The state after one stale record is dropped. *)
Definition evict (k : string) (s : system) : system :=
  {| self := set_claimed_workers (Dict.del k (claimed_workers (self s))) (self s);
     config_file := config_file s;
     console := console s ++ [Log_stale k];
     spawned := spawned s;
     disk := disk s |}.

(** The configuration store answers: one of the two imports works, and
    neither [load_config] nor [save_config] raises. *)
Definition store_ok (env : environment) : bool :=
  match importlib_error env, relative_import_error env with
  | Some _, Some _ => false
  | _, _ => true
  end
  && match load_error env with None => true | Some _ => false end
  && match save_error env with None => true | Some _ => false end.

(** What a successful [_add_worker_to_distributed_config] leaves in the
    [workers] list. *)
Definition mirrored_add (env : environment) (worker_id worker_ip : string)
  (worker_port : Z) (ws : list worker_config) : list worker_config :=
  match find_existing worker_id ws O with
  | Some i => list_set i (worker_entry env worker_id worker_ip worker_port) ws
  | None => ws ++ [worker_entry env worker_id worker_ip worker_port]
  end.

Definition workers_of (c : config) : list worker_config :=
  match workers c with Some ws => ws | None => [] end.

(** Only the console and the configuration file differ between two states. *)
Definition same_process (s s' : system) : Prop :=
  self s' = self s /\ spawned s' = spawned s /\ disk s' = disk s.

Definition registration (env : environment) (worker_id worker_ip : string)
  (worker_port : Z) (job_id : option string) : worker_info :=
  {| w_id := worker_id; w_ip := worker_ip; w_port := worker_port;
     w_job_id := job_id; w_last_seen := clock env |}.

(** The identifier that [_extract_job_id] returns. *)
Definition job_id_of (stdout : string) : string :=
  match first_job_token (Py.split stdout) with
  | Some job_id => job_id
  | None => match Re.search stdout with
            | Some job_id => job_id
            | None => ""
            end
  end.

Definition delete_job (deadline_command jid : string) : list string :=
  [deadline_command; "-DeleteJob"; jid].

(** The three things the loop of [release_workers] decides, for a scheduler
    that has been sent [n] command lines before: the jobs it asks the
    scheduler to delete, the jobs whose deletion exits with code 0, and the
    exception that stops it, if any. *)
Fixpoint tried (env : environment) (cmd : string) (n : nat) (jobs : list string)
  : list string :=
  match jobs with
  | [] => []
  | jid :: rest =>
      jid :: match subprocess_run env n (delete_job cmd jid) with
             | Completed _ _ _ => tried env cmd (S n) rest
             | Crashed _ => []
             end
  end.

Fixpoint confirmed (env : environment) (cmd : string) (n : nat)
  (jobs : list string) : list string :=
  match jobs with
  | [] => []
  | jid :: rest =>
      match subprocess_run env n (delete_job cmd jid) with
      | Completed rc _ _ =>
          if rc =? 0 then jid :: confirmed env cmd (S n) rest
          else confirmed env cmd (S n) rest
      | Crashed _ => []
      end
  end.

Fixpoint crash (env : environment) (cmd : string) (n : nat)
  (jobs : list string) : option string :=
  match jobs with
  | [] => None
  | jid :: rest =>
      match subprocess_run env n (delete_job cmd jid) with
      | Completed _ _ _ => crash env cmd (S n) rest
      | Crashed e => Some e
      end
  end.

Record consistent (o : DeadlineIntegration) : Prop := {
  workers_distinct : Dict.ok (claimed_workers o);
  workers_named : forall k w, In (k, w) (claimed_workers o) -> w_id w = k;
  jobs_distinct : Dict.ok (active_jobs o);
  jobs_distributed :
    forall k j, In (k, j) (active_jobs o) -> j_type j = "distributed"%string;
  timeout_default : worker_heartbeat_timeout o = 60
}.

(** The scheduler command was found: the guard that opens [get_worker_status],
    [claim_workers] and [release_workers] lets the call through. *)
Definition configured (s : system) : bool :=
  match deadline_command (self s) with
  | Some c => nonempty c
  | None => false
  end.

(** The jobs that [release_workers] removes when it is given no identifier
    and the deletion of job [jid] exits with code [rc jid]. *)
Definition released_by (rc : string -> Z) (kv : string * job_data) : bool :=
  is_distributed kv && (rc (fst kv) =? 0).

(** The command line of [claim_workers]. *)
Definition submit_job (env : environment) (cmd : string) : list string :=
  [ cmd; "-SubmitJob";
    path_join env (mkdtemp env) "job_info.txt";
    path_join env (mkdtemp env) "plugin_info.txt";
    path_join env (mkdtemp env) "worker_registration.json" ].

(** Replace the first entry for [worker_id], or append: what the search and
    the assignment of [_add_worker_to_distributed_config] amount to. *)
Fixpoint upsert (worker_id : string) (e : worker_config)
  (ws : list worker_config) : list worker_config :=
  match ws with
  | [] => [e]
  | w :: rest =>
      if has_id worker_id w then e :: rest else w :: upsert worker_id e rest
  end.

(** The request is a report of the worker [id]: a registration or a
    heartbeat under that identifier. *)
Definition reports (id : string) (r : request) : bool :=
  match r with
  | Register i _ _ _ => String.eqb i id
  | Heartbeat i => String.eqb i id
  | _ => false
  end.

(** The time of the latest report of [id] in a trace that follows a report
    made at time [last]. *)
Fixpoint last_report (id : string) (last : Z)
  (trace : list (environment * request)) : Z :=
  match trace with
  | [] => last
  | (env, r) :: rest =>
      last_report id (if reports id r then clock env else last) rest
  end.

(** The calls of the trace are spaced under the time-out for [id]: every
    heartbeat of [id] and every listing comes less than [timeout] after the
    latest report of [id], and [id] is not unregistered. *)
Fixpoint spaced (timeout : Z) (id : string) (last : Z)
  (trace : list (environment * request)) : bool :=
  match trace with
  | [] => true
  | (env, r) :: rest =>
      match r with
      | Heartbeat i => negb (String.eqb i id) || (clock env - last <? timeout)
      | Status => clock env - last <? timeout
      | Unregister i => negb (String.eqb i id)
      | _ => true
      end
      && spaced timeout id (if reports id r then clock env else last) rest
  end.

(** ** Environments and states of the examples *)

(** A farm on which every command succeeds and prints the job identifier
    [abc123]; the clock reads [t]. *)
Definition farm (t : Z) : environment :=
  {| clock := t;
     hostname := "render01";
     importlib_error := None;
     relative_import_error := None;
     load_error := None;
     save_error := None;
     mkdtemp := "/tmp/comfy_deadline_workers_0";
     os_sep := "/";
     fs_error := None;
     subprocess_run := fun _ _ => Completed 0 "JobID=abc123" "" |}.

(** A farm whose submission succeeds without printing a job identifier. *)
Definition silent_farm : environment :=
  {| clock := 0;
     hostname := "render01";
     importlib_error := None;
     relative_import_error := None;
     load_error := None;
     save_error := None;
     mkdtemp := "/tmp/comfy_deadline_workers_0";
     os_sep := "/";
     fs_error := None;
     subprocess_run := fun _ _ => Completed 0 "Submitting job... done" "" |}.

(** A farm whose deletion command never comes back within the time-out. *)
Definition stuck_farm (t : Z) : environment :=
  {| clock := t;
     hostname := "render01";
     importlib_error := None;
     relative_import_error := None;
     load_error := None;
     save_error := None;
     mkdtemp := "/tmp/comfy_deadline_workers_0";
     os_sep := "/";
     fs_error := None;
     subprocess_run := fun _ argv =>
       match argv with
       | [_; "-DeleteJob"; _] => Crashed "Command timed out after 10 seconds"
       | _ => Completed 0 "JobID=abc123" ""
       end |}.

(** A farm that refuses to delete the job "c". *)
Definition picky_farm : environment :=
  {| clock := 100;
     hostname := "render01";
     importlib_error := None;
     relative_import_error := None;
     load_error := None;
     save_error := None;
     mkdtemp := "/tmp/comfy_deadline_workers_0";
     os_sep := "/";
     fs_error := None;
     subprocess_run := fun _ argv =>
       match argv with
       | [_; "-DeleteJob"; "c"] => Completed 1 "" "Job not found"
       | _ => Completed 0 "" ""
       end |}.

(** A store on which nothing can be imported. *)
Definition broken_store (t : Z) : environment :=
  {| clock := t;
     hostname := "render01";
     importlib_error := Some "No module named 'utils.config'";
     relative_import_error :=
       Some "attempted relative import with no known parent package";
     load_error := None;
     save_error := None;
     mkdtemp := "/tmp/comfy_deadline_workers_0";
     os_sep := "/";
     fs_error := None;
     subprocess_run := fun _ _ => Completed 0 "JobID=abc123" "" |}.

Definition fresh_process : system :=
  boot (Some "deadlinecommand") {| workers := None |}.

Definition no_command : system := boot None {| workers := None |}.

(** One claim of three workers, then three registrations. *)
Definition three_workers : system :=
  run [ (farm 0, Claim 3 "localhost:8188" 50 "none" "none");
        (farm 10, Register "w1" "10.0.0.1" 8289 (Some "abc123"));
        (farm 20, Register "w2" "10.0.0.2" 8289 (Some "abc123"));
        (farm 30, Register "w3" "10.0.0.3" 8289 (Some "abc123")) ]
      fresh_process.

(** The same process after [w2] and [w3] reported at time 65 and [w1] did
    not. *)
Definition one_silent : system :=
  run [ (farm 65, Heartbeat "w2"); (farm 65, Heartbeat "w3") ] three_workers.

(** A worker registered at 10.0.0.1, then again at 10.0.0.2 while the
    configuration module cannot be imported. *)
Definition moved_worker : system :=
  run [ (farm 10, Register "w1" "10.0.0.1" 8289 None);
        (broken_store 20, Register "w1" "10.0.0.2" 8290 None) ]
      fresh_process.

Definition job_of_type (type : string) : job_data :=
  {| j_type := type; j_count := 1; j_master_ws := "localhost:8188";
     j_submitted_at := 0 |}.

(** A job table with a job of another type between two provisioning jobs. *)
Definition mixed_jobs : system :=
  {| self := {| deadline_command := Some "deadlinecommand";
                claimed_workers := [];
                active_jobs := [ ("a", job_of_type "distributed");
                                 ("b", job_of_type "batch");
                                 ("c", job_of_type "distributed") ];
                worker_heartbeat_timeout := 60 |};
     config_file := {| workers := None |};
     console := [];
     spawned := [];
     disk := [] |}.

(** Worker [w1] registers at time 10 and reports at 50 and 100; statuses
    are asked at 40 and 90. *)
Definition steady_trace : list (environment * request) :=
  [ (farm 40, Status); (farm 50, Heartbeat "w1");
    (farm 90, Status); (farm 100, Heartbeat "w1") ].

(** The request registers the worker [id]. *)
Definition registers (id : string) (r : request) : bool :=
  match r with
  | Register i _ _ _ => String.eqb i id
  | _ => false
  end.

(** Worker [w1] is dropped by the status asked at 75; it then sends two
    heartbeats while other workers register and report. *)
Definition late_heartbeats : list (environment * request) :=
  [ (farm 80, Heartbeat "w1"); (farm 85, Register "w4" "10.0.0.4" 8289 None);
    (farm 90, Heartbeat "w2"); (farm 95, Status); (farm 99, Heartbeat "w1") ].

(** What a successful [_remove_worker_from_distributed_config] leaves in
    the file: the list without the entries of the worker, written only when
    that makes it shorter. *)
Definition mirrored_remove (worker_id : string) (c : config) : config :=
  match workers c with
  | None => c
  | Some ws =>
      let ws' := filter (fun w => negb (has_id worker_id w)) ws in
      if (List.length ws' <? List.length ws)%nat
      then {| workers := Some ws' |} else c
  end.

(** The job that [claim_workers] records. *)
Definition claimed_job (env : environment) (count : Z) (master_ws : string)
  : job_data :=
  {| j_type := "distributed"; j_count := count; j_master_ws := master_ws;
     j_submitted_at := clock env |}.

(** The three files of a submission, in the order they are written. *)
Definition job_files (env : environment) (count : Z) (master_ws : string)
  (priority : Z) (pool group : string) : list (string * content) :=
  let workflow_file := path_join env (mkdtemp env) "worker_registration.json" in
  [ (path_join env (mkdtemp env) "job_info.txt",
     Text (job_info ("[DIST] ComfyUI Workers x" ++ Py.str count) count
             master_ws priority pool group));
    (workflow_file, RegistrationWorkflow);
    (path_join env (mkdtemp env) "plugin_info.txt",
     Text (plugin_info workflow_file)) ].

(** The answer of [claim_workers] once the command line has been run. *)
Definition claim_reply (count : Z) (result : completed) : reply :=
  match result with
  | Crashed e => Failure e
  | Completed returncode stdout stderr =>
      if returncode =? 0 then
        if nonempty (job_id_of stdout) then
          Claimed (job_id_of stdout)
            ("Successfully claimed " ++ Py.str count
             ++ " workers for distributed processing (Job: "
             ++ job_id_of stdout ++ ")")
        else Failure "Job submitted but JobID not found in output"
      else Failure ("Deadline submission failed with code "
                    ++ Py.str returncode ++ ": " ++ stderr)
  end.

(** A farm that rejects every submission. *)
Definition refusing_farm : environment :=
  {| clock := 0;
     hostname := "render01";
     importlib_error := None;
     relative_import_error := None;
     load_error := None;
     save_error := None;
     mkdtemp := "/tmp/comfy_deadline_workers_0";
     os_sep := "/";
     fs_error := None;
     subprocess_run := fun _ _ =>
       Completed 1 "JobID=abc123" "Error: no pool" |}.

(** A farm that answers the first command and lets every later one run into
    the time-out. *)
Definition flaky_farm : environment :=
  {| clock := 100;
     hostname := "render01";
     importlib_error := None;
     relative_import_error := None;
     load_error := None;
     save_error := None;
     mkdtemp := "/tmp/comfy_deadline_workers_0";
     os_sep := "/";
     fs_error := None;
     subprocess_run := fun n _ =>
       match n with
       | O => Completed 0 "" ""
       | S _ => Crashed "Command timed out after 10 seconds"
       end |}.

(** The keys of the job table are non-empty. *)
Definition jobs_named (o : DeadlineIntegration) : Prop :=
  forall k j, In (k, j) (active_jobs o) -> nonempty k = true.

(** The text is empty or ends with a white-space character. *)
Fixpoint ends_in_space (s : string) : bool :=
  match s with
  | EmptyString => true
  | String c EmptyString => Py.isspace c
  | String _ rest => ends_in_space rest
  end.

(** The text is empty or starts with a white-space character. *)
Definition starts_with_space (s : string) : bool :=
  match s with
  | EmptyString => true
  | String c _ => Py.isspace c
  end.

Definition no_space (s : string) : bool :=
  Py.all_chars (fun c => negb (Py.isspace c)) s.

(** An [int] for the examples: it reads the unsigned decimal numerals, on
    which it agrees with Python, and raises on every other string. *)
Fixpoint digits (acc : Z) (s : string) : option Z :=
  match s with
  | EmptyString => Some acc
  | String c rest =>
      let n := N_of_ascii c in
      if ((48 <=? n) && (n <=? 57))%N
      then digits (10 * acc + Z.of_N (n - 48)) rest
      else None
  end.

Definition decimal (s : string) : outcome Z :=
  match s, digits 0 s with
  | String _ _, Some n => Return n
  | _, _ => Raise ("invalid literal for int() with base 10: '" ++ s ++ "'")
  end.

(** Task 3 of the job [65f0c2a917b3d4e8a1c0ffee] on the machine [render01],
    started with [--port 8291]; every request is refused. *)
Definition render_task : Worker.process :=
  {| Worker.argv := ["main.py"; "--listen"; "--port"; "8291"];
     Worker.environ :=
       [ ("DEADLINE_DIST_MODE", "1");
         ("DEADLINE_TASK_ID", "3");
         ("DEADLINE_JOB_ID", "65f0c2a917b3d4e8a1c0ffee");
         ("COMFY_MASTER_HOST", "10.0.0.9");
         ("COMFY_MASTER_PORT", "8188") ];
     Worker.gethostname := "render01";
     Worker.getsockname := fun _ => Some "10.0.0.7";
     Worker.plugin := Worker.No_plugin;
     Worker.post := fun _ _ => Worker.Request_raises "Connection refused" |}.

(** Task 4 of the same job on the same machine, started with
    [--port=9000]. *)
Definition other_task : Worker.process :=
  {| Worker.argv := ["main.py"; "--port=9000"];
     Worker.environ :=
       [ ("DEADLINE_DIST_MODE", "1");
         ("DEADLINE_TASK_ID", "4");
         ("DEADLINE_JOB_ID", "65f0c2a917b3d4e8a1c0ffee");
         ("COMFY_MASTER_HOST", "10.0.0.9");
         ("COMFY_MASTER_PORT", "8188") ];
     Worker.gethostname := "render01";
     Worker.getsockname := fun _ => Some "10.0.0.7";
     Worker.plugin := Worker.No_plugin;
     Worker.post := fun _ _ => Worker.Request_raises "Connection refused" |}.

(** [deadline_register_worker_endpoint] of [register_api_endpoints]: the
    fields of the request go to [register_worker] and its answer goes back
    as JSON; an answer without an [error] field reads as 'Unknown error' on
    the other side, and an exception would leave as status 500. *)
Definition deadline_register_worker_endpoint (env : environment)
  (data : Worker.registration_data) (s : system) : Worker.http * system :=
  match register_worker env (Worker.worker_id data) (Worker.worker_ip data)
          (Worker.worker_port data) (Some (Worker.job_id data)) s with
  | (Return (Failure e), s') => (Worker.Response 200 (Worker.Json false e), s')
  | (Return _, s') =>
      (Worker.Response 200 (Worker.Json true "Unknown error"), s')
  | (Raise e, s') => (Worker.Response 500 (Worker.Bad_body e), s')
  end.

(** Task 3 of the examples, with the coordinator of the examples at the
    other end of the line. *)
Definition connected_task : Worker.process :=
  {| Worker.argv := Worker.argv render_task;
     Worker.environ := Worker.environ render_task;
     Worker.gethostname := Worker.gethostname render_task;
     Worker.getsockname := Worker.getsockname render_task;
     Worker.plugin := Worker.plugin render_task;
     Worker.post := fun _ data =>
       fst (deadline_register_worker_endpoint (farm 10) data fresh_process) |}.

(** A task inside the scheduler plug-in, whose plug-in sets no flag while
    the environment asks for the distributed mode. *)
Definition plugin_task : Worker.process :=
  {| Worker.argv := ["main.py"];
     Worker.environ := [ ("DEADLINE_DIST_MODE", "TRUE") ];
     Worker.gethostname := "render01";
     Worker.getsockname := fun _ => None;
     Worker.plugin := Worker.Plugin (fun _ => false);
     Worker.post := fun _ _ => Worker.Request_raises "Connection refused" |}.

(** What [_find_deadline_command] reads: the variable [DEADLINE_PATH],
    [os.path.join] and [os.path.exists]. *)
Record installation := {
  DEADLINE_PATH : option string;
  os_path_join : string -> string -> string;
  os_path_exists : string -> bool
}.

Definition common_paths : list string :=
  [ "C:\Program Files\Thinkbox\Deadline10\bin\deadlinecommand.exe";
    "C:\Program Files (x86)\Thinkbox\Deadline10\bin\deadlinecommand.exe" ].

Definition _find_deadline_command (i : installation) : option string :=
  let deadline_bin :=
    match DEADLINE_PATH i with Some v => v | None => "" end in
  if nonempty deadline_bin
     && os_path_exists i (os_path_join i deadline_bin "deadlinecommand.exe")
  then Some (os_path_join i deadline_bin "deadlinecommand.exe")
  else find (os_path_exists i) common_paths.

(** The candidates of [_find_deadline_command], in the order it tries
    them. *)
Definition candidates (i : installation) : list string :=
  match DEADLINE_PATH i with
  | Some ((String _ _) as deadline_bin) =>
      [os_path_join i deadline_bin "deadlinecommand.exe"]
  | _ => []
  end ++ common_paths.

(** A machine with the scheduler installed below [/opt/Thinkbox]. *)
Definition installed : installation :=
  {| DEADLINE_PATH := Some "/opt/Thinkbox/Deadline10/bin";
     os_path_join := fun a b => (a ++ "/" ++ b)%string;
     os_path_exists :=
       String.eqb "/opt/Thinkbox/Deadline10/bin/deadlinecommand.exe" |}.

(** [os.environ.get(key, "")]. *)
Definition env_or_empty (environ : Dict.t string) (key : string) : string :=
  match Dict.get key environ with Some v => v | None => "" end.

(** The node runs under the scheduler: the name of the worker and the task
    identifier are set and not empty. *)
Definition under_deadline (environ : Dict.t string) : bool :=
  nonempty (env_or_empty environ "DEADLINE_SLAVE_NAME")
  && nonempty (env_or_empty environ "DEADLINE_TASK_ID").

(** The environment of task [task_id] on the worker [render01]. *)
Definition task_environ (task_id : string) : Dict.t string :=
  [ ("DEADLINE_SLAVE_NAME", "render01"); ("DEADLINE_TASK_ID", task_id);
    ("DEADLINE_JOB_ID", "65f0c2a917b3d4e8a1c0ffee") ].

Definition one_of_the_modes (mode : string) : bool :=
  existsb (String.eqb mode) ["increment"; "random"; "fibonacci"].

(** No line of the output holds the marker [JobID=]. *)
Definition unmarked (stdout : string) : Prop :=
  forall l, In l (Py.split_on (ascii_of_nat 10) (Legacy.strip stdout)) ->
            Legacy.after_first "JobID=" l = None.

(** What a failure at [step] leaves on disk: the files whose [with] block
    was completed before it and, when the body of a block raised, that file,
    incomplete. *)
Definition position (f : job_file) : nat :=
  match f with Job_info => 0 | Workflow => 1 | Plugin_info => 2 end.

Definition left_behind (env : environment) (count : Z) (master_ws : string)
  (priority : Z) (pool group : string) (step : fs_step)
  : list (string * content) :=
  let files := job_files env count master_ws priority pool group in
  match step with
  | At_mkdtemp => []
  | At_open f => firstn (position f) files
  | At_write f =>
      firstn (position f) files
      ++ map (fun file => (fst file, Incomplete))
           (firstn 1 (skipn (position f) files))
  end.

(** A farm whose disk is full once the job file is written. *)
Definition full_disk : environment :=
  {| clock := 0;
     hostname := "render01";
     importlib_error := None;
     relative_import_error := None;
     load_error := None;
     save_error := None;
     mkdtemp := "/tmp/comfy_deadline_workers_0";
     os_sep := "/";
     fs_error := Some (At_write Workflow, "No space left on device");
     subprocess_run := fun _ _ => Completed 0 "JobID=abc123" "" |}.

(** The text holds an identifier labelled as the fallback pattern wants it,
    after the prefix [before]: "Job ID" in any case, one or more separators,
    24 hexadecimal digits. *)
Definition labelled (stdout before digits : string) : Prop :=
  exists label seps rest,
    stdout = (before ++ label ++ seps ++ digits ++ rest)%string
    /\ Re.literal "Job ID" label = Some EmptyString
    /\ seps <> EmptyString
    /\ Py.all_chars Re.is_sep seps = true
    /\ String.length digits = 24%nat
    /\ Py.all_chars Re.is_hex digits = true.

(** * Properties *)

(** ** Dictionaries *)

Module DictFacts.
Section DictFacts.
Context {V : Type}.
Implicit Types (d : Dict.t V) (k : string) (v : V).

Lemma get_set_same k v d : Dict.get k (Dict.set k v d) = Some v.
Proof.
  induction d as [|[k' v'] d IH]; simpl.
  - now rewrite String.eqb_refl.
  - destruct (String.eqb k k') eqn:E; simpl; rewrite E; auto.
Qed.

Lemma get_set_other k k' v d :
  k <> k' -> Dict.get k (Dict.set k' v d) = Dict.get k d.
Proof.
  intros N. induction d as [|[k0 v0] d IH]; simpl.
  - apply String.eqb_neq in N. now rewrite N.
  - destruct (String.eqb k' k0) eqn:E; simpl.
    + apply String.eqb_eq in E. subst k0.
      apply String.eqb_neq in N. now rewrite N.
    + now rewrite IH.
Qed.

Lemma get_filter_keys (p : string -> bool) k d :
  Dict.get k (filter (fun kv => p (fst kv)) d)
  = if p k then Dict.get k d else None.
Proof.
  induction d as [|[k0 v0] d IH]; simpl.
  - now destruct (p k).
  - destruct (String.eqb k k0) eqn:E.
    + apply String.eqb_eq in E. subst k0.
      destruct (p k) eqn:Pk; simpl.
      * now rewrite String.eqb_refl.
      * rewrite IH. try rewrite Pk. reflexivity.
    + destruct (p k0); simpl; [rewrite E|]; exact IH.
Qed.

Lemma get_del_same k d : Dict.get k (Dict.del k d) = None.
Proof.
  unfold Dict.del, Dict.is_key.
  rewrite (get_filter_keys (fun x => negb (String.eqb k x))).
  now rewrite String.eqb_refl.
Qed.

Lemma get_del_other k k' d :
  k <> k' -> Dict.get k (Dict.del k' d) = Dict.get k d.
Proof.
  intros N. unfold Dict.del, Dict.is_key.
  rewrite (get_filter_keys (fun x => negb (String.eqb k' x))).
  assert (String.eqb k' k = false) as -> by (apply String.eqb_neq; congruence).
  reflexivity.
Qed.

Lemma get_In k v d : Dict.get k d = Some v -> In (k, v) d.
Proof.
  induction d as [|[k0 v0] d IH]; simpl; [discriminate|].
  destruct (String.eqb k k0) eqn:E.
  - apply String.eqb_eq in E. intros [= ->]. subst. now left.
  - intros H. right. auto.
Qed.

Lemma In_get k v d : Dict.ok d -> In (k, v) d -> Dict.get k d = Some v.
Proof.
  unfold Dict.ok, Dict.keys.
  induction d as [|[k0 v0] d IH]; simpl; [tauto|].
  intros ND [E|I].
  - injection E as -> ->. now rewrite String.eqb_refl.
  - inversion ND as [|? ? NI ND']; subst.
    destruct (String.eqb k k0) eqn:E.
    + apply String.eqb_eq in E. subst k0. exfalso. apply NI.
      change k with (fst (k, v)). now apply in_map.
    + auto.
Qed.

Lemma get_None_keys k d : Dict.get k d = None <-> ~ In k (Dict.keys d).
Proof.
  unfold Dict.keys.
  induction d as [|[k0 v0] d IH]; simpl; [tauto|].
  destruct (String.eqb k k0) eqn:E.
  - apply String.eqb_eq in E. subst. split; [discriminate | tauto].
  - apply String.eqb_neq in E. rewrite IH. split; [intros H [?|?] | ]; intuition congruence.
Qed.

Lemma keys_set k v d :
  Dict.keys (Dict.set k v d)
  = if Dict.mem k d then Dict.keys d else Dict.keys d ++ [k].
Proof.
  unfold Dict.mem, Dict.keys.
  induction d as [|[k0 v0] d IH]; simpl; [reflexivity|].
  destruct (String.eqb k k0) eqn:E; simpl; [reflexivity|].
  rewrite IH. now destruct (Dict.get k d).
Qed.

Lemma ok_set k v d : Dict.ok d -> Dict.ok (Dict.set k v d).
Proof.
  unfold Dict.ok. intros ND. rewrite keys_set.
  unfold Dict.mem. destruct (Dict.get k d) eqn:G; [exact ND|].
  apply get_None_keys in G.
  apply NoDup_app; [exact ND | |].
  - constructor; [simpl; tauto | constructor].
  - intros x I [<-|[]]. contradiction.
Qed.

Lemma ok_filter (p : string * V -> bool) d : Dict.ok d -> Dict.ok (filter p d).
Proof.
  unfold Dict.ok, Dict.keys.
  induction d as [|kv d IH]; simpl; [auto|].
  intros ND. inversion ND as [|? ? NI ND']; subst.
  destruct (p kv); simpl; auto.
  constructor; auto.
  intros I. apply NI. apply in_map_iff in I as [x [E I]].
  apply filter_In in I as [I _]. rewrite <- E. now apply in_map.
Qed.

Lemma ok_del k d : Dict.ok d -> Dict.ok (Dict.del k d).
Proof. apply ok_filter. Qed.

Lemma length_set_mem k v d :
  Dict.mem k d = true -> List.length (Dict.set k v d) = List.length d.
Proof.
  unfold Dict.mem.
  induction d as [|[k0 v0] d IH]; simpl; [discriminate|].
  destruct (String.eqb k k0); simpl; auto.
Qed.

Lemma mem_set_same k v d : Dict.mem k (Dict.set k v d) = true.
Proof. unfold Dict.mem. now rewrite get_set_same. Qed.

(** Deleting keys one after the other is one pass of [filter]. *)
Lemma fold_del (ks : list string) d :
  fold_left (fun acc k => Dict.del k acc) ks d
  = filter (fun kv => negb (existsb (fun k => String.eqb k (fst kv)) ks)) d.
Proof.
  revert d. induction ks as [|k ks IH]; intros d; simpl.
  - induction d; simpl; congruence.
  - rewrite IH. unfold Dict.del, Dict.is_key.
    induction d as [|kv d IHd]; simpl; [reflexivity|].
    destruct (String.eqb k (fst kv)); simpl; rewrite IHd; reflexivity.
Qed.

(** When keys are distinct, deleting the keys of the entries that satisfy
    [p] leaves the entries that do not. *)
Lemma fold_del_filter (p : string * V -> bool) d :
  Dict.ok d ->
  fold_left (fun acc k => Dict.del k acc) (map fst (filter p d)) d
  = filter (fun kv => negb (p kv)) d.
Proof.
  intros OK. rewrite fold_del. apply filter_ext_in.
  intros [k v] I. f_equal. simpl.
  destruct (p (k, v)) eqn:P.
  - apply existsb_exists. exists k. split; [|apply String.eqb_refl].
    change k with (fst (k, v)). apply in_map. apply filter_In. auto.
  - apply not_true_is_false. intros E.
    apply existsb_exists in E as [k' [I' E]].
    apply String.eqb_eq in E. subst k'.
    apply in_map_iff in I' as [[k' v'] [E I']]. simpl in E. subst k'.
    apply filter_In in I' as [I' P'].
    apply (In_get _ _ _ OK) in I. apply (In_get _ _ _ OK) in I'.
    congruence.
Qed.

End DictFacts.
End DictFacts.

(** ** The liveness sweep *)

Ltac run_m :=
  unfold try_except, bind, ret, raise, gets, modify, when, debug_log, store,
    write_file, launch, update_claimed, update_jobs, with_self in *;
  simpl in *.

Lemma sweep_cons env k w items acc s :
  sweep env ((k, w) :: items) acc s
  = if live (clock env) (worker_heartbeat_timeout (self s)) (k, w)
    then sweep env items (acc ++ [w]) s
    else sweep env items acc (evict k s).
Proof.
  unfold live. simpl. unfold bind at 1, gets at 1.
  destruct (clock env - w_last_seen w <? worker_heartbeat_timeout (self s));
    reflexivity.
Qed.

Lemma sweep_run env items : forall acc s,
  let timeout := worker_heartbeat_timeout (self s) in
  let r := sweep env items acc s in
  fst r = Return (acc ++ map snd (filter (live (clock env) timeout) items))
  /\ self (snd r)
     = set_claimed_workers
         (fold_left (fun d k => Dict.del k d)
            (map fst (filter (stale (clock env) timeout) items))
            (claimed_workers (self s)))
         (self s)
  /\ config_file (snd r) = config_file s
  /\ console (snd r)
     = console s
       ++ map Log_stale (map fst (filter (stale (clock env) timeout) items))
  /\ spawned (snd r) = spawned s
  /\ disk (snd r) = disk s.
Proof.
  induction items as [|[k w] items IH]; intros acc s.
  - simpl. rewrite !app_nil_r. destruct s as [[] ? ? ? ?]; simpl. repeat split.
  - cbv zeta. rewrite sweep_cons. cbn [filter].
    change (stale (clock env) (worker_heartbeat_timeout (self s)) (k, w))
      with (negb (live (clock env) (worker_heartbeat_timeout (self s)) (k, w))).
    destruct (live (clock env) (worker_heartbeat_timeout (self s)) (k, w)) eqn:E;
      cbn [negb map fst snd fold_left].
    + specialize (IH (acc ++ [w]) s). cbv zeta in IH.
      rewrite <- app_assoc in IH. exact IH.
    + specialize (IH acc (evict k s)). cbv zeta in IH. simpl in IH.
      destruct IH as (R & S & C & L & P & D).
      rewrite R, S, C, L, P, D. rewrite <- app_assoc.
      repeat split.
Qed.

(** [get_active_workers] returns the live records, in registration order,
    and keeps exactly their entries in the registry. *)
Lemma get_active_workers_run env s :
  Dict.ok (claimed_workers (self s)) ->
  let live_now :=
    filter (live (clock env) (worker_heartbeat_timeout (self s)))
      (claimed_workers (self s)) in
  exists s',
    get_active_workers env s = (Return (map snd live_now), s')
    /\ self s' = set_claimed_workers live_now (self s)
    /\ config_file s' = config_file s
    /\ spawned s' = spawned s
    /\ disk s' = disk s.
Proof.
  intros OK. unfold get_active_workers. unfold bind, gets. simpl.
  destruct (sweep_run env (claimed_workers (self s)) [] s)
    as (R & S & C & L & P & D).
  destruct (sweep env (claimed_workers (self s)) [] s) as [o s'].
  simpl in *. subst o. exists s'.
  rewrite S, C, P, D.
  rewrite (DictFacts.fold_del_filter _ _ OK).
  assert (filter (fun kv => negb (stale (clock env)
                     (worker_heartbeat_timeout (self s)) kv))
            (claimed_workers (self s))
          = filter (live (clock env) (worker_heartbeat_timeout (self s)))
              (claimed_workers (self s))) as ->.
  { apply filter_ext. intros kv. unfold stale. now rewrite negb_involutive. }
  repeat split.
Qed.

(** ** The mirror into the shared configuration *)

Lemma same_process_refl s : same_process s s.
Proof. repeat split. Qed.

Lemma same_process_trans s1 s2 s3 :
  same_process s1 s2 -> same_process s2 s3 -> same_process s1 s3.
Proof. unfold same_process. intuition congruence. Qed.

Lemma add_worker_body_same env worker_id worker_ip worker_port s :
  same_process s (snd (add_worker_body env worker_id worker_ip worker_port s)).
Proof.
  unfold add_worker_body, import_config, load_config, save_config, same_process.
  destruct (importlib_error env), (relative_import_error env),
    (load_error env), (save_error env),
    (find_existing worker_id
       (match workers (config_file s) with Some ws => ws | None => [] end) 0)
    eqn:F; run_m; try rewrite F; simpl; repeat split.
Qed.

Lemma add_worker_same env worker_id worker_ip worker_port s :
  fst (_add_worker_to_distributed_config env worker_id worker_ip worker_port s)
  = Return tt
  /\ same_process s
       (snd (_add_worker_to_distributed_config env worker_id worker_ip worker_port s)).
Proof.
  pose proof (add_worker_body_same env worker_id worker_ip worker_port s) as B.
  unfold _add_worker_to_distributed_config, try_except.
  destruct (add_worker_body env worker_id worker_ip worker_port s) as [[[]|e] s'];
    simpl in *; auto.
Qed.

Lemma add_worker_ok env worker_id worker_ip worker_port s :
  store_ok env = true ->
  config_file
    (snd (_add_worker_to_distributed_config env worker_id worker_ip worker_port s))
  = {| workers := Some (mirrored_add env worker_id worker_ip worker_port
                          (workers_of (config_file s))) |}.
Proof.
  unfold store_ok, _add_worker_to_distributed_config, add_worker_body,
    import_config, load_config, save_config, mirrored_add, workers_of.
  destruct (importlib_error env), (relative_import_error env),
    (load_error env), (save_error env); simpl; try discriminate; intros _;
    run_m;
    destruct (find_existing worker_id
                (match workers (config_file s) with Some ws => ws | None => [] end) 0);
    reflexivity.
Qed.

(** A failure of the mirror leaves the file as it was and ends in a warning. *)
Lemma add_worker_caught env worker_id worker_ip worker_port s e :
  fst (add_worker_body env worker_id worker_ip worker_port s) = Raise e ->
  let s' := snd (_add_worker_to_distributed_config env worker_id worker_ip
                   worker_port s) in
  config_file s' = config_file s
  /\ exists before, console s' = before ++ [Log_config_add_warning e].
Proof.
  unfold _add_worker_to_distributed_config, add_worker_body,
    import_config, load_config, save_config.
  destruct (importlib_error env), (relative_import_error env),
    (load_error env), (save_error env);
    destruct (find_existing worker_id
                (match workers (config_file s) with Some ws => ws | None => [] end) 0)
      eqn:F;
    run_m; try rewrite F; simpl; try discriminate;
    intros [= ->]; (split; [reflexivity | eexists; reflexivity]).
Qed.

Lemma add_worker_fails env worker_id worker_ip worker_port s :
  store_ok env = false ->
  exists e, fst (add_worker_body env worker_id worker_ip worker_port s) = Raise e.
Proof.
  unfold store_ok, add_worker_body, import_config, load_config, save_config.
  destruct (importlib_error env), (relative_import_error env),
    (load_error env), (save_error env);
    destruct (find_existing worker_id
                (match workers (config_file s) with Some ws => ws | None => [] end) 0)
      eqn:F;
    run_m; try rewrite F; simpl; try discriminate; intros _; eexists; reflexivity.
Qed.

Ltac split_store env :=
  destruct (importlib_error env), (relative_import_error env),
    (load_error env), (save_error env).

Lemma remove_worker_body_same env worker_id s :
  same_process s (snd (remove_worker_body env worker_id s)).
Proof.
  unfold remove_worker_body, import_config, load_config, save_config, same_process.
  split_store env; run_m; try (repeat split; fail);
    destruct (workers (config_file s)) as [ws|]; simpl; try (repeat split; fail);
    destruct (Nat.ltb _ _); simpl; repeat split.
Qed.

Lemma remove_worker_same env worker_id s :
  fst (_remove_worker_from_distributed_config env worker_id s) = Return tt
  /\ same_process s (snd (_remove_worker_from_distributed_config env worker_id s)).
Proof.
  pose proof (remove_worker_body_same env worker_id s) as B.
  unfold _remove_worker_from_distributed_config, try_except.
  destruct (remove_worker_body env worker_id s) as [[[]|e] s'];
    simpl in *; auto.
Qed.

Lemma remove_worker_caught env worker_id s e :
  fst (remove_worker_body env worker_id s) = Raise e ->
  let s' := snd (_remove_worker_from_distributed_config env worker_id s) in
  config_file s' = config_file s
  /\ exists before, console s' = before ++ [Log_config_remove_warning e].
Proof.
  unfold _remove_worker_from_distributed_config, remove_worker_body,
    import_config, load_config, save_config.
  split_store env; run_m; try discriminate;
    try (intros [= ->]; split; [reflexivity | eexists; reflexivity]);
    destruct (workers (config_file s)) as [ws|]; simpl; try discriminate;
    destruct (Nat.ltb _ _); simpl; try discriminate;
    intros [= ->]; (split; [reflexivity | eexists; reflexivity]).
Qed.

(** ** The registry methods, step by step *)

Lemma register_worker_run env worker_id worker_ip worker_port job_id s :
  exists s',
    register_worker env worker_id worker_ip worker_port job_id s
    = (Return (Success (Some ("Worker " ++ worker_id
                 ++ " registered and added to distributed config")%string)), s')
    /\ self s'
       = set_claimed_workers
           (Dict.set worker_id
              (registration env worker_id worker_ip worker_port job_id)
              (claimed_workers (self s)))
           (self s)
    /\ spawned s' = spawned s
    /\ disk s' = disk s.
Proof.
  unfold register_worker, registration. run_m.
  match goal with
  | |- context [_add_worker_to_distributed_config env ?a ?b ?c ?s1] =>
      destruct (add_worker_same env a b c s1) as (R & S1 & S2 & S3);
      destruct (_add_worker_to_distributed_config env a b c s1) as [[[]|e] s2]
  end; simpl in *; try discriminate.
  eexists. split; [reflexivity|]. simpl. rewrite S1, S2, S3. repeat split.
Qed.

Lemma worker_heartbeat_run env worker_id s :
  match Dict.get worker_id (claimed_workers (self s)) with
  | Some w =>
      exists s',
        worker_heartbeat env worker_id s = (Return (Success None), s')
        /\ self s'
           = set_claimed_workers
               (Dict.set worker_id (touch env w) (claimed_workers (self s)))
               (self s)
        /\ config_file s' = config_file s
        /\ spawned s' = spawned s
        /\ disk s' = disk s
  | None =>
      worker_heartbeat env worker_id s = (Return (Failure "Worker not found"), s)
  end.
Proof.
  unfold worker_heartbeat. run_m.
  destruct (Dict.get worker_id (claimed_workers (self s))); simpl;
    [eexists; repeat split | reflexivity].
Qed.

Lemma unregister_worker_run env worker_id s :
  if Dict.mem worker_id (claimed_workers (self s)) then
    exists s',
      unregister_worker env worker_id s
      = (Return (Success (Some ("Worker " ++ worker_id ++ " unregistered")%string)),
         s')
      /\ self s'
         = set_claimed_workers (Dict.del worker_id (claimed_workers (self s)))
             (self s)
      /\ spawned s' = spawned s
      /\ disk s' = disk s
  else
    unregister_worker env worker_id s = (Return (Failure "Worker not found"), s).
Proof.
  unfold unregister_worker. run_m.
  destruct (Dict.mem worker_id (claimed_workers (self s))); [|reflexivity].
  simpl.
  match goal with
  | |- context [_remove_worker_from_distributed_config env ?a ?s1] =>
      destruct (remove_worker_same env a s1) as (R & S1 & S2 & S3);
      destruct (_remove_worker_from_distributed_config env a s1) as [[[]|e] s2]
  end; simpl in *; try discriminate.
  eexists. split; [reflexivity|]. simpl. rewrite S1, S2, S3. repeat split.
Qed.

Lemma get_worker_status_run env s :
  Dict.ok (claimed_workers (self s)) ->
  let live_now :=
    filter (live (clock env) (worker_heartbeat_timeout (self s)))
      (claimed_workers (self s)) in
  match deadline_command (self s) with
  | Some (String _ _) =>
      exists s',
        get_worker_status env s
        = (Return (StatusUp 16 (Z.of_nat (List.length live_now)) 16
                     (Dict.len (active_jobs (self s))) (map snd live_now)), s')
        /\ self s' = set_claimed_workers live_now (self s)
        /\ config_file s' = config_file s
        /\ spawned s' = spawned s
        /\ disk s' = disk s
  | _ => get_worker_status env s = (Return (StatusDown "Deadline not available"), s)
  end.
Proof.
  intros OK. cbv zeta. unfold get_worker_status, try_except, bind, gets, ret.
  destruct (deadline_command (self s)) as [[|c cmd]|]; try reflexivity.
  destruct (get_active_workers_run env s OK) as (s' & E & S & C & P & D).
  rewrite E. exists s'. rewrite S. simpl. rewrite length_map. repeat split; auto.
Qed.

(** ** Submission and release, step by step *)

Lemma extract_job_id_run stdout s :
  exists s',
    _extract_job_id stdout s = (Return (job_id_of stdout), s')
    /\ self s' = self s /\ config_file s' = config_file s
    /\ spawned s' = spawned s /\ disk s' = disk s.
Proof.
  unfold _extract_job_id, job_id_of.
  destruct (first_job_token (Py.split stdout)); [|destruct (Re.search stdout)];
    run_m; eexists; repeat split.
Qed.

Lemma set_active_jobs_same o : set_active_jobs (active_jobs o) o = o.
Proof. now destruct o. Qed.

Lemma set_claimed_workers_same o : set_claimed_workers (claimed_workers o) o = o.
Proof. now destruct o. Qed.

Lemma release_loop_run env cmd jobs : forall count s,
  let n := List.length (spawned s) in
  exists s',
    release_loop env cmd jobs count s
    = (match crash env cmd n jobs with
       | Some e => Raise e
       | None => Return (count + Z.of_nat (List.length (confirmed env cmd n jobs)))
       end, s')
    /\ self s'
       = set_active_jobs
           (fold_left (fun d k => Dict.del k d) (confirmed env cmd n jobs)
              (active_jobs (self s)))
           (self s)
    /\ spawned s' = spawned s ++ map (delete_job cmd) (tried env cmd n jobs)
    /\ config_file s' = config_file s
    /\ disk s' = disk s.
Proof.
  induction jobs as [|jid rest IH]; intros count s; cbv zeta.
  - simpl. exists s. rewrite Z.add_0_r, app_nil_r.
    destruct s as [[] ? ? ? ?]; repeat split.
  - cbn [release_loop tried confirmed crash].
    unfold run_process. run_m. fold (delete_job cmd jid).
    destruct (subprocess_run env (List.length (spawned s)) (delete_job cmd jid))
      as [rc out err|e]; simpl.
    + assert (L : List.length (spawned s ++ [delete_job cmd jid])
                  = S (List.length (spawned s)))
        by (rewrite length_app; simpl; lia).
      destruct (nonempty err); simpl;
        (destruct (rc =? 0); simpl;
         match goal with
         | |- context [release_loop env cmd rest ?c ?s1] =>
             destruct (IH c s1) as (s' & E & HS & P & C & D);
             simpl in E, HS, P, C, D; rewrite ?L in E, HS, P; rewrite E
         end;
         exists s'; rewrite HS, P, C, D, <- app_assoc; simpl;
         repeat split;
         destruct (crash env cmd (S (List.length (spawned s))) rest);
         try reflexivity; do 2 f_equal; rewrite ?Zpos_P_of_succ_nat; lia).
    + eexists. rewrite set_active_jobs_same. repeat split.
Qed.

Lemma release_workers_run env job_ids s :
  match deadline_command (self s) with
  | Some (String c rest) =>
      let cmd := String c rest in
      let n := List.length (spawned s) in
      let todo := jobs_to_release job_ids (active_jobs (self s)) in
      exists s',
        release_workers env job_ids s
        = (Return
             match crash env cmd n todo with
             | Some e => Failure e
             | None =>
                 let k := Z.of_nat (List.length (confirmed env cmd n todo)) in
                 Released k ("Released " ++ Py.str k ++ " worker job(s)")%string
             end, s')
        /\ self s'
           = set_active_jobs
               (fold_left (fun d k => Dict.del k d) (confirmed env cmd n todo)
                  (active_jobs (self s)))
               (self s)
        /\ spawned s' = spawned s ++ map (delete_job cmd) (tried env cmd n todo)
        /\ config_file s' = config_file s
        /\ disk s' = disk s
  | _ => release_workers env job_ids s
         = (Return (Failure "Deadline not available"), s)
  end.
Proof.
  unfold release_workers, try_except, bind, gets, ret.
  destruct (deadline_command (self s)) as [[|c cmd]|]; try reflexivity.
  cbv zeta.
  destruct (release_loop_run env (String c cmd)
              (jobs_to_release job_ids (active_jobs (self s))) 0 s)
    as (s' & E & HS & P & C & D).
  rewrite E. exists s'.
  destruct (crash env (String c cmd) (List.length (spawned s))
              (jobs_to_release job_ids (active_jobs (self s))));
    simpl; repeat split; assumption.
Qed.

(** A claim always answers; it records at most one job, under the non-empty
    identifier it answers with, and that job is of type "distributed". *)
Lemma claim_workers_run env count master_ws priority pool group s :
  exists r s',
    claim_workers env count master_ws priority pool group s = (Return r, s')
    /\ (self s' = self s
        \/ exists job_id message,
             r = Claimed job_id message
             /\ self s'
                = set_active_jobs
                    (Dict.set job_id
                       {| j_type := "distributed"; j_count := count;
                          j_master_ws := master_ws;
                          j_submitted_at := clock env |}
                       (active_jobs (self s)))
                    (self s)).
Proof.
  unfold claim_workers, _create_worker_job_files, with_open, run_process.
  unfold try_except, bind at 1, gets at 1.
  destruct (deadline_command (self s)) as [[|c cmd]|];
    try (do 2 eexists; split; [reflexivity | left; reflexivity]).
  destruct (fs_error env) as [[[|[]|[]] e]|];
    [run_m; do 2 eexists; split; [reflexivity | left; reflexivity] ..|].
  run_m.
  match goal with
  | |- context [subprocess_run env ?n ?argv] =>
      destruct (subprocess_run env n argv) as [rc out err|e]
  end; simpl;
    [| do 2 eexists; split; [reflexivity | left; reflexivity]].
  destruct (nonempty err); simpl;
    (destruct (rc =? 0); simpl;
     [| do 2 eexists; split; [reflexivity | left; reflexivity]];
     match goal with
     | |- context [_extract_job_id out ?s1] =>
         destruct (extract_job_id_run out s1) as (s2 & E & HS & _); rewrite E
     end;
     destruct (nonempty (job_id_of out)); simpl;
     do 2 eexists; (split; [reflexivity|]); simpl;
     [right; do 2 eexists; split; [reflexivity|]; rewrite HS; reflexivity
     | left; rewrite HS; reflexivity]).
Qed.

(** ** What holds in every reachable state *)

Lemma In_set {V} (k k0 : string) (v v0 : V) (d : Dict.t V) :
  In (k, v) (Dict.set k0 v0 d) -> (k = k0 /\ v = v0) \/ In (k, v) d.
Proof.
  induction d as [|[k1 v1] d IH]; simpl.
  - intros [[= <- <-]|[]]. now left.
  - destruct (String.eqb k0 k1) eqn:E; simpl.
    + apply String.eqb_eq in E. subst k1.
      intros [[= <- <-]|I]; [now left | right; now right].
    + intros [E'|I]; [right; now left|].
      destruct (IH I) as [?|?]; [now left | right; now right].
Qed.

Lemma ok_fold_del {V} (ks : list string) (d : Dict.t V) :
  Dict.ok d -> Dict.ok (fold_left (fun acc k => Dict.del k acc) ks d).
Proof. intros OK. rewrite DictFacts.fold_del. now apply DictFacts.ok_filter. Qed.

Lemma In_fold_del {V} (ks : list string) (d : Dict.t V) kv :
  In kv (fold_left (fun acc k => Dict.del k acc) ks d) -> In kv d.
Proof. rewrite DictFacts.fold_del. intros I. now apply filter_In in I. Qed.

Lemma consistent_new command : consistent (new_DeadlineIntegration command).
Proof.
  constructor; simpl; try constructor; try tauto; reflexivity.
Qed.

Lemma consistent_set_worker o k w :
  consistent o -> w_id w = k ->
  consistent (set_claimed_workers (Dict.set k w (claimed_workers o)) o).
Proof.
  intros [A B C D E] N. constructor; simpl; auto.
  - now apply DictFacts.ok_set.
  - intros k' w' I. apply In_set in I as [[-> ->]|I]; auto.
Qed.

Lemma consistent_filter_workers o p :
  consistent o ->
  consistent (set_claimed_workers (filter p (claimed_workers o)) o).
Proof.
  intros [A B C D E]. constructor; simpl; auto.
  - now apply DictFacts.ok_filter.
  - intros k w I. apply filter_In in I as [I _]. auto.
Qed.

Lemma consistent_set_job o k j :
  consistent o -> j_type j = "distributed"%string ->
  consistent (set_active_jobs (Dict.set k j (active_jobs o)) o).
Proof.
  intros [A B C D E] T. constructor; simpl; auto.
  - now apply DictFacts.ok_set.
  - intros k' j' I. apply In_set in I as [[-> ->]|I]; eauto.
Qed.

Lemma consistent_del_jobs o ks :
  consistent o ->
  consistent
    (set_active_jobs (fold_left (fun d k => Dict.del k d) ks (active_jobs o)) o).
Proof.
  intros [A B C D E]. constructor; simpl; auto.
  - now apply ok_fold_del.
  - intros k j I. apply In_fold_del in I. eauto.
Qed.

(** Every request is answered, and leaves the instance consistent and the
    scheduler command as it was. *)
Lemma handle_step env r s :
  consistent (self s) ->
  exists rep s',
    handle env r s = (Return rep, s')
    /\ consistent (self s')
    /\ deadline_command (self s') = deadline_command (self s).
Proof.
  intros K. destruct r as [| count ws pr pool grp | ids | id ip port job | id | id];
    simpl.
  - pose proof (get_worker_status_run env s (workers_distinct _ K)) as R.
    cbv zeta in R.
    destruct (deadline_command (self s)) as [[|c cmd]|] eqn:Cmd;
      try (do 2 eexists; split; [exact R | split; [exact K | exact Cmd]]).
    destruct R as (s' & E & HS & _). do 2 eexists. split; [exact E|].
    rewrite HS. split; [now apply consistent_filter_workers | exact Cmd].
  - destruct (claim_workers_run env count ws pr pool grp s)
      as (rep & s' & E & [HS | (jid & msg & -> & HS)]);
      do 2 eexists; (split; [exact E|]); rewrite HS; auto.
    split; [now apply consistent_set_job | reflexivity].
  - pose proof (release_workers_run env ids s) as R.
    destruct (deadline_command (self s)) as [[|c cmd]|] eqn:Cmd;
      try (do 2 eexists; split; [exact R | split; [exact K | exact Cmd]]).
    destruct R as (s' & E & HS & _). do 2 eexists. split; [exact E|].
    rewrite HS. split; [now apply consistent_del_jobs | exact Cmd].
  - destruct (register_worker_run env id ip port job s) as (s' & E & HS & _).
    do 2 eexists. split; [exact E|]. rewrite HS.
    split; [now apply consistent_set_worker | reflexivity].
  - pose proof (worker_heartbeat_run env id s) as R.
    destruct (Dict.get id (claimed_workers (self s))) as [w|] eqn:G.
    + destruct R as (s' & E & HS & _). do 2 eexists. split; [exact E|].
      rewrite HS. split; [|reflexivity].
      apply consistent_set_worker; auto. simpl.
      apply DictFacts.get_In in G. now apply (workers_named _ K).
    + do 2 eexists. split; [exact R | auto].
  - pose proof (unregister_worker_run env id s) as R.
    destruct (Dict.mem id (claimed_workers (self s))).
    + destruct R as (s' & E & HS & _). do 2 eexists. split; [exact E|].
      rewrite HS. split; [|reflexivity].
      now apply consistent_filter_workers.
    + do 2 eexists. split; [exact R | auto].
Qed.

Lemma reachable_consistent s : reachable s -> consistent (self s).
Proof.
  induction 1 as [command c | env r s R IH].
  - apply consistent_new.
  - destruct (handle_step env r s IH) as (rep & s' & E & K & _).
    now rewrite E.
Qed.

Lemma reachable_run trace : forall s, reachable s -> reachable (run trace s).
Proof.
  induction trace as [|[env r] trace IH]; intros s R; simpl; auto.
  apply IH. now constructor.
Qed.

Lemma configured_inv s :
  configured s = true ->
  exists c cmd, deadline_command (self s) = Some (String c cmd).
Proof.
  unfold configured. destruct (deadline_command (self s)) as [[|c cmd]|];
    try discriminate. eauto.
Qed.

(** ** Status *)

(** C8. When the scheduler command is configured, [get_worker_status]
    answers with [claimed_workers] equal to the number of records left in
    the registry by the eviction of that same call (the records whose last
    report is less than the time-out old), and with [active_jobs] equal to
    the number of entries of the active-jobs map.  After one claim and three
    registrations it reports one job and three workers, and two workers once
    one of them has been silent for the time-out. *)
Theorem C8_status_counts :
  (forall env s,
     reachable s ->
     configured s = true ->
     exists listing s',
       get_worker_status env s
       = (Return (StatusUp 16 (Dict.len (claimed_workers (self s'))) 16
                    (Dict.len (active_jobs (self s'))) listing), s')
       /\ claimed_workers (self s')
          = filter (live (clock env) (worker_heartbeat_timeout (self s)))
              (claimed_workers (self s))
       /\ listing = Dict.values (claimed_workers (self s'))
       /\ active_jobs (self s') = active_jobs (self s))
  /\ (exists listing s',
        get_worker_status (farm 40) three_workers
        = (Return (StatusUp 16 3 16 1 listing), s'))
  /\ (exists listing s',
        get_worker_status (farm 75) one_silent
        = (Return (StatusUp 16 2 16 1 listing), s')).
Proof.
  split; [|split; do 2 eexists; vm_compute; reflexivity].
  intros env s R Cf.
  pose proof (get_worker_status_run env s
                (workers_distinct _ (reachable_consistent s R))) as Run.
  cbv zeta in Run.
  destruct (configured_inv s Cf) as (c & cmd & Cmd). rewrite Cmd in Run.
  destruct Run as (s' & E & HS & _).
  exists (map snd (filter (live (clock env) (worker_heartbeat_timeout (self s)))
                     (claimed_workers (self s)))), s'.
  rewrite HS. simpl. unfold Dict.len at 1. repeat split; auto.
Qed.

Lemma C8_status_counts_witness :
  reachable three_workers
  /\ configured three_workers = true
  /\ exists listing s',
       get_worker_status (farm 40) three_workers
       = (Return (StatusUp 16 (Dict.len (claimed_workers (self s'))) 16
                    (Dict.len (active_jobs (self s'))) listing), s')
       /\ claimed_workers (self s')
          = filter (live 40 (worker_heartbeat_timeout (self three_workers)))
              (claimed_workers (self three_workers))
       /\ listing = Dict.values (claimed_workers (self s'))
       /\ active_jobs (self s') = active_jobs (self three_workers).
Proof.
  split; [apply reachable_run, reachable_boot|].
  split; [reflexivity|].
  apply (proj1 C8_status_counts (farm 40) three_workers).
  - apply reachable_run, reachable_boot.
  - reflexivity.
Defined.

(** C10. When the scheduler command is configured, [get_worker_status]
    answers with [available_workers] = 16 and [total_workers] = 16, whatever
    the environment and the state are, and launches no command to find
    out. *)
Theorem C10_status_constants :
  forall env s,
    configured s = true ->
    exists claimed jobs listing s',
      get_worker_status env s
      = (Return (StatusUp 16 claimed 16 jobs listing), s')
      /\ spawned s' = spawned s.
Proof.
  intros env s Cf. destruct (configured_inv s Cf) as (c & cmd & Cmd).
  unfold get_worker_status, get_active_workers, try_except, bind, gets, ret.
  rewrite Cmd.
  destruct (sweep_run env (claimed_workers (self s)) [] s)
    as (R & _ & _ & _ & P & _).
  destruct (sweep env (claimed_workers (self s)) [] s) as [o s'].
  simpl in R, P. subst o. do 4 eexists. split; [reflexivity | exact P].
Qed.

Lemma C10_status_constants_witness :
  configured three_workers = true
  /\ exists claimed jobs listing s',
       get_worker_status (farm 40) three_workers
       = (Return (StatusUp 16 claimed 16 jobs listing), s')
       /\ spawned s' = spawned three_workers.
Proof.
  split; [reflexivity|].
  apply (C10_status_constants (farm 40) three_workers). reflexivity.
Defined.

(** ** Release *)

(** C7, as amended.  When the scheduler command is configured,
    [release_workers] called with a list that holds one identifier absent
    from [active_jobs] answers success with [released_jobs] = 0, launches
    nothing and changes nothing. *)
Theorem C7_release_unknown_job :
  forall env s jid,
    configured s = true ->
    Dict.mem jid (active_jobs (self s)) = false ->
    release_workers env (Some [jid]) s
    = (Return (Released 0 "Released 0 worker job(s)"), s).
Proof.
  intros env s jid Cf Absent.
  destruct (configured_inv s Cf) as (c & cmd & Cmd).
  unfold release_workers, try_except, bind, gets, ret. rewrite Cmd.
  unfold jobs_to_release. cbn [filter]. rewrite Absent. reflexivity.
Qed.

Lemma C7_release_unknown_job_witness :
  configured three_workers = true
  /\ Dict.mem "0123" (active_jobs (self three_workers)) = false
  /\ release_workers (farm 40) (Some ["0123"]) three_workers
     = (Return (Released 0 "Released 0 worker job(s)"), three_workers).
Proof.
  split; [reflexivity|]. split; [reflexivity|].
  apply (C7_release_unknown_job (farm 40) three_workers "0123"); reflexivity.
Defined.

(** C7 fails as stated: in a process that found no scheduler command,
    releasing the unknown job "0123" answers with the error
    "Deadline not available", not with a count of 0. *)
Lemma C7_counterexample :
  release_workers (farm 0) (Some ["0123"]) no_command
  = (Return (Failure "Deadline not available"), no_command)
  /\ ~ (forall env s jid,
          reachable s ->
          Dict.mem jid (active_jobs (self s)) = false ->
          exists message s',
            release_workers env (Some [jid]) s
            = (Return (Released 0 message), s')
            /\ active_jobs (self s') = active_jobs (self s)).
Proof.
  split; [reflexivity|].
  intros H.
  destruct (H (farm 0) no_command "0123" (reachable_boot _ _) eq_refl)
    as (message & s' & E & _).
  discriminate E.
Qed.

Lemma filter_map_fst {V} (p : string -> bool) (l : list (string * V)) :
  filter p (map fst l) = map fst (filter (fun kv => p (fst kv)) l).
Proof.
  induction l as [|kv l IH]; simpl; [reflexivity|].
  destruct (p (fst kv)); simpl; now rewrite IH.
Qed.

Lemma filter_twice {A} (p q : A -> bool) (l : list A) :
  filter q (filter p l) = filter (fun x => p x && q x) l.
Proof.
  induction l as [|x l IH]; simpl; [reflexivity|].
  destruct (p x); simpl; [destruct (q x)|]; now rewrite IH.
Qed.

(** When every deletion runs to completion, the loop tries every job, stops
    on none, and the confirmed jobs are those whose command exits with 0. *)
Lemma all_completed env cmd (rc : string -> Z) todo : forall n,
  (forall i jid, nth_error todo i = Some jid ->
     exists out err,
       subprocess_run env (n + i) (delete_job cmd jid)
       = Completed (rc jid) out err) ->
  crash env cmd n todo = None
  /\ tried env cmd n todo = todo
  /\ confirmed env cmd n todo = filter (fun jid => rc jid =? 0) todo.
Proof.
  induction todo as [|jid todo IH]; intros n H; simpl; [auto|].
  destruct (H O jid eq_refl) as (out & err & E).
  rewrite Nat.add_0_r in E. rewrite E.
  destruct (IH (S n)) as (A & B & C).
  { intros i j N. destruct (H (S i) j N) as (o & e & E').
    rewrite Nat.add_succ_r in E'. eauto. }
  rewrite A, B, C. destruct (rc jid =? 0); auto.
Qed.

(** C4, as amended.  When the scheduler command is configured and every
    deletion command runs to completion, [release_workers] called with no
    job identifier launches one deletion for each active job of type
    "distributed", in the order of the map, and nothing else; it removes
    from [active_jobs] exactly the jobs of that type whose deletion exits
    with code 0, so that jobs of another type and jobs whose deletion fails
    stay; and it answers with the number of jobs it removed. *)
Theorem C4_release_all_distributed :
  forall env s job_ids cmd (rc : string -> Z),
    job_ids = None \/ job_ids = Some [] ->
    deadline_command (self s) = Some cmd ->
    nonempty cmd = true ->
    Dict.ok (active_jobs (self s)) ->
    (forall i jid,
       nth_error (map fst (filter is_distributed (active_jobs (self s)))) i
       = Some jid ->
       exists out err,
         subprocess_run env (List.length (spawned s) + i) (delete_job cmd jid)
         = Completed (rc jid) out err) ->
    exists message s',
      release_workers env job_ids s
      = (Return
           (Released
              (Z.of_nat (List.length (filter (released_by rc)
                                        (active_jobs (self s)))))
              message), s')
      /\ spawned s'
         = spawned s
           ++ map (delete_job cmd)
                (map fst (filter is_distributed (active_jobs (self s))))
      /\ active_jobs (self s')
         = filter (fun kv => negb (released_by rc kv)) (active_jobs (self s)).
Proof.
  intros env s job_ids cmd rc Ids Cmd Ne OK Done.
  pose proof (release_workers_run env job_ids s) as Run.
  rewrite Cmd in Run. destruct cmd as [|c cmd]; [discriminate|].
  cbv zeta in Run.
  assert (jobs_to_release job_ids (active_jobs (self s))
          = map fst (filter is_distributed (active_jobs (self s)))) as Todo
    by (destruct Ids; subst; reflexivity).
  rewrite Todo in Run.
  destruct (all_completed env (String c cmd) rc _ _ Done) as (A & B & C).
  rewrite A, B, C in Run.
  destruct Run as (s' & E & HS & P & _).
  rewrite filter_map_fst, filter_twice in E, HS.
  rewrite length_map in E.
  change (fun x : string * job_data => is_distributed x && (rc (fst x) =? 0))
    with (released_by rc) in E, HS.
  rewrite (DictFacts.fold_del_filter _ _ OK) in HS.
  do 2 eexists. split; [exact E|]. split; [exact P|].
  rewrite HS. reflexivity.
Qed.

Lemma C4_release_all_distributed_witness :
  exists message s',
    release_workers picky_farm None mixed_jobs
    = (Return (Released 1 message), s')
    /\ spawned s'
       = [delete_job "deadlinecommand" "a"; delete_job "deadlinecommand" "c"]
    /\ map fst (active_jobs (self s')) = ["b"; "c"].
Proof.
  destruct (C4_release_all_distributed picky_farm mixed_jobs None
              "deadlinecommand"
              (fun jid => if String.eqb jid "c" then 1 else 0))
    as (message & s' & E & P & J).
  - now left.
  - reflexivity.
  - reflexivity.
  - repeat constructor; simpl; intuition discriminate.
  - intros [|[|[|i]]] jid; simpl; intros [= <-]; do 2 eexists; reflexivity.
  - exists message, s'. rewrite E, P, J. repeat split.
Defined.

(** C4 fails as stated: with no scheduler command [release_workers] cancels
    nothing and answers "Deadline not available"; and when the deletion of
    the job "abc123" times out, it answers with the text of the exception
    and no count. *)
Lemma C4_counterexample :
  release_workers (farm 0) None no_command
  = (Return (Failure "Deadline not available"), no_command)
  /\ fst (release_workers (stuck_farm 50) None three_workers)
     = Return (Failure "Command timed out after 10 seconds")
  /\ ~ (forall env s,
          reachable s ->
          exists released_jobs message s',
            release_workers env None s
            = (Return (Released released_jobs message), s')).
Proof.
  split; [reflexivity|]. split; [reflexivity|].
  intros H.
  destruct (H (farm 0) no_command (reachable_boot _ _))
    as (k & message & s' & E).
  discriminate E.
Qed.

(** ** Submission *)

Lemma no_job_token tokens :
  (forall token, In token tokens -> Py.startswith "JobID=" token = false) ->
  first_job_token tokens = None.
Proof.
  induction tokens as [|t tokens IH]; intros H; [reflexivity|].
  cbn [first_job_token]. rewrite (H t (or_introl eq_refl)).
  apply IH. intros token I. apply H. now right.
Qed.

(** C2. When the submission command exits with code 0 and its output holds
    no token that starts with [JobID=] and no match of the fallback pattern,
    [claim_workers] answers with the error "Job submitted but JobID not
    found in output", which no failed submission produces, and [active_jobs]
    is left as it was. *)
Theorem C2_claim_without_job_id :
  forall env s count master_ws priority pool group cmd out err,
    deadline_command (self s) = Some cmd ->
    nonempty cmd = true ->
    fs_error env = None ->
    subprocess_run env (List.length (spawned s)) (submit_job env cmd)
    = Completed 0 out err ->
    (forall token, In token (Py.split out) ->
                   Py.startswith "JobID=" token = false) ->
    Re.search out = None ->
    exists s',
      claim_workers env count master_ws priority pool group s
      = (Return (Failure "Job submitted but JobID not found in output"), s')
      /\ active_jobs (self s') = active_jobs (self s)
      /\ (forall returncode stderr,
            "Job submitted but JobID not found in output"%string
            <> ("Deadline submission failed with code "
                ++ Py.str returncode ++ ": " ++ stderr)%string)
      /\ "Job submitted but JobID not found in output"%string
         <> "Deadline not available"%string.
Proof.
  intros env s count master_ws priority pool group cmd out err
    Cmd Ne Fs Exit Tok Pat.
  destruct cmd as [|c cmd]; [discriminate|].
  assert (job_id_of out = EmptyString) as NoId.
  { unfold job_id_of. now rewrite (no_job_token _ Tok), Pat. }
  unfold submit_job in Exit.
  unfold claim_workers, _create_worker_job_files, with_open, run_process.
  unfold try_except, bind at 1, gets at 1. rewrite Cmd, Fs.
  run_m. rewrite Exit. simpl.
  destruct (nonempty err); simpl;
    match goal with
    | |- context [_extract_job_id out ?s1] =>
        destruct (extract_job_id_run out s1) as (s2 & E & HS & _); rewrite E
    end;
    rewrite NoId; simpl; eexists; (split; [reflexivity|]); simpl;
    rewrite HS; repeat split; try discriminate; intros rc stderr; discriminate.
Qed.

Lemma C2_claim_without_job_id_witness :
  exists s',
    claim_workers silent_farm 3 "localhost:8188" 50 "none" "none" fresh_process
    = (Return (Failure "Job submitted but JobID not found in output"), s')
    /\ active_jobs (self s') = []
    /\ (forall returncode stderr,
          "Job submitted but JobID not found in output"%string
          <> ("Deadline submission failed with code "
              ++ Py.str returncode ++ ": " ++ stderr)%string)
    /\ "Job submitted but JobID not found in output"%string
       <> "Deadline not available"%string.
Proof.
  apply (C2_claim_without_job_id silent_farm fresh_process 3 "localhost:8188"
           50 "none" "none" "deadlinecommand" "Submitting job... done" "").
  - reflexivity.
  - reflexivity.
  - reflexivity.
  - reflexivity.
  - simpl. intros token [<-|[<-|[<-|[]]]]; reflexivity.
  - reflexivity.
Defined.

(** ** The job files *)

Lemma append_assoc (a b c : string) : ((a ++ b) ++ c = a ++ (b ++ c))%string.
Proof. induction a as [|x a IH]; simpl; [reflexivity | now rewrite IH]. Qed.

Lemma append_empty_r (a : string) : (a ++ "" = a)%string.
Proof. induction a as [|x a IH]; simpl; [reflexivity | now rewrite IH]. Qed.

Lemma split_on_whole sep a : forall tok,
  Py.contains sep a = false ->
  Py.split_on_from sep tok a = [(tok ++ a)%string].
Proof.
  induction a as [|c a IH]; intros tok H; simpl in *.
  - now rewrite append_empty_r.
  - apply orb_false_iff in H as [N H]. rewrite N.
    rewrite (IH _ H), append_assoc. reflexivity.
Qed.

Lemma split_on_first sep a b : forall tok,
  Py.contains sep a = false ->
  Py.split_on_from sep tok (a ++ String sep b)
  = (tok ++ a)%string :: Py.split_on_from sep EmptyString b.
Proof.
  induction a as [|c a IH]; intros tok H; simpl in *.
  - now rewrite Ascii.eqb_refl, append_empty_r.
  - apply orb_false_iff in H as [N H]. rewrite N.
    rewrite (IH _ H), append_assoc. reflexivity.
Qed.

Lemma contains_app sep a b :
  Py.contains sep (a ++ String sep b) = true.
Proof.
  induction a as [|c a IH]; simpl.
  - now rewrite Ascii.eqb_refl.
  - rewrite IH. apply orb_true_r.
Qed.

Lemma create_worker_job_files_run env job_name N master_ws priority pool group s :
  fs_error env = None ->
  let job_info_file := path_join env (mkdtemp env) "job_info.txt" in
  let plugin_info_file := path_join env (mkdtemp env) "plugin_info.txt" in
  let workflow_file := path_join env (mkdtemp env) "worker_registration.json" in
  exists s',
    _create_worker_job_files env job_name N master_ws priority pool group s
    = (Return (job_info_file, plugin_info_file, workflow_file), s')
    /\ disk s'
       = disk s
         ++ [ (job_info_file,
               Text (job_info job_name N master_ws priority pool group));
              (workflow_file, RegistrationWorkflow);
              (plugin_info_file, Text (plugin_info workflow_file)) ].
Proof.
  intros Fs. unfold _create_worker_job_files, with_open. rewrite Fs.
  unfold bind, write_file, debug_log, modify, ret. cbn [disk fst snd].
  eexists. split; [reflexivity|]. cbn [disk].
  rewrite <- !app_assoc. reflexivity.
Qed.

Ltac find_line :=
  apply in_map; cbn [In]; repeat (first [left; reflexivity | right]).

(** C9. For every worker count [N], [_create_worker_job_files] writes a
    job-info file that asks for the frames 1 to [N] in chunks of 1 on at
    most [N] machines, and that carries the distributed-mode flag, the host
    and the port of the coordinator and the force-new-instance flag as
    environment entries; the plugin-info file repeats the two flags. *)
Theorem C9_job_files :
  forall env job_name N master_ws priority pool group s,
    fs_error env = None ->
    let info := job_info job_name N master_ws priority pool group in
    exists job_info_file plugin_info_file workflow_file s',
      _create_worker_job_files env job_name N master_ws priority pool group s
      = (Return (job_info_file, plugin_info_file, workflow_file), s')
      /\ disk s'
         = disk s ++ [ (job_info_file, Text info);
                       (workflow_file, RegistrationWorkflow);
                       (plugin_info_file, Text (plugin_info workflow_file)) ]
      /\ In (line ("Frames=1-" ++ Py.str N)) info
      /\ In (line "ChunkSize=1") info
      /\ In (line "ConcurrentTasks=1") info
      /\ In (line ("MachineLimit=" ++ Py.str N)) info
      /\ In (line "EnvironmentKeyValue0=DEADLINE_DIST_MODE=1") info
      /\ In (line "EnvironmentKeyValue4=COMFY_FORCE_NEW_INSTANCE=1") info
      /\ In (line "DistributedMode=True") (plugin_info workflow_file)
      /\ In (line "ForceNewInstance=True") (plugin_info workflow_file)
      /\ (forall host port,
            master_ws = (host ++ ":" ++ port)%string ->
            Py.contains ":" host = false ->
            Py.contains ":" port = false ->
            In (line ("EnvironmentKeyValue2=COMFY_MASTER_HOST=" ++ host)) info
            /\ In (line ("EnvironmentKeyValue3=COMFY_MASTER_PORT=" ++ port)) info)
      /\ (Py.contains ":" master_ws = false ->
          In (line ("EnvironmentKeyValue2=COMFY_MASTER_HOST=" ++ master_ws)) info
          /\ In (line "EnvironmentKeyValue3=COMFY_MASTER_PORT=8188") info).
Proof.
  intros env job_name N master_ws priority pool group s Fs info.
  destruct (create_worker_job_files_run env job_name N master_ws priority
              pool group s Fs) as (s' & E & D).
  do 4 eexists. split; [exact E|]. split; [exact D|].
  unfold info, job_info, plugin_info.
  repeat (split; [find_line|]).
  split.
  - intros host port -> Hh Hp. unfold Py.split_on.
    change (host ++ ":" ++ port)%string with (host ++ String ":" port)%string.
    rewrite (split_on_first _ _ _ _ Hh), (split_on_whole _ _ _ Hp).
    rewrite contains_app. cbn [nth append].
    split; find_line.
  - intros Hn. unfold Py.split_on. rewrite (split_on_whole _ _ _ Hn), Hn.
    cbn [nth append]. split; find_line.
Qed.

Lemma C9_job_files_witness :
  exists job_info_file plugin_info_file workflow_file s',
    _create_worker_job_files (farm 0) "[DIST] ComfyUI Workers x3" 3
      "localhost:8188" 50 "none" "none" fresh_process
    = (Return (job_info_file, plugin_info_file, workflow_file), s')
    /\ In (line "Frames=1-3") (job_info "[DIST] ComfyUI Workers x3" 3
                                 "localhost:8188" 50 "none" "none")
    /\ In (line "MachineLimit=3") (job_info "[DIST] ComfyUI Workers x3" 3
                                     "localhost:8188" 50 "none" "none")
    /\ In (line "EnvironmentKeyValue2=COMFY_MASTER_HOST=localhost")
          (job_info "[DIST] ComfyUI Workers x3" 3 "localhost:8188" 50
             "none" "none")
    /\ In (line "EnvironmentKeyValue3=COMFY_MASTER_PORT=8188")
          (job_info "[DIST] ComfyUI Workers x3" 3 "localhost:8188" 50
             "none" "none").
Proof.
  destruct (C9_job_files (farm 0) "[DIST] ComfyUI Workers x3" 3
              "localhost:8188" 50 "none" "none" fresh_process eq_refl)
    as (a & b & c & s' & E & _ & F & _ & _ & L & _ & _ & _ & _ & H & _).
  destruct (H "localhost" "8188" eq_refl eq_refl eq_refl) as [Hh Hp].
  exists a, b, c, s'. repeat split; assumption.
Defined.

(** ** Failures of the mirror *)

Lemma add_worker_body_reads_file env worker_id worker_ip worker_port s1 s2 :
  config_file s1 = config_file s2 ->
  fst (add_worker_body env worker_id worker_ip worker_port s1)
  = fst (add_worker_body env worker_id worker_ip worker_port s2).
Proof.
  unfold add_worker_body, import_config, load_config, save_config.
  intros E. split_store env; run_m; try reflexivity; rewrite E;
    destruct (find_existing worker_id _ 0); reflexivity.
Qed.

Lemma remove_worker_body_reads_file env worker_id s1 s2 :
  config_file s1 = config_file s2 ->
  fst (remove_worker_body env worker_id s1)
  = fst (remove_worker_body env worker_id s2).
Proof.
  unfold remove_worker_body, import_config, load_config, save_config.
  intros E. split_store env; run_m; try reflexivity; rewrite E;
    destruct (workers (config_file s2)) as [ws|]; simpl; try reflexivity;
    destruct (Nat.ltb _ _); reflexivity.
Qed.

(** C5. When the update of the shared configuration raises, the exception
    is caught and reported on the console as a warning, the file stays as
    it was, and the caller gets the same success as otherwise:
    [register_worker] answers success and holds the record, and
    [unregister_worker] of a registered worker answers success and holds
    the record no more. *)
Theorem C5_mirror_failure_swallowed :
  forall env s worker_id worker_ip worker_port job_id e,
    (fst (add_worker_body env worker_id worker_ip worker_port s) = Raise e ->
     exists s',
       register_worker env worker_id worker_ip worker_port job_id s
       = (Return (Success (Some ("Worker " ++ worker_id
            ++ " registered and added to distributed config")%string)), s')
       /\ Dict.get worker_id (claimed_workers (self s'))
          = Some (registration env worker_id worker_ip worker_port job_id)
       /\ config_file s' = config_file s
       /\ In (Log_config_add_warning e) (console s'))
    /\ (Dict.mem worker_id (claimed_workers (self s)) = true ->
        fst (remove_worker_body env worker_id s) = Raise e ->
        exists s',
          unregister_worker env worker_id s
          = (Return (Success (Some ("Worker " ++ worker_id
                                    ++ " unregistered")%string)), s')
          /\ Dict.get worker_id (claimed_workers (self s')) = None
          /\ config_file s' = config_file s
          /\ In (Log_config_remove_warning e) (console s')).
Proof.
  intros env s worker_id worker_ip worker_port job_id e. split.
  - intros Boom. unfold register_worker. run_m.
    match goal with
    | |- context [_add_worker_to_distributed_config env ?a ?b ?c ?s1] =>
        assert (fst (add_worker_body env a b c s1) = Raise e) as B
          by (rewrite <- Boom; now apply add_worker_body_reads_file);
        destruct (add_worker_caught _ _ _ _ _ _ B) as (C & before & L);
        destruct (add_worker_same env a b c s1) as (R & S1 & _ & _);
        destruct (_add_worker_to_distributed_config env a b c s1)
          as [[[]|e'] s2]
    end; simpl in *; try discriminate.
    eexists. split; [reflexivity|]. simpl. rewrite S1, C, L. simpl.
    rewrite DictFacts.get_set_same. repeat split.
    apply in_or_app. left. apply in_or_app. right. now left.
  - intros Known Boom. unfold unregister_worker. run_m. rewrite Known. simpl.
    match goal with
    | |- context [_remove_worker_from_distributed_config env ?a ?s1] =>
        assert (fst (remove_worker_body env a s1) = Raise e) as B
          by (rewrite <- Boom; now apply remove_worker_body_reads_file);
        destruct (remove_worker_caught _ _ _ _ B) as (C & before & L);
        destruct (remove_worker_same env a s1) as (R & S1 & _ & _);
        destruct (_remove_worker_from_distributed_config env a s1)
          as [[[]|e'] s2]
    end; simpl in *; try discriminate.
    eexists. split; [reflexivity|]. simpl. rewrite S1, C, L. simpl.
    rewrite DictFacts.get_del_same. repeat split.
    apply in_or_app. left. apply in_or_app. right. now left.
Qed.

Lemma C5_mirror_failure_swallowed_witness :
  (exists s',
     register_worker (broken_store 40) "w4" "10.0.0.4" 8289 None three_workers
     = (Return (Success (Some "Worker w4 registered and added to distributed config")),
        s')
     /\ config_file s' = config_file three_workers
     /\ In (Log_config_add_warning
              "attempted relative import with no known parent package")
           (console s'))
  /\ (exists s',
        unregister_worker (broken_store 40) "w1" three_workers
        = (Return (Success (Some "Worker w1 unregistered")), s')
        /\ Dict.get "w1" (claimed_workers (self s')) = None
        /\ config_file s' = config_file three_workers
        /\ In (Log_config_remove_warning
                 "attempted relative import with no known parent package")
              (console s')).
Proof.
  destruct (C5_mirror_failure_swallowed (broken_store 40) three_workers
              "w4" "10.0.0.4" 8289 None
              "attempted relative import with no known parent package")
    as [Reg _].
  destruct (C5_mirror_failure_swallowed (broken_store 40) three_workers
              "w1" "10.0.0.4" 8289 None
              "attempted relative import with no known parent package")
    as [_ Unreg].
  split.
  - destruct (Reg eq_refl) as (s' & E & _ & C & L).
    exists s'. repeat split; assumption.
  - destruct (Unreg eq_refl eq_refl) as (s' & E & G & C & L).
    exists s'. repeat split; assumption.
Defined.

(** ** The fallback pattern *)

Lemma hex_not_sep c : Re.is_hex c = true -> Re.is_sep c = false.
Proof.
  destruct c as [[] [] [] [] [] [] [] []]; vm_compute; congruence.
Qed.

Lemma literal_app p : forall label rest,
  Re.literal p label = Some EmptyString ->
  Re.literal p (label ++ rest) = Some rest.
Proof.
  induction p as [|a p IH]; intros label rest H.
  - destruct label; simpl in *; [reflexivity | discriminate].
  - destruct label as [|c label]; simpl in *; [discriminate|].
    destruct (Ascii.eqb (Py.lower a) (Py.lower c)); [auto | discriminate].
Qed.

Lemma skip_seps_app seps : forall rest,
  Py.all_chars Re.is_sep seps = true ->
  match rest with
  | String c _ => Re.is_sep c = false
  | EmptyString => True
  end ->
  Re.skip_seps (seps ++ rest) = rest.
Proof.
  induction seps as [|c seps IH]; intros rest A R; simpl in *.
  - destruct rest as [|c rest]; simpl; [reflexivity | now rewrite R].
  - apply andb_true_iff in A as [Hc A]. rewrite Hc. auto.
Qed.

Lemma take_app digits rest :
  Py.take (String.length digits) (digits ++ rest) = digits.
Proof. induction digits as [|c d IH]; simpl; [now destruct rest | now rewrite IH]. Qed.

(** A labelled identifier at the very start of the text is matched. *)
Lemma match_here_labelled label seps digits rest :
  Re.literal "Job ID" label = Some EmptyString ->
  seps <> EmptyString ->
  Py.all_chars Re.is_sep seps = true ->
  String.length digits = 24%nat ->
  Py.all_chars Re.is_hex digits = true ->
  Re.match_here (label ++ seps ++ digits ++ rest) = Some digits.
Proof.
  intros L N A Len H. unfold Re.match_here.
  rewrite (literal_app _ _ _ L).
  destruct seps as [|c seps]; [congruence|]. simpl in A.
  apply andb_true_iff in A as [Hc A].
  cbn [append]. rewrite Hc.
  rewrite skip_seps_app; auto.
  - assert (Py.take 24 (digits ++ rest) = digits) as T
      by (rewrite <- Len; apply take_app).
    cbv zeta. rewrite T, Len, H. reflexivity.
  - destruct digits as [|d digits]; [discriminate|]. simpl in *.
    apply andb_true_iff in H as [Hd _]. now apply hex_not_sep.
Qed.

Lemma match_here_sound s g :
  Re.match_here s = Some g ->
  String.length g = 24%nat /\ Py.all_chars Re.is_hex g = true.
Proof.
  unfold Re.match_here.
  destruct (Re.literal "Job ID" s) as [[|c rest]|]; try discriminate.
  destruct (Re.is_sep c); try discriminate.
  destruct (Nat.eqb _ 24) eqn:L; try discriminate.
  destruct (Py.all_chars Re.is_hex _) eqn:H; try discriminate.
  intros [= <-]. apply Nat.eqb_eq in L. auto.
Qed.

Lemma search_sound s : forall g,
  Re.search s = Some g ->
  String.length g = 24%nat /\ Py.all_chars Re.is_hex g = true.
Proof.
  induction s as [|c s IH]; intros g; cbn [Re.search].
  - destruct (Re.match_here EmptyString) eqn:M; [|discriminate].
    intros [= <-]. now apply match_here_sound in M.
  - destruct (Re.match_here (String c s)) eqn:M; [|apply IH].
    intros [= <-]. now apply match_here_sound in M.
Qed.

Lemma literal_split p : forall s r,
  Re.literal p s = Some r ->
  exists label, s = (label ++ r)%string /\ Re.literal p label = Some EmptyString.
Proof.
  induction p as [|a p IH]; intros s r H.
  - simpl in H. injection H as <-. exists EmptyString. split; reflexivity.
  - destruct s as [|c s]; simpl in H; [discriminate|].
    destruct (Ascii.eqb (Py.lower a) (Py.lower c)) eqn:E; [|discriminate].
    destruct (IH s r H) as (label & -> & L).
    exists (String c label). split; [reflexivity|]. simpl. now rewrite E.
Qed.

Lemma skip_seps_split s :
  exists seps,
    s = (seps ++ Re.skip_seps s)%string /\ Py.all_chars Re.is_sep seps = true.
Proof.
  induction s as [|c s (seps & E & A)].
  - exists EmptyString. split; reflexivity.
  - simpl. destruct (Re.is_sep c) eqn:C.
    + exists (String c seps). simpl. rewrite C, A. split; [now f_equal | reflexivity].
    + exists EmptyString. split; reflexivity.
Qed.

Lemma take_drop n : forall s, (Py.take n s ++ Py.drop n s)%string = s.
Proof.
  induction n as [|n IH]; intros s; [reflexivity|].
  destruct s as [|c s]; simpl; [reflexivity | now rewrite IH].
Qed.

Lemma take_length n : forall s,
  (n <= String.length s)%nat -> String.length (Py.take n s) = n.
Proof.
  induction n as [|n IH]; intros s L; [reflexivity|].
  destruct s as [|c s]; simpl in *; [lia|]. rewrite IH; lia.
Qed.

Lemma drop_app before s : Py.drop (String.length before) (before ++ s) = s.
Proof. induction before as [|c before IH]; simpl; auto. Qed.

(** What a match at the first character looks like. *)
Lemma match_here_inv s g :
  Re.match_here s = Some g -> labelled s EmptyString g.
Proof.
  unfold Re.match_here, labelled.
  destruct (Re.literal "Job ID" s) as [[|c rest]|] eqn:L; try discriminate.
  destruct (Re.is_sep c) eqn:C; try discriminate.
  cbv zeta.
  remember (Py.take 24 (Re.skip_seps rest)) as digits eqn:D.
  destruct (Nat.eqb (String.length digits) 24) eqn:Len; try discriminate.
  destruct (Py.all_chars Re.is_hex digits) eqn:H; try discriminate.
  intros G. injection G as <-. apply Nat.eqb_eq in Len.
  destruct (literal_split _ _ _ L) as (label & -> & Lab).
  destruct (skip_seps_split rest) as (seps & E & A).
  exists label, (String c seps), (Py.drop 24 (Re.skip_seps rest)).
  split.
  - rewrite D, take_drop. cbn [append]. now rewrite <- E.
  - repeat split; auto; [discriminate | simpl; now rewrite C, A].
Qed.

Lemma labelled_match stdout before digits :
  labelled stdout before digits ->
  Re.match_here (Py.drop (String.length before) stdout) = Some digits.
Proof.
  intros (label & seps & rest & -> & L & N & A & Len & H).
  rewrite drop_app. now apply match_here_labelled.
Qed.

Lemma match_labelled stdout k g :
  (k <= String.length stdout)%nat ->
  Re.match_here (Py.drop k stdout) = Some g ->
  exists before, String.length before = k /\ labelled stdout before g.
Proof.
  intros K M. exists (Py.take k stdout). split; [now apply take_length|].
  destruct (match_here_inv _ _ M) as (label & seps & rest & E & P).
  exists label, seps, rest. split; [|exact P].
  simpl in E. rewrite <- E. symmetry. apply take_drop.
Qed.

(** [Re.search] returns the match at the first position that has one. *)
Lemma search_inv s : forall g,
  Re.search s = Some g ->
  exists k,
    (k <= String.length s)%nat
    /\ Re.match_here (Py.drop k s) = Some g
    /\ forall j, (j < k)%nat -> Re.match_here (Py.drop j s) = None.
Proof.
  induction s as [|c s IH]; intros g; cbn [Re.search].
  - destruct (Re.match_here EmptyString) eqn:M; [|discriminate].
    intros [= <-]. exists O. repeat split; auto. intros j J. lia.
  - destruct (Re.match_here (String c s)) eqn:M.
    + intros [= <-]. exists O. repeat split; auto; [simpl; lia|].
      intros j J. lia.
    + intros E. destruct (IH g E) as (k & K & Mk & First).
      exists (S k). repeat split; [simpl; lia | exact Mk |].
      intros [|j] J; [exact M | apply First; lia].
Qed.

Lemma search_none s :
  Re.search s = None -> forall k, Re.match_here (Py.drop k s) = None.
Proof.
  induction s as [|c s IH]; cbn [Re.search].
  - destruct (Re.match_here EmptyString) eqn:M; [discriminate|].
    intros _ [|k]; exact M.
  - destruct (Re.match_here (String c s)) eqn:M; [discriminate|].
    intros E [|k]; [exact M | now apply IH].
Qed.

(** C6, as amended.  When no token of the output starts with [JobID=],
    [_extract_job_id] falls back to the pattern "Job ID" (in any case),
    then one or more of colon, equals sign and white space, then 24
    hexadecimal digits.  Whenever an identifier labelled in this way occurs
    in the output, the result is a string of 24 hexadecimal digits, not the
    empty string, and it is the identifier of the leftmost such occurrence.
    Conversely a result that is not empty is a labelled identifier of the
    output, the leftmost one: an identifier without the label is not
    extracted, and an output without a labelled identifier gives the empty
    string. *)
Theorem C6_fallback_needs_label :
  forall stdout s,
    (forall token, In token (Py.split stdout) ->
                   Py.startswith "JobID=" token = false) ->
    exists job_id s',
      _extract_job_id stdout s = (Return job_id, s')
      /\ (forall before digits,
            labelled stdout before digits ->
            String.length job_id = 24%nat
            /\ Py.all_chars Re.is_hex job_id = true
            /\ job_id <> EmptyString
            /\ ((forall before' digits',
                   labelled stdout before' digits' ->
                   (String.length before <= String.length before')%nat) ->
                job_id = digits))
      /\ (job_id <> EmptyString ->
          exists before,
            labelled stdout before job_id
            /\ forall before' digits',
                 labelled stdout before' digits' ->
                 (String.length before <= String.length before')%nat)
      /\ ((forall before digits, ~ labelled stdout before digits) ->
          job_id = EmptyString).
Proof.
  intros stdout s Tok.
  destruct (extract_job_id_run stdout s) as (s' & Run & _).
  unfold job_id_of in Run. rewrite (no_job_token _ Tok) in Run.
  destruct (Re.search stdout) as [g|] eqn:E.
  - destruct (search_sound _ _ E) as [Lg Hg].
    destruct (search_inv _ _ E) as (k & K & M & First).
    destruct (match_labelled _ _ _ K M) as (before0 & B0 & Lab0).
    assert (forall before' digits',
              labelled stdout before' digits' ->
              (String.length before0 <= String.length before')%nat) as Left.
    { intros before' digits' Lab. apply labelled_match in Lab.
      destruct (le_lt_dec (String.length before0) (String.length before'));
        [assumption|].
      rewrite First in Lab by lia. discriminate. }
    exists g, s'. split; [exact Run|]. split; [|split].
    + intros before digits Lab. repeat split; auto.
      * intros ->. discriminate.
      * intros Leftmost.
        assert (String.length before = k) as Same.
        { apply Nat.le_antisymm.
          - rewrite <- B0. now apply (Leftmost before0 g).
          - rewrite <- B0. now apply (Left before digits). }
        apply labelled_match in Lab. rewrite Same in Lab. congruence.
    + intros _. exists before0. split; assumption.
    + intros None. exfalso. now apply (None before0 g).
  - exists EmptyString, s'. split; [exact Run|]. split; [|split].
    + intros before digits Lab. apply labelled_match in Lab.
      rewrite (search_none _ E) in Lab. discriminate.
    + intros N. congruence.
    + reflexivity.
Qed.

Lemma C6_fallback_needs_label_witness :
  exists s',
    _extract_job_id "Result=Success Job Id: 0123456789abcdef01234567 ok"
      fresh_process
    = (Return "0123456789abcdef01234567", s').
Proof.
  destruct (C6_fallback_needs_label
              "Result=Success Job Id: 0123456789abcdef01234567 ok"
              fresh_process)
    as (job_id & s' & Run & Found & _).
  - simpl. intros token [<-|[<-|[<-|[<-|[<-|[]]]]]]; reflexivity.
  - exists s'. rewrite Run. do 2 f_equal.
    apply (Found "Result=Success " "0123456789abcdef01234567").
    + exists "Job Id", ": ", " ok". repeat split. discriminate.
    + intros before' digits' Lab. apply labelled_match in Lab.
      remember (String.length before') as k eqn:K. clear K.
      do 15 (destruct k as [|k]; [discriminate Lab|]). simpl. lia.
Defined.

(** C6 fails as stated: the output below holds no [JobID=] token and holds
    an identifier of 24 hexadecimal digits, and [_extract_job_id] returns
    the empty string, because the identifier does not follow "Job ID". *)
Lemma C6_counterexample :
  (forall token,
     In token (Py.split "Submitted job 0123456789abcdef01234567") ->
     Py.startswith "JobID=" token = false)
  /\ fst (_extract_job_id "Submitted job 0123456789abcdef01234567" fresh_process)
     = Return EmptyString
  /\ ~ (forall stdout before digits rest s,
          (forall token, In token (Py.split stdout) ->
                         Py.startswith "JobID=" token = false) ->
          stdout = (before ++ digits ++ rest)%string ->
          String.length digits = 24%nat ->
          Py.all_chars Re.is_hex digits = true ->
          fst (_extract_job_id stdout s) <> Return EmptyString).
Proof.
  assert (forall token,
            In token (Py.split "Submitted job 0123456789abcdef01234567") ->
            Py.startswith "JobID=" token = false) as Tok
    by (simpl; intros token [<-|[<-|[<-|[]]]]; reflexivity).
  split; [exact Tok|]. split; [reflexivity|].
  intros H.
  apply (H "Submitted job 0123456789abcdef01234567" "Submitted job "
           "0123456789abcdef01234567" "" fresh_process Tok);
    reflexivity.
Qed.

(** ** Registering twice *)

Lemma find_existing_upsert worker_id e ws : forall i,
  match find_existing worker_id ws i with
  | Some j => (i <= j)%nat /\ list_set (j - i) e ws = upsert worker_id e ws
  | None => ws ++ [e] = upsert worker_id e ws
  end.
Proof.
  induction ws as [|w ws IH]; intros i; simpl; [reflexivity|].
  destruct (has_id worker_id w).
  - rewrite Nat.sub_diag. auto.
  - specialize (IH (S i)).
    destruct (find_existing worker_id ws (S i)) as [j|].
    + destruct IH as [Le E]. split; [lia|].
      replace (j - i)%nat with (S (j - S i)) by lia. simpl. now rewrite E.
    + simpl. now rewrite IH.
Qed.

Lemma mirrored_add_upsert env worker_id worker_ip worker_port ws :
  mirrored_add env worker_id worker_ip worker_port ws
  = upsert worker_id (worker_entry env worker_id worker_ip worker_port) ws.
Proof.
  unfold mirrored_add.
  pose proof (find_existing_upsert worker_id
                (worker_entry env worker_id worker_ip worker_port) ws O) as H.
  destruct (find_existing worker_id ws 0) as [j|]; [|exact H].
  destruct H as [_ H]. now rewrite Nat.sub_0_r in H.
Qed.

(** The entries for [worker_id] after an update: the new entry takes the
    place of the first of them. *)
Lemma filter_upsert worker_id e ws :
  has_id worker_id e = true ->
  filter (has_id worker_id) (upsert worker_id e ws)
  = e :: tl (filter (has_id worker_id) ws).
Proof.
  intros He. induction ws as [|w ws IH]; simpl.
  - now rewrite He.
  - destruct (has_id worker_id w) eqn:Hw; simpl.
    + now rewrite He.
    + now rewrite Hw.
Qed.

Lemma has_id_entry env worker_id worker_ip worker_port :
  has_id worker_id (worker_entry env worker_id worker_ip worker_port) = true.
Proof. unfold has_id. simpl. apply String.eqb_refl. Qed.

Lemma filter_key_absent {V} (k : string) (d : Dict.t V) :
  ~ In k (Dict.keys d) -> filter (Dict.is_key k) d = [].
Proof.
  unfold Dict.keys, Dict.is_key.
  induction d as [|[k0 v0] d IH]; simpl; [reflexivity|].
  intros N. destruct (String.eqb k k0) eqn:E.
  - apply String.eqb_eq in E. subst k0. exfalso. apply N. now left.
  - apply IH. tauto.
Qed.

(** After [d[k] = v] the key [k] has one entry, and it holds [v]. *)
Lemma filter_key_set {V} (k : string) (v : V) (d : Dict.t V) :
  Dict.ok d -> filter (Dict.is_key k) (Dict.set k v d) = [(k, v)].
Proof.
  unfold Dict.ok, Dict.keys.
  induction d as [|[k0 v0] d IH]; simpl; intros OK.
  - unfold Dict.is_key. simpl. now rewrite String.eqb_refl.
  - inversion OK as [|? ? NI OK']; subst.
    destruct (String.eqb k k0) eqn:E; simpl; unfold Dict.is_key at 1; simpl;
      rewrite E.
    + apply String.eqb_eq in E. subst k0.
      now rewrite (filter_key_absent k d NI).
    + auto.
Qed.

Lemma register_worker_config env worker_id worker_ip worker_port job_id s :
  config_file (snd (register_worker env worker_id worker_ip worker_port job_id s))
  = if store_ok env
    then {| workers := Some (mirrored_add env worker_id worker_ip worker_port
                               (workers_of (config_file s))) |}
    else config_file s.
Proof.
  unfold register_worker. run_m.
  match goal with
  | |- context [_add_worker_to_distributed_config env ?a ?b ?c ?s1] =>
      pose proof (add_worker_ok env a b c s1) as Ok;
      pose proof (add_worker_fails env a b c s1) as Ko;
      pose proof (fun e => add_worker_caught env a b c s1 e) as Caught;
      destruct (add_worker_same env a b c s1) as (R & _);
      destruct (_add_worker_to_distributed_config env a b c s1) as [[[]|e'] s2]
  end; simpl in *; try discriminate.
  destruct (store_ok env).
  - now apply Ok.
  - destruct (Ko eq_refl) as [e B]. now destruct (Caught e B).
Qed.

(** C3, as amended.  Registering the same worker twice, with a different
    address the second time, leaves exactly one record for it in the
    registry, with the latest address.  In the shared configuration, when
    the update of the second call does not raise, the new entry takes the
    place of the first entry for the worker, so that no entry is added to
    those already there; if the list held at most one entry for the worker
    beforehand, it holds exactly one afterwards, with the latest address.
    When the update of the second call raises, the failure is swallowed and
    the configuration is left as the first call left it. *)
Theorem C3_register_twice :
  forall env1 env2 s worker_id ip1 port1 job1 ip2 port2 job2,
    Dict.ok (claimed_workers (self s)) ->
    let s1 := snd (register_worker env1 worker_id ip1 port1 job1 s) in
    let s2 := snd (register_worker env2 worker_id ip2 port2 job2 s1) in
    let latest := worker_entry env2 worker_id ip2 port2 in
    filter (Dict.is_key worker_id) (claimed_workers (self s2))
    = [(worker_id, registration env2 worker_id ip2 port2 job2)]
    /\ List.length (claimed_workers (self s2))
       = List.length (claimed_workers (self s1))
    /\ (store_ok env2 = true ->
        filter (has_id worker_id) (workers_of (config_file s2))
        = latest :: tl (filter (has_id worker_id) (workers_of (config_file s1)))
        /\ c_host latest = ip2 /\ c_port latest = port2
        /\ ((List.length (filter (has_id worker_id)
                            (workers_of (config_file s))) <= 1)%nat ->
            filter (has_id worker_id) (workers_of (config_file s2)) = [latest]))
    /\ (store_ok env2 = false ->
        config_file s2 = config_file s1
        /\ fst (register_worker env2 worker_id ip2 port2 job2 s1)
           = Return (Success (Some ("Worker " ++ worker_id
                        ++ " registered and added to distributed config")%string))).
Proof.
  intros env1 env2 s worker_id ip1 port1 job1 ip2 port2 job2 OK s1 s2 latest.
  destruct (register_worker_run env1 worker_id ip1 port1 job1 s)
    as (t1 & E1 & S1 & _).
  assert (s1 = t1) as Hs1 by (unfold s1; now rewrite E1).
  destruct (register_worker_run env2 worker_id ip2 port2 job2 s1)
    as (t2 & E2 & S2 & _).
  assert (s2 = t2) as Hs2 by (unfold s2; now rewrite E2).
  rewrite <- Hs1 in S1. rewrite <- Hs2 in S2.
  assert (Dict.ok (claimed_workers (self s1))) as OK1
    by (rewrite S1; simpl; now apply DictFacts.ok_set).
  split; [|split; [|split]].
  4:{ intros Ko2. split; [|now rewrite E2].
      unfold s2. now rewrite register_worker_config, Ko2. }
  - rewrite S2. simpl. now apply filter_key_set.
  - rewrite S2. simpl. apply DictFacts.length_set_mem.
    rewrite S1. simpl. apply DictFacts.mem_set_same.
  - intros Ok2.
    assert (filter (has_id worker_id) (workers_of (config_file s2))
            = latest :: tl (filter (has_id worker_id)
                              (workers_of (config_file s1)))) as F2.
    { unfold s2. rewrite register_worker_config, Ok2. unfold workers_of at 1.
      simpl. rewrite mirrored_add_upsert.
      apply filter_upsert, has_id_entry. }
    split; [exact F2|]. split; [reflexivity|]. split; [reflexivity|].
    intros Few. rewrite F2. f_equal.
    assert (List.length (filter (has_id worker_id)
                           (workers_of (config_file s1))) <= 1)%nat as Few1.
    { unfold s1. rewrite register_worker_config.
      destruct (store_ok env1); [|exact Few].
      unfold workers_of at 1. simpl. rewrite mirrored_add_upsert.
      rewrite filter_upsert by apply has_id_entry. simpl.
      destruct (filter (has_id worker_id) (workers_of (config_file s)))
        as [|w [|w' l]]; simpl in *; lia. }
    destruct (filter (has_id worker_id) (workers_of (config_file s1)))
      as [|w [|w' l]]; simpl in *; try reflexivity; lia.
Qed.

Lemma C3_register_twice_witness :
  let s1 := snd (register_worker (farm 10) "w1" "10.0.0.1" 8289 None
                   fresh_process) in
  let s2 := snd (register_worker (farm 20) "w1" "10.0.0.2" 8290 None s1) in
  filter (Dict.is_key "w1") (claimed_workers (self s2))
  = [("w1", registration (farm 20) "w1" "10.0.0.2" 8290 None)]
  /\ filter (has_id "w1") (workers_of (config_file s2))
     = [worker_entry (farm 20) "w1" "10.0.0.2" 8290]
  /\ config_file
       (snd (register_worker (broken_store 20) "w1" "10.0.0.2" 8290 None s1))
     = config_file s1.
Proof.
  destruct (C3_register_twice (farm 10) (farm 20) fresh_process "w1"
              "10.0.0.1" 8289 None "10.0.0.2" 8290 None)
    as (R & _ & C & _); [constructor|].
  destruct (C3_register_twice (farm 10) (broken_store 20) fresh_process "w1"
              "10.0.0.1" 8289 None "10.0.0.2" 8290 None)
    as (_ & _ & _ & K); [constructor|].
  split; [exact R|]. split.
  - destruct (C eq_refl) as (_ & _ & _ & One). apply One. simpl. lia.
  - apply (K eq_refl).
Defined.

(** C3 fails as stated: when the second update of the shared configuration
    raises, the registry holds the latest address and the configuration
    still holds the first one. *)
Lemma C3_counterexample :
  map (fun kv => w_ip (snd kv)) (claimed_workers (self moved_worker))
  = ["10.0.0.2"]
  /\ map c_host (workers_of (config_file moved_worker)) = ["10.0.0.1"]
  /\ ~ (forall env1 env2 s worker_id ip1 port1 job1 ip2 port2 job2,
          reachable s ->
          let s1 := snd (register_worker env1 worker_id ip1 port1 job1 s) in
          let s2 := snd (register_worker env2 worker_id ip2 port2 job2 s1) in
          exists w,
            filter (has_id worker_id) (workers_of (config_file s2)) = [w]
            /\ c_host w = ip2 /\ c_port w = port2).
Proof.
  split; [reflexivity|]. split; [reflexivity|].
  intros H.
  destruct (H (farm 10) (broken_store 20) fresh_process "w1"
              "10.0.0.1" 8289 None "10.0.0.2" 8290 None (reachable_boot _ _))
    as (w & F & Host & _).
  vm_compute in F. injection F as <-. discriminate Host.
Qed.

(** ** Liveness *)

Lemma get_filter_kept {V} (p : string * V -> bool) k v (d : Dict.t V) :
  Dict.ok d -> Dict.get k d = Some v -> p (k, v) = true ->
  Dict.get k (filter p d) = Some v.
Proof.
  intros OK G P. apply DictFacts.In_get; [now apply DictFacts.ok_filter|].
  apply filter_In. split; [now apply DictFacts.get_In | exact P].
Qed.

Lemma get_filter_dropped {V} (p : string * V -> bool) k v (d : Dict.t V) :
  Dict.ok d -> Dict.get k d = Some v -> p (k, v) = false ->
  Dict.get k (filter p d) = None.
Proof.
  intros OK G P. destruct (Dict.get k (filter p d)) as [v'|] eqn:G'; [|reflexivity].
  apply DictFacts.get_In, filter_In in G' as [I P'].
  apply (DictFacts.In_get _ _ _ OK) in I. congruence.
Qed.

(** One request of a spaced trace keeps the record of [id], with the time
    of its latest report. *)
Lemma step_keeps id env r s w :
  consistent (self s) ->
  Dict.get id (claimed_workers (self s)) = Some w ->
  spaced 60 id (w_last_seen w) [(env, r)] = true ->
  exists w',
    Dict.get id (claimed_workers (self (snd (handle env r s)))) = Some w'
    /\ w_last_seen w' = (if reports id r then clock env else w_last_seen w).
Proof.
  intros K G Sp. simpl in Sp. rewrite andb_true_r in Sp.
  destruct r as [| count ws pr pool grp | ids | i ip port job | i | i]; simpl.
  - pose proof (get_worker_status_run env s (workers_distinct _ K)) as R.
    cbv zeta in R.
    destruct (deadline_command (self s)) as [[|c cmd]|];
      try (rewrite R; simpl; eauto; fail).
    destruct R as (s' & E & HS & _). rewrite E. simpl. rewrite HS. simpl.
    exists w. split; [|reflexivity].
    apply get_filter_kept; auto; [apply K|].
    unfold live. simpl. now rewrite (timeout_default _ K).
  - destruct (claim_workers_run env count ws pr pool grp s)
      as (rep & s' & E & [HS | (jid & msg & _ & HS)]);
      rewrite E; simpl; rewrite HS; simpl; eauto.
  - pose proof (release_workers_run env ids s) as R.
    destruct (deadline_command (self s)) as [[|c cmd]|];
      try (rewrite R; simpl; eauto; fail).
    destruct R as (s' & E & HS & _). rewrite E. simpl. rewrite HS. simpl. eauto.
  - destruct (register_worker_run env i ip port job s) as (s' & E & HS & _).
    rewrite E. simpl. rewrite HS. simpl.
    destruct (String.eqb i id) eqn:Eq.
    + apply String.eqb_eq in Eq. subst i.
      rewrite DictFacts.get_set_same. eauto.
    + apply String.eqb_neq in Eq.
      rewrite DictFacts.get_set_other by congruence. eauto.
  - pose proof (worker_heartbeat_run env i s) as R.
    destruct (String.eqb i id) eqn:Eq.
    + apply String.eqb_eq in Eq. subst i. rewrite G in R.
      destruct R as (s' & E & HS & _). rewrite E. simpl. rewrite HS. simpl.
      rewrite DictFacts.get_set_same. eauto.
    + apply String.eqb_neq in Eq.
      destruct (Dict.get i (claimed_workers (self s))) as [wi|].
      * destruct R as (s' & E & HS & _). rewrite E. simpl. rewrite HS. simpl.
        rewrite DictFacts.get_set_other by congruence. eauto.
      * rewrite R. simpl. eauto.
  - pose proof (unregister_worker_run env i s) as R.
    apply negb_true_iff, String.eqb_neq in Sp.
    destruct (Dict.mem i (claimed_workers (self s))).
    + destruct R as (s' & E & HS & _). rewrite E. simpl. rewrite HS. simpl.
      rewrite DictFacts.get_del_other by congruence. eauto.
    + rewrite R. simpl. eauto.
Qed.

Lemma spaced_keeps id trace : forall s w,
  consistent (self s) ->
  Dict.get id (claimed_workers (self s)) = Some w ->
  spaced 60 id (w_last_seen w) trace = true ->
  consistent (self (run trace s))
  /\ exists w',
       Dict.get id (claimed_workers (self (run trace s))) = Some w'
       /\ w_last_seen w' = last_report id (w_last_seen w) trace.
Proof.
  induction trace as [|[env r] trace IH]; intros s w K G Sp.
  - simpl. eauto.
  - cbn [spaced] in Sp. apply andb_true_iff in Sp as [Now Later].
    destruct (step_keeps id env r s w K G) as (w' & G' & L').
    { cbn [spaced]. now rewrite Now. }
    destruct (handle_step env r s K) as (rep & s' & E & K' & _).
    cbn [run last_report]. rewrite E in *. simpl in *.
    rewrite <- L' in Later |- *. now apply IH.
Qed.

(** C1.  Take any reachable state, register a worker, and let any requests
    follow in which the heartbeats of the worker and the listings are spaced
    under the time-out and the worker is not unregistered.  Then
    [get_active_workers] lists the worker exactly when less than the
    time-out (60 seconds) has passed since its latest report; once the
    time-out has passed, the listing drops the worker, removes its record,
    and a later heartbeat of the worker gets "Worker not found". *)
Theorem C1_listing_follows_heartbeats :
  forall s0 env0 id ip port job trace env,
    reachable s0 ->
    spaced (worker_heartbeat_timeout (self s0)) id (clock env0) trace = true ->
    let s1 := run ((env0, Register id ip port job) :: trace) s0 in
    let last := last_report id (clock env0) trace in
    exists listing s2,
      get_active_workers env s1 = (Return listing, s2)
      /\ worker_heartbeat_timeout (self s1) = 60
      /\ (In id (map w_id listing) <-> clock env - last < 60)
      /\ (60 <= clock env - last ->
          Dict.get id (claimed_workers (self s2)) = None
          /\ forall env',
               worker_heartbeat env' id s2
               = (Return (Failure "Worker not found"), s2)).
Proof.
  intros s0 env0 id ip port job trace env R Sp s1 last.
  pose proof (reachable_consistent s0 R) as K0.
  rewrite (timeout_default _ K0) in Sp.
  destruct (register_worker_run env0 id ip port job s0) as (t & E & HS & _).
  assert (consistent (self t)) as Kt
    by (rewrite HS; now apply consistent_set_worker).
  assert (Dict.get id (claimed_workers (self t))
          = Some (registration env0 id ip port job)) as Gt
    by (rewrite HS; simpl; apply DictFacts.get_set_same).
  destruct (spaced_keeps id trace t _ Kt Gt Sp) as (K1 & w & G & L).
  assert (s1 = run trace t) as Hs1
    by (unfold s1; cbn [run handle]; now rewrite E).
  rewrite <- Hs1 in K1, G. simpl in L. fold last in L.
  destruct (get_active_workers_run env s1 (workers_distinct _ K1))
    as (s2 & Run & HS2 & _).
  rewrite (timeout_default _ K1) in Run, HS2.
  do 2 eexists. split; [exact Run|]. split; [apply K1|].
  assert (live (clock env) 60 (id, w) = (clock env - last <? 60)) as Lv
    by (unfold live; simpl; now rewrite L).
  split; [split|].
  - intros I. apply in_map_iff in I as (w' & N & I).
    apply in_map_iff in I as ([k w''] & Ew & I). simpl in Ew. subst w''.
    apply filter_In in I as [I Fresh].
    pose proof (workers_named _ K1 _ _ I) as Nk. rewrite N in Nk. subst k.
    apply (DictFacts.In_get _ _ _ (workers_distinct _ K1)) in I.
    assert (w' = w) by congruence. subst w'.
    rewrite Lv in Fresh. now apply Z.ltb_lt.
  - intros Lt. apply Z.ltb_lt in Lt. rewrite <- Lv in Lt.
    apply in_map_iff. exists w. split.
    + apply (workers_named _ K1 id w). now apply DictFacts.get_In.
    + apply in_map_iff. exists (id, w). split; [reflexivity|].
      apply filter_In. split; [now apply DictFacts.get_In | exact Lt].
  - intros Ge.
    assert (Dict.get id (claimed_workers (self s2)) = None) as Gone.
    { rewrite HS2. simpl.
      apply (get_filter_dropped _ id w); [apply K1 | exact G|].
      rewrite Lv. apply Z.ltb_ge. lia. }
    split; [exact Gone|]. intros env'.
    pose proof (worker_heartbeat_run env' id s2) as Hb.
    now rewrite Gone in Hb.
Qed.

Lemma C1_listing_follows_heartbeats_witness :
  let s1 := run ((farm 10, Register "w1" "10.0.0.1" 8289 None) :: steady_trace)
              fresh_process in
  (exists listing s2,
     get_active_workers (farm 159) s1 = (Return listing, s2)
     /\ In "w1" (map w_id listing))
  /\ (exists listing s2,
        get_active_workers (farm 160) s1 = (Return listing, s2)
        /\ ~ In "w1" (map w_id listing)
        /\ worker_heartbeat (farm 161) "w1" s2
           = (Return (Failure "Worker not found"), s2)).
Proof.
  split.
  - destruct (C1_listing_follows_heartbeats fresh_process (farm 10) "w1"
                "10.0.0.1" 8289 None steady_trace (farm 159))
      as (listing & s2 & Run & _ & In_iff & _).
    + apply reachable_boot.
    + reflexivity.
    + exists listing, s2. split; [exact Run|]. apply In_iff. simpl. lia.
  - destruct (C1_listing_follows_heartbeats fresh_process (farm 10) "w1"
                "10.0.0.1" 8289 None steady_trace (farm 160))
      as (listing & s2 & Run & _ & In_iff & Out).
    + apply reachable_boot.
    + reflexivity.
    + exists listing, s2. split; [exact Run|]. split.
      * intros I. apply In_iff in I. simpl in I. lia.
      * apply Out. simpl. lia.
Defined.

(** ** The legacy module *)

(** Without a [JobID=] marker the legacy extraction answers "unknown", a
    non-empty string, where [_extract_job_id] above answers the empty
    string. *)
Remark legacy_extraction_unknown :
  Legacy._extract_job_id "Submitting job... done" = "unknown"%string
  /\ job_id_of "Submitting job... done" = EmptyString.
Proof. split; reflexivity. Qed.

Remark legacy_extraction_marker :
  Legacy._extract_job_id
    (line "Result=Success" ++ line "JobID=0123456789abcdef01234567 ")
  = "0123456789abcdef01234567"%string.
Proof. reflexivity. Qed.

(** On the submission of C2 the legacy [claim_workers] answers success and
    records a job named "unknown". *)
Remark legacy_claim_records_unknown :
  exists message s',
    Legacy.claim_workers silent_farm 3 "localhost:8188" fresh_process
    = (Return (Claimed "unknown" message), s')
    /\ Dict.keys (active_jobs (self s')) = ["unknown"%string].
Proof. do 2 eexists. split; reflexivity. Qed.

(** The legacy job file asks for the single frame 1, whatever the count. *)
Remark legacy_single_frame job_name count master_ws :
  In (line "Frames=1") (Legacy.job_info job_name count master_ws).
Proof. unfold Legacy.job_info. find_line. Qed.

(** * More of the module *)

(** ** The registry beyond the sweep *)

Lemma keys_set_present {V} (k : string) (v : V) (d : Dict.t V) :
  Dict.mem k d = true -> Dict.keys (Dict.set k v d) = Dict.keys d.
Proof. intros M. now rewrite DictFacts.keys_set, M. Qed.

Lemma get_filter_absent {V} (p : string * V -> bool) k (d : Dict.t V) :
  Dict.get k d = None -> Dict.get k (filter p d) = None.
Proof.
  intros G. apply DictFacts.get_None_keys. apply DictFacts.get_None_keys in G.
  intros I. apply G. unfold Dict.keys in *.
  apply in_map_iff in I as (kv & E & I). apply filter_In in I as [I _].
  rewrite <- E. now apply in_map.
Qed.

(** X1. A heartbeat never adds or removes a record: the keys of the registry
    and every other record stay as they are; the record of the worker, if
    there is one, keeps its address and job and takes the clock reading as
    [last_seen]; without a record the answer is "Worker not found" and the
    state is untouched. *)
Theorem heartbeat_only_refreshes :
  forall env id s,
    exists r s',
      worker_heartbeat env id s = (Return r, s')
      /\ Dict.keys (claimed_workers (self s'))
         = Dict.keys (claimed_workers (self s))
      /\ (forall k, k <> id ->
            Dict.get k (claimed_workers (self s'))
            = Dict.get k (claimed_workers (self s)))
      /\ config_file s' = config_file s
      /\ match Dict.get id (claimed_workers (self s)) with
         | Some w =>
             r = Success None
             /\ Dict.get id (claimed_workers (self s'))
                = Some {| w_id := w_id w; w_ip := w_ip w; w_port := w_port w;
                          w_job_id := w_job_id w; w_last_seen := clock env |}
         | None => r = Failure "Worker not found" /\ s' = s
         end.
Proof.
  intros env id s. pose proof (worker_heartbeat_run env id s) as R.
  destruct (Dict.get id (claimed_workers (self s))) as [w|] eqn:G.
  - destruct R as (s' & E & HS & C & _). exists (Success None), s'.
    split; [exact E|]. rewrite HS. simpl.
    split; [apply keys_set_present; unfold Dict.mem; now rewrite G|].
    split; [intros k N; now apply DictFacts.get_set_other|].
    split; [exact C|]. split; [reflexivity|].
    apply DictFacts.get_set_same.
  - exists (Failure "Worker not found"), s. repeat split; auto.
Qed.

Lemma step_stays_absent id env r s :
  consistent (self s) ->
  Dict.get id (claimed_workers (self s)) = None ->
  registers id r = false ->
  Dict.get id (claimed_workers (self (snd (handle env r s)))) = None.
Proof.
  intros K G NR.
  destruct r as [| count ws pr pool grp | ids | i ip port job | i | i]; simpl.
  - pose proof (get_worker_status_run env s (workers_distinct _ K)) as R.
    cbv zeta in R.
    destruct (deadline_command (self s)) as [[|c cmd]|];
      try (rewrite R; simpl; auto; fail).
    destruct R as (s' & E & HS & _). rewrite E. simpl. rewrite HS. simpl.
    now apply get_filter_absent.
  - destruct (claim_workers_run env count ws pr pool grp s)
      as (rep & s' & E & [HS | (jid & msg & _ & HS)]);
      rewrite E; simpl; rewrite HS; simpl; auto.
  - pose proof (release_workers_run env ids s) as R.
    destruct (deadline_command (self s)) as [[|c cmd]|];
      try (rewrite R; simpl; auto; fail).
    destruct R as (s' & E & HS & _). rewrite E. simpl. rewrite HS. simpl. auto.
  - destruct (register_worker_run env i ip port job s) as (s' & E & HS & _).
    rewrite E. simpl. rewrite HS. simpl. simpl in NR.
    apply String.eqb_neq in NR.
    rewrite DictFacts.get_set_other by congruence. exact G.
  - pose proof (worker_heartbeat_run env i s) as R.
    destruct (Dict.get i (claimed_workers (self s))) as [wi|] eqn:Gi.
    + destruct R as (s' & E & HS & _). rewrite E. simpl. rewrite HS. simpl.
      rewrite DictFacts.get_set_other by congruence. exact G.
    + rewrite R. simpl. exact G.
  - pose proof (unregister_worker_run env i s) as R.
    destruct (Dict.mem i (claimed_workers (self s))).
    + destruct R as (s' & E & HS & _). rewrite E. simpl. rewrite HS. simpl.
      unfold Dict.del. now apply get_filter_absent.
    + rewrite R. simpl. exact G.
Qed.

(** X2. Only a registration creates a record.  From a state in which the
    worker has no record (it never registered, it unregistered, or the sweep
    dropped it), no sequence of requests without a registration of that
    worker brings the record back: heartbeats do not revive it, and the next
    heartbeat is still answered "Worker not found". *)
Theorem only_registration_creates :
  forall id trace s,
    reachable s ->
    Dict.get id (claimed_workers (self s)) = None ->
    forallb (fun er => negb (registers id (snd er))) trace = true ->
    Dict.get id (claimed_workers (self (run trace s))) = None
    /\ forall env,
         worker_heartbeat env id (run trace s)
         = (Return (Failure "Worker not found"), run trace s).
Proof.
  intros id trace s R G NR.
  assert (Dict.get id (claimed_workers (self (run trace s))) = None) as Gone.
  { pose proof (reachable_consistent s R) as K. clear R.
    revert s K G. induction trace as [|[env r] trace IH]; intros s K G.
    - exact G.
    - cbn [forallb snd] in NR. apply andb_true_iff in NR as [N1 NR].
      apply negb_true_iff in N1. cbn [run].
      destruct (handle_step env r s K) as (rep & s' & E & K' & _).
      pose proof (step_stays_absent id env r s K G N1) as G'.
      rewrite E in *. simpl in *. now apply IH. }
  split; [exact Gone|]. intros env.
  pose proof (worker_heartbeat_run env id (run trace s)) as Hb.
  now rewrite Gone in Hb.
Qed.

Lemma only_registration_creates_witness :
  let s := run [(farm 75, Status)] one_silent in
  Dict.get "w1" (claimed_workers (self (run late_heartbeats s))) = None
  /\ forall env,
       worker_heartbeat env "w1" (run late_heartbeats s)
       = (Return (Failure "Worker not found"), run late_heartbeats s).
Proof.
  apply (only_registration_creates "w1" late_heartbeats
           (run [(farm 75, Status)] one_silent)).
  - apply reachable_run, reachable_run, reachable_run, reachable_boot.
  - reflexivity.
  - reflexivity.
Defined.

Lemma filter_idem {A} (p : A -> bool) (l : list A) :
  filter p (filter p l) = filter p l.
Proof.
  rewrite filter_twice. apply filter_ext. intros x. now destruct (p x).
Qed.

Lemma live_earlier now now' timeout kv :
  now <= now' -> live now' timeout kv = true -> live now timeout kv = true.
Proof. unfold live. intros Le H. apply Z.ltb_lt in H. apply Z.ltb_lt. lia. Qed.

(** X3. The sweep only removes: what [get_active_workers] returns is the
    content of the registry it leaves, in registration order, and every
    record it leaves was there before.  A second sweep at a later reading of
    the clock returns a part of the first listing, and at the same reading
    it returns the same listing and changes nothing. *)
Theorem sweep_settles :
  forall env env' s,
    Dict.ok (claimed_workers (self s)) ->
    clock env <= clock env' ->
    exists l s1 l' s2,
      get_active_workers env s = (Return l, s1)
      /\ get_active_workers env' s1 = (Return l', s2)
      /\ l = Dict.values (claimed_workers (self s1))
      /\ incl (claimed_workers (self s1)) (claimed_workers (self s))
      /\ incl l' l
      /\ (clock env' = clock env -> l' = l /\ self s2 = self s1).
Proof.
  intros env env' s OK Le.
  destruct (get_active_workers_run env s OK) as (s1 & E1 & HS1 & _).
  assert (Dict.ok (claimed_workers (self s1))) as OK1
    by (rewrite HS1; simpl; now apply DictFacts.ok_filter).
  destruct (get_active_workers_run env' s1 OK1) as (s2 & E2 & HS2 & _).
  do 4 eexists. split; [exact E1|]. split; [exact E2|].
  assert (worker_heartbeat_timeout (self s1) = worker_heartbeat_timeout (self s))
    as T by now rewrite HS1.
  assert (claimed_workers (self s1)
          = filter (live (clock env) (worker_heartbeat_timeout (self s)))
              (claimed_workers (self s))) as C1 by now rewrite HS1.
  split; [now rewrite C1|].
  split; [rewrite C1; intros kv I; now apply filter_In in I|].
  split.
  - rewrite C1. intros w I. apply in_map_iff in I as (kv & <- & I).
    apply filter_In in I as [I _]. now apply in_map.
  - intros Same. rewrite T, Same, C1, filter_idem.
    split; [reflexivity|].
    rewrite HS2, T, Same, C1, filter_idem, <- C1.
    apply set_claimed_workers_same.
Qed.

Lemma sweep_settles_witness :
  exists l s1 l' s2,
    get_active_workers (farm 75) one_silent = (Return l, s1)
    /\ get_active_workers (farm 100) s1 = (Return l', s2)
    /\ l = Dict.values (claimed_workers (self s1))
    /\ incl (claimed_workers (self s1)) (claimed_workers (self one_silent))
    /\ incl l' l
    /\ (100 = 75 -> l' = l /\ self s2 = self s1).
Proof.
  apply (sweep_settles (farm 75) (farm 100) one_silent).
  - apply (workers_distinct _ (reachable_consistent one_silent
             (reachable_run _ _ (reachable_run _ _ (reachable_boot _ _))))).
  - simpl. lia.
Defined.

Lemma In_upsert worker_id e ws : In e (upsert worker_id e ws).
Proof.
  induction ws as [|w ws IH]; simpl; [now left|].
  destruct (has_id worker_id w); [now left | now right].
Qed.

(** X4. The sweep does not mirror an eviction into the shared
    configuration.  A worker registered while the store works and silent for
    the time-out loses its record at the next listing, but its entry stays
    in the [workers] list; and [unregister_worker] can no longer remove it,
    since it answers "Worker not found" before it looks at the file. *)
Theorem eviction_keeps_config_entry :
  forall env0 env1 env2 s id ip port job,
    reachable s ->
    store_ok env0 = true ->
    60 <= clock env1 - clock env0 ->
    let s1 := snd (register_worker env0 id ip port job s) in
    exists l s2,
      get_active_workers env1 s1 = (Return l, s2)
      /\ Dict.get id (claimed_workers (self s2)) = None
      /\ config_file s2 = config_file s1
      /\ In (worker_entry env0 id ip port) (workers_of (config_file s2))
      /\ unregister_worker env2 id s2
         = (Return (Failure "Worker not found"), s2).
Proof.
  intros env0 env1 env2 s id ip port job R Ok Late s1.
  pose proof (reachable_consistent s R) as K.
  destruct (register_worker_run env0 id ip port job s) as (t & E & HS & _).
  assert (s1 = t) as Hs1 by (unfold s1; now rewrite E).
  rewrite <- Hs1 in HS.
  assert (consistent (self s1)) as K1
    by (rewrite HS; now apply consistent_set_worker).
  destruct (get_active_workers_run env1 s1 (workers_distinct _ K1))
    as (s2 & Run & HS2 & C & _).
  rewrite (timeout_default _ K1) in Run, HS2.
  assert (Dict.get id (claimed_workers (self s2)) = None) as Gone.
  { rewrite HS2. simpl.
    apply (get_filter_dropped _ id (registration env0 id ip port job));
      [apply K1 | rewrite HS; simpl; apply DictFacts.get_set_same|].
    unfold live. simpl. apply Z.ltb_ge. lia. }
  do 2 eexists. split; [exact Run|]. split; [exact Gone|].
  split; [exact C|]. split.
  - rewrite C. unfold s1. rewrite register_worker_config, Ok.
    unfold workers_of at 1. simpl. rewrite mirrored_add_upsert.
    apply In_upsert.
  - pose proof (unregister_worker_run env2 id s2) as U.
    unfold Dict.mem in U. now rewrite Gone in U.
Qed.

Lemma eviction_keeps_config_entry_witness :
  let s1 := snd (register_worker (farm 10) "w9" "10.0.0.9" 8289 None
                   fresh_process) in
  exists l s2,
    get_active_workers (farm 70) s1 = (Return l, s2)
    /\ Dict.get "w9" (claimed_workers (self s2)) = None
    /\ config_file s2 = config_file s1
    /\ In (worker_entry (farm 10) "w9" "10.0.0.9" 8289)
          (workers_of (config_file s2))
    /\ unregister_worker (farm 80) "w9" s2
       = (Return (Failure "Worker not found"), s2).
Proof.
  apply (eviction_keeps_config_entry (farm 10) (farm 70) (farm 80)
           fresh_process "w9" "10.0.0.9" 8289 None).
  - apply reachable_boot.
  - reflexivity.
  - simpl. lia.
Defined.

(** ** The shared configuration beyond a failure *)

Lemma remove_worker_ok env worker_id s :
  store_ok env = true ->
  config_file (snd (_remove_worker_from_distributed_config env worker_id s))
  = mirrored_remove worker_id (config_file s).
Proof.
  unfold store_ok, _remove_worker_from_distributed_config, remove_worker_body,
    import_config, load_config, save_config, mirrored_remove.
  split_store env; simpl; try discriminate; intros _; run_m;
    destruct (workers (config_file s)) as [ws|]; simpl; try reflexivity;
    destruct (Nat.ltb _ _); reflexivity.
Qed.

Lemma unregister_worker_config env worker_id s :
  Dict.mem worker_id (claimed_workers (self s)) = true ->
  store_ok env = true ->
  config_file (snd (unregister_worker env worker_id s))
  = mirrored_remove worker_id (config_file s).
Proof.
  intros Known Ok. unfold unregister_worker. run_m. rewrite Known. simpl.
  match goal with
  | |- context [_remove_worker_from_distributed_config env ?a ?s1] =>
      pose proof (remove_worker_ok env a s1 Ok) as C;
      destruct (remove_worker_same env a s1) as (R & _);
      destruct (_remove_worker_from_distributed_config env a s1) as [[[]|e'] s2]
  end; simpl in *; try discriminate.
  exact C.
Qed.

Lemma del_set {V} (k : string) (v : V) (d : Dict.t V) :
  Dict.del k (Dict.set k v d) = Dict.del k d.
Proof.
  unfold Dict.del, Dict.is_key.
  induction d as [|[k0 v0] d IH]; simpl.
  - now rewrite String.eqb_refl.
  - destruct (String.eqb k k0) eqn:E; simpl; rewrite E; simpl;
      [reflexivity | now rewrite IH].
Qed.

Lemma del_absent {V} (k : string) (d : Dict.t V) :
  Dict.get k d = None -> Dict.del k d = d.
Proof.
  unfold Dict.del, Dict.is_key.
  induction d as [|[k0 v0] d IH]; simpl; [reflexivity|].
  destruct (String.eqb k k0); [discriminate|]. simpl. intros G.
  now rewrite IH.
Qed.

Lemma filter_out_upsert worker_id e ws :
  has_id worker_id e = true ->
  filter (fun w => negb (has_id worker_id w)) (upsert worker_id e ws)
  = filter (fun w => negb (has_id worker_id w)) ws.
Proof.
  intros He. induction ws as [|w ws IH]; simpl.
  - now rewrite He.
  - destruct (has_id worker_id w) eqn:Hw; simpl.
    + now rewrite He.
    + now rewrite Hw, IH.
Qed.

Lemma filter_shorter {A} (p : A -> bool) (l : list A) x :
  In x l -> p x = false -> (List.length (filter p l) < List.length l)%nat.
Proof.
  induction l as [|y l IH]; simpl; [tauto|].
  intros [->|I] P.
  - rewrite P. pose proof (filter_length_le p l). lia.
  - specialize (IH I P). destruct (p y); simpl; lia.
Qed.

Lemma length_upsert worker_id e ws :
  List.length (upsert worker_id e ws)
  = if existsb (has_id worker_id) ws then List.length ws
    else S (List.length ws).
Proof.
  induction ws as [|w ws IH]; simpl; [reflexivity|].
  destruct (has_id worker_id w); simpl; [reflexivity|].
  rewrite IH. now destruct (existsb (has_id worker_id) ws).
Qed.

(** X5. Registration followed by [unregister_worker], on a store that
    works, is a round trip: the answer is success, the registry is what it
    was without the worker (unchanged if the worker had no record), and the
    [workers] list is the list from before without any entry of that
    worker, the other entries being kept in their order. *)
Theorem register_unregister_round_trip :
  forall env1 env2 s id ip port job,
    store_ok env1 = true ->
    store_ok env2 = true ->
    let s1 := snd (register_worker env1 id ip port job s) in
    exists s2,
      unregister_worker env2 id s1
      = (Return (Success (Some ("Worker " ++ id ++ " unregistered")%string)), s2)
      /\ claimed_workers (self s2) = Dict.del id (claimed_workers (self s))
      /\ (Dict.get id (claimed_workers (self s)) = None ->
          claimed_workers (self s2) = claimed_workers (self s))
      /\ workers_of (config_file s2)
         = filter (fun w => negb (has_id id w)) (workers_of (config_file s)).
Proof.
  intros env1 env2 s id ip port job Ok1 Ok2 s1.
  destruct (register_worker_run env1 id ip port job s) as (t & E & HS & _).
  assert (s1 = t) as Hs1 by (unfold s1; now rewrite E).
  rewrite <- Hs1 in HS.
  assert (Dict.mem id (claimed_workers (self s1)) = true) as Known
    by (rewrite HS; simpl; apply DictFacts.mem_set_same).
  pose proof (unregister_worker_run env2 id s1) as U. rewrite Known in U.
  destruct U as (s2 & EU & HS2 & _).
  pose proof (unregister_worker_config env2 id s1 Known Ok2) as C.
  rewrite EU in C. simpl in C.
  exists s2. split; [exact EU|].
  assert (claimed_workers (self s2) = Dict.del id (claimed_workers (self s)))
    as D by (rewrite HS2, HS; simpl; apply del_set).
  split; [exact D|]. split; [intros G; rewrite D; now apply del_absent|].
  rewrite C. unfold s1. rewrite register_worker_config, Ok1.
  unfold mirrored_remove, workers_of. simpl. rewrite mirrored_add_upsert.
  rewrite (filter_out_upsert _ _ _ (has_id_entry env1 id ip port)).
  assert (Nat.ltb
            (List.length
               (filter (fun w => negb (has_id id w))
                  match workers (config_file s) with Some ws => ws | None => [] end))
            (List.length
               (upsert id (worker_entry env1 id ip port)
                  match workers (config_file s) with Some ws => ws | None => [] end))
          = true) as ->.
  { apply Nat.ltb_lt.
    rewrite <- (filter_out_upsert id (worker_entry env1 id ip port))
      by apply has_id_entry.
    apply (filter_shorter _ _ (worker_entry env1 id ip port));
      [apply In_upsert | now rewrite has_id_entry]. }
  reflexivity.
Qed.

Lemma register_unregister_round_trip_witness :
  let s1 := snd (register_worker (farm 50) "w4" "10.0.0.4" 8289 None
                   three_workers) in
  exists s2,
    unregister_worker (farm 55) "w4" s1
    = (Return (Success (Some "Worker w4 unregistered")), s2)
    /\ claimed_workers (self s2) = claimed_workers (self three_workers)
    /\ workers_of (config_file s2) = workers_of (config_file three_workers).
Proof.
  destruct (register_unregister_round_trip (farm 50) (farm 55) three_workers
              "w4" "10.0.0.4" 8289 None eq_refl eq_refl)
    as (s2 & E & _ & Same & C).
  exists s2. split; [exact E|]. split; [now apply Same|].
  rewrite C. reflexivity.
Defined.

(** X6. A registration that reaches the store leaves the entries of the
    other workers as they were, in their order, and holds the new entry; the
    list grows by one when the worker had no entry and keeps its length when
    it had one. *)
Theorem register_keeps_other_entries :
  forall env s id ip port job,
    store_ok env = true ->
    let before := workers_of (config_file s) in
    let after :=
      workers_of (config_file (snd (register_worker env id ip port job s))) in
    filter (fun w => negb (has_id id w)) after
    = filter (fun w => negb (has_id id w)) before
    /\ In (worker_entry env id ip port) after
    /\ List.length after
       = if existsb (has_id id) before then List.length before
         else S (List.length before).
Proof.
  intros env s id ip port job Ok before after.
  assert (after = upsert id (worker_entry env id ip port) before) as ->.
  { unfold after. rewrite register_worker_config, Ok.
    unfold workers_of at 1. simpl. apply mirrored_add_upsert. }
  split; [apply filter_out_upsert, has_id_entry|].
  split; [apply In_upsert | apply length_upsert].
Qed.

Lemma register_keeps_other_entries_witness :
  let after :=
    workers_of (config_file (snd (register_worker (farm 50) "w2" "10.0.0.22"
                                    8290 None three_workers))) in
  filter (fun w => negb (has_id "w2" w)) after
  = filter (fun w => negb (has_id "w2" w))
      (workers_of (config_file three_workers))
  /\ In (worker_entry (farm 50) "w2" "10.0.0.22" 8290) after
  /\ List.length after = 3%nat.
Proof.
  apply (register_keeps_other_entries (farm 50) three_workers "w2"
           "10.0.0.22" 8290 None).
  reflexivity.
Defined.

(** ** Submission, case by case *)

Lemma claim_workers_cases env count master_ws priority pool group s cmd :
  deadline_command (self s) = Some cmd ->
  nonempty cmd = true ->
  fs_error env = None ->
  let result :=
    subprocess_run env (List.length (spawned s)) (submit_job env cmd) in
  exists s',
    claim_workers env count master_ws priority pool group s
    = (Return (claim_reply count result), s')
    /\ spawned s' = spawned s ++ [submit_job env cmd]
    /\ disk s' = disk s ++ job_files env count master_ws priority pool group
    /\ claimed_workers (self s') = claimed_workers (self s)
    /\ config_file s' = config_file s
    /\ active_jobs (self s')
       = match claim_reply count result with
         | Claimed job_id _ =>
             Dict.set job_id (claimed_job env count master_ws)
               (active_jobs (self s))
         | _ => active_jobs (self s)
         end.
Proof.
  intros Cmd Ne Fs result. destruct cmd as [|c cmd]; [discriminate|].
  unfold result, submit_job, job_files, claim_reply, claimed_job.
  unfold claim_workers, _create_worker_job_files, with_open, run_process.
  unfold try_except, bind at 1, gets at 1. rewrite Cmd, Fs.
  run_m. unfold path_join.
  match goal with
  | |- context [subprocess_run env ?n ?argv] =>
      destruct (subprocess_run env n argv) as [rc out err|e]
  end; simpl;
    [| eexists; repeat split; simpl; rewrite <- ?app_assoc; reflexivity].
  destruct (nonempty err); simpl;
    (destruct (rc =? 0); simpl;
     [| eexists; repeat split; simpl; rewrite <- ?app_assoc; reflexivity];
     match goal with
     | |- context [_extract_job_id out ?s1] =>
         destruct (extract_job_id_run out s1) as (s2 & E & HS & C & P & D);
         rewrite E
     end;
     simpl in HS, C, P, D;
     destruct (nonempty (job_id_of out)); simpl;
     eexists; (split; [reflexivity|]); simpl;
     rewrite HS, C, P, D; simpl; rewrite <- ?app_assoc; repeat split).
Qed.

(** X7. A submission that exits with code 0 and prints a job identifier is
    answered with that identifier, and the job is recorded under it with the
    type "distributed", the requested count, the coordinator address and the
    clock reading; a job already recorded under the identifier is
    overwritten in place.  The registry of workers is not touched. *)
Theorem claim_records_job :
  forall env s count master_ws priority pool group cmd out err,
    deadline_command (self s) = Some cmd ->
    nonempty cmd = true ->
    fs_error env = None ->
    subprocess_run env (List.length (spawned s)) (submit_job env cmd)
    = Completed 0 out err ->
    nonempty (job_id_of out) = true ->
    exists message s',
      claim_workers env count master_ws priority pool group s
      = (Return (Claimed (job_id_of out) message), s')
      /\ active_jobs (self s')
         = Dict.set (job_id_of out) (claimed_job env count master_ws)
             (active_jobs (self s))
      /\ Dict.get (job_id_of out) (active_jobs (self s'))
         = Some (claimed_job env count master_ws)
      /\ (Dict.mem (job_id_of out) (active_jobs (self s)) = true ->
          Dict.keys (active_jobs (self s')) = Dict.keys (active_jobs (self s)))
      /\ claimed_workers (self s') = claimed_workers (self s).
Proof.
  intros env s count master_ws priority pool group cmd out err
    Cmd Ne Fs Exit Id.
  destruct (claim_workers_cases env count master_ws priority pool group s cmd
              Cmd Ne Fs) as (s' & E & _ & _ & W & _ & J).
  rewrite Exit in E, J. unfold claim_reply in E, J. simpl in E, J.
  rewrite Id in E, J.
  do 2 eexists. split; [exact E|]. rewrite J.
  split; [reflexivity|]. split; [apply DictFacts.get_set_same|].
  split; [apply keys_set_present | exact W].
Qed.

Lemma claim_records_job_witness :
  exists message s',
    claim_workers (farm 5) 2 "master:8188" 50 "none" "none" three_workers
    = (Return (Claimed "abc123" message), s')
    /\ Dict.get "abc123" (active_jobs (self s'))
       = Some (claimed_job (farm 5) 2 "master:8188")
    /\ Dict.keys (active_jobs (self s')) = ["abc123"%string].
Proof.
  destruct (claim_records_job (farm 5) three_workers 2 "master:8188" 50
              "none" "none" "deadlinecommand" "JobID=abc123" "")
    as (message & s' & E & _ & G & K & _); try reflexivity.
  exists message, s'. split; [exact E|]. split; [exact G|].
  rewrite K; reflexivity.
Defined.

(** X8. A submission that exits with a code other than 0 is answered with
    the error "Deadline submission failed with code <code>: <stderr>"; the
    three job files have been written and the command has been launched
    once, and nothing is recorded, whatever the output says. *)
Theorem claim_rejected_submission :
  forall env s count master_ws priority pool group cmd rc out err,
    deadline_command (self s) = Some cmd ->
    nonempty cmd = true ->
    fs_error env = None ->
    subprocess_run env (List.length (spawned s)) (submit_job env cmd)
    = Completed rc out err ->
    rc <> 0 ->
    exists s',
      claim_workers env count master_ws priority pool group s
      = (Return (Failure ("Deadline submission failed with code "
                          ++ Py.str rc ++ ": " ++ err)%string), s')
      /\ active_jobs (self s') = active_jobs (self s)
      /\ spawned s' = spawned s ++ [submit_job env cmd]
      /\ disk s' = disk s ++ job_files env count master_ws priority pool group.
Proof.
  intros env s count master_ws priority pool group cmd rc out err
    Cmd Ne Fs Exit Bad.
  destruct (claim_workers_cases env count master_ws priority pool group s cmd
              Cmd Ne Fs) as (s' & E & P & D & _ & _ & J).
  rewrite Exit in E, J. unfold claim_reply in E, J.
  apply Z.eqb_neq in Bad. rewrite Bad in E, J.
  exists s'. repeat split; assumption.
Qed.

Lemma claim_rejected_submission_witness :
  exists s',
    claim_workers refusing_farm 3 "localhost:8188" 50 "none" "none"
      fresh_process
    = (Return (Failure "Deadline submission failed with code 1: Error: no pool"),
       s')
    /\ active_jobs (self s') = [].
Proof.
  destruct (claim_rejected_submission refusing_farm fresh_process 3
              "localhost:8188" 50 "none" "none" "deadlinecommand" 1
              "JobID=abc123" "Error: no pool")
    as (s' & E & J & _); try reflexivity; [discriminate|].
  exists s'. split; [exact E | exact J].
Defined.

(** X9. A claim hands one command line to [subprocess.run], and the three
    files it names are the files the claim has just written, the plugin-info
    file pointing at the workflow file.  When the file system fails, at
    [tempfile.mkdtemp], at an [open] or inside a [with] block, the answer is
    the text of the exception; nothing is handed to [subprocess.run] and no
    job is recorded, and the files written before the failure stay behind,
    the one whose block raised incomplete. *)
Theorem claim_submits_written_files :
  forall env s count master_ws priority pool group cmd,
    deadline_command (self s) = Some cmd ->
    nonempty cmd = true ->
    match fs_error env with
    | None =>
        exists r s' job_info_file plugin_info_file workflow_file,
          claim_workers env count master_ws priority pool group s
          = (Return r, s')
          /\ spawned s'
             = spawned s ++ [[cmd; "-SubmitJob"; job_info_file;
                              plugin_info_file; workflow_file]]
          /\ In (job_info_file,
                 Text (job_info ("[DIST] ComfyUI Workers x" ++ Py.str count)
                         count master_ws priority pool group)) (disk s')
          /\ In (plugin_info_file, Text (plugin_info workflow_file)) (disk s')
          /\ In (workflow_file, RegistrationWorkflow) (disk s')
          /\ In (line ("WorkflowFile=" ++ workflow_file))
                (plugin_info workflow_file)
    | Some (step, e) =>
        exists s',
          claim_workers env count master_ws priority pool group s
          = (Return (Failure e), s')
          /\ spawned s' = spawned s
          /\ self s' = self s
          /\ config_file s' = config_file s
          /\ disk s'
             = disk s
               ++ left_behind env count master_ws priority pool group step
    end.
Proof.
  intros env s count master_ws priority pool group cmd Cmd Ne.
  destruct (fs_error env) as [[step e]|] eqn:Fs.
  - destruct cmd as [|c cmd]; [discriminate|].
    unfold claim_workers, _create_worker_job_files, with_open.
    unfold try_except, bind at 1, gets at 1. rewrite Cmd, Fs.
    unfold left_behind, job_files.
    destruct s as [o cf co sp di].
    destruct step as [|[]|[]]; run_m; eexists;
      repeat split; rewrite <- ?app_assoc, ?app_nil_r; reflexivity.
  - destruct (claim_workers_cases env count master_ws priority pool group s
                cmd Cmd Ne Fs) as (s' & E & P & D & _).
    do 5 eexists. split; [exact E|]. split; [exact P|].
    rewrite D. unfold job_files.
    split; [apply in_or_app; right; simpl; tauto|].
    split; [apply in_or_app; right; simpl; tauto|].
    split; [apply in_or_app; right; simpl; tauto|].
    unfold plugin_info. find_line.
Qed.

Lemma claim_submits_written_files_witness :
  (exists r s' job_info_file plugin_info_file workflow_file,
     claim_workers (farm 5) 2 "master:8188" 50 "none" "none" fresh_process
     = (Return r, s')
     /\ spawned s'
        = spawned fresh_process
          ++ [["deadlinecommand"%string; "-SubmitJob"%string; job_info_file;
               plugin_info_file; workflow_file]]
     /\ In (job_info_file,
            Text (job_info ("[DIST] ComfyUI Workers x" ++ Py.str 2) 2
                    "master:8188" 50 "none" "none")) (disk s')
     /\ In (plugin_info_file, Text (plugin_info workflow_file)) (disk s')
     /\ In (workflow_file, RegistrationWorkflow) (disk s')
     /\ In (line ("WorkflowFile=" ++ workflow_file))
           (plugin_info workflow_file))
  /\ (exists s',
        claim_workers full_disk 2 "master:8188" 50 "none" "none" fresh_process
        = (Return (Failure "No space left on device"), s')
        /\ spawned s' = []
        /\ active_jobs (self s') = []
        /\ map snd (disk s')
           = [ Text (job_info ("[DIST] ComfyUI Workers x" ++ Py.str 2) 2
                       "master:8188" 50 "none" "none");
               Incomplete ]).
Proof.
  split.
  - exact (claim_submits_written_files (farm 5) fresh_process 2
             "master:8188" 50 "none" "none" "deadlinecommand" eq_refl eq_refl).
  - destruct (claim_submits_written_files full_disk fresh_process 2
                "master:8188" 50 "none" "none" "deadlinecommand"
                eq_refl eq_refl) as (s' & E & P & HS & _ & D).
    exists s'. split; [exact E|]. split; [exact P|].
    split; [now rewrite HS|]. rewrite D. reflexivity.
Defined.

(** ** A process without a scheduler command *)

Lemma unconfigured_step env r s :
  configured s = false ->
  let s' := snd (handle env r s) in
  configured s' = false
  /\ active_jobs (self s') = active_jobs (self s)
  /\ spawned s' = spawned s
  /\ disk s' = disk s.
Proof.
  intros U. unfold configured in *.
  destruct r as [| count ws pr pool grp | ids | i ip port job | i | i];
    cbn [handle]; cbv zeta.
  - unfold get_worker_status, bind, gets.
    destruct (deadline_command (self s)) as [[|c cmd]|] eqn:Cmd;
      try discriminate; simpl; rewrite Cmd; auto.
  - unfold claim_workers, bind, gets.
    destruct (deadline_command (self s)) as [[|c cmd]|] eqn:Cmd;
      try discriminate; simpl; rewrite Cmd; auto.
  - unfold release_workers, bind, gets.
    destruct (deadline_command (self s)) as [[|c cmd]|] eqn:Cmd;
      try discriminate; simpl; rewrite Cmd; auto.
  - destruct (register_worker_run env i ip port job s) as (s' & E & HS & P & D).
    rewrite E. simpl. rewrite HS. simpl. auto.
  - pose proof (worker_heartbeat_run env i s) as R.
    destruct (Dict.get i (claimed_workers (self s))).
    + destruct R as (s' & E & HS & _ & P & D). rewrite E. simpl.
      rewrite HS. simpl. auto.
    + rewrite R. simpl. auto.
  - pose proof (unregister_worker_run env i s) as R.
    destruct (Dict.mem i (claimed_workers (self s))).
    + destruct R as (s' & E & HS & P & D). rewrite E. simpl.
      rewrite HS. simpl. auto.
    + rewrite R. simpl. auto.
Qed.

Lemma unconfigured_run trace : forall s0,
  configured s0 = false /\ active_jobs (self s0) = []
  /\ spawned s0 = [] /\ disk s0 = [] ->
  configured (run trace s0) = false
  /\ active_jobs (self (run trace s0)) = []
  /\ spawned (run trace s0) = [] /\ disk (run trace s0) = [].
Proof.
  induction trace as [|[e r] trace IH]; intros s0 H; [exact H|].
  cbn [run]. apply IH. destruct H as (U & J & P & D).
  destruct (unconfigured_step e r s0 U) as (U' & J' & P' & D').
  rewrite J', P', D'. auto.
Qed.

(** X10. A process that found no scheduler command never launches a command,
    writes a job file or records a job, whatever requests it receives;
    claims and releases are answered "Deadline not available" and the status
    is answered as unavailable, without sweeping the registry. *)
Theorem no_command_no_effect :
  forall c trace env,
    let s := run trace (boot None c) in
    active_jobs (self s) = []
    /\ spawned s = []
    /\ disk s = []
    /\ get_worker_status env s
       = (Return (StatusDown "Deadline not available"), s)
    /\ (forall count master_ws priority pool group,
          claim_workers env count master_ws priority pool group s
          = (Return (Failure "Deadline not available"), s))
    /\ (forall job_ids,
          release_workers env job_ids s
          = (Return (Failure "Deadline not available"), s)).
Proof.
  intros c trace env s.
  assert (configured s = false /\ active_jobs (self s) = []
          /\ spawned s = [] /\ disk s = []) as (U & J & P & D)
    by (apply unconfigured_run; repeat split).
  assert (deadline_command (self s) = None
          \/ deadline_command (self s) = Some EmptyString) as Cmd.
  { unfold configured in U.
    destruct (deadline_command (self s)) as [[|a cmd]|]; auto; discriminate. }
  split; [exact J|]. split; [exact P|]. split; [exact D|].
  unfold get_worker_status, claim_workers, release_workers, bind, gets.
  destruct Cmd as [-> | ->]; repeat split.
Qed.

(** ** Release of named jobs *)

Lemma tried_incl env cmd jobs : forall n, incl (tried env cmd n jobs) jobs.
Proof.
  induction jobs as [|jid jobs IH]; intros n x; simpl; [tauto|].
  intros [<-|I]; [now left|]. right.
  destruct (subprocess_run env n (delete_job cmd jid)); [|destruct I].
  now apply (IH (S n)).
Qed.

Lemma confirmed_incl env cmd jobs : forall n, incl (confirmed env cmd n jobs) jobs.
Proof.
  induction jobs as [|jid jobs IH]; intros n x; simpl; [tauto|].
  destruct (subprocess_run env n (delete_job cmd jid)) as [rc ? ?|];
    [|intros []].
  destruct (rc =? 0).
  - intros [<-|I]; [now left | right; now apply (IH (S n))].
  - intros I. right. now apply (IH (S n)).
Qed.

Lemma get_fold_del_other {V} (ks : list string) k (d : Dict.t V) :
  ~ In k ks ->
  Dict.get k (fold_left (fun acc j => Dict.del j acc) ks d) = Dict.get k d.
Proof.
  intros N. rewrite DictFacts.fold_del.
  rewrite (DictFacts.get_filter_keys
             (fun x => negb (existsb (fun j => String.eqb j x) ks))).
  destruct (existsb (fun j => String.eqb j k) ks) eqn:E; [|reflexivity].
  apply existsb_exists in E as (j & I & E). apply String.eqb_eq in E.
  subst j. contradiction.
Qed.

(** X11. With a list of job identifiers, [release_workers] touches the named
    jobs only: every command it launches deletes a job that is named in the
    list and active, every job it leaves was there before, and a job that is
    not named keeps its entry, whatever the scheduler answers. *)
Theorem release_only_named_jobs :
  forall env s ids cmd,
    ids <> [] ->
    deadline_command (self s) = Some cmd ->
    nonempty cmd = true ->
    exists r s' launched,
      release_workers env (Some ids) s = (Return r, s')
      /\ spawned s' = spawned s ++ launched
      /\ (forall argv, In argv launched ->
            exists jid,
              In jid ids
              /\ Dict.mem jid (active_jobs (self s)) = true
              /\ argv = delete_job cmd jid)
      /\ incl (active_jobs (self s')) (active_jobs (self s))
      /\ (forall k, ~ In k ids ->
            Dict.get k (active_jobs (self s'))
            = Dict.get k (active_jobs (self s))).
Proof.
  intros env s ids cmd Ne Cmd Nc.
  pose proof (release_workers_run env (Some ids) s) as R.
  rewrite Cmd in R. destruct cmd as [|c cmd]; [discriminate|].
  cbv zeta in R. destruct R as (s' & E & HS & P & _).
  assert (jobs_to_release (Some ids) (active_jobs (self s))
          = filter (fun jid => Dict.mem jid (active_jobs (self s))) ids) as Todo
    by (destruct ids; [congruence | reflexivity]).
  rewrite Todo in *.
  do 3 eexists. split; [exact E|]. split; [exact P|]. split; [|split].
  - intros argv I. apply in_map_iff in I as (jid & <- & I).
    apply tried_incl, filter_In in I as [I M]. eauto.
  - rewrite HS. simpl. intros kv I. now apply In_fold_del in I.
  - intros k N. rewrite HS. simpl. apply get_fold_del_other.
    intros I. apply confirmed_incl, filter_In in I as [I _]. contradiction.
Qed.

Lemma release_only_named_jobs_witness :
  exists r s' launched,
    release_workers picky_farm (Some ["b"; "zz"; "c"]) mixed_jobs
    = (Return r, s')
    /\ spawned s' = spawned mixed_jobs ++ launched
    /\ (forall argv, In argv launched ->
          exists jid,
            In jid ["b"; "zz"; "c"]
            /\ Dict.mem jid (active_jobs (self mixed_jobs)) = true
            /\ argv = delete_job "deadlinecommand" jid)
    /\ incl (active_jobs (self s')) (active_jobs (self mixed_jobs))
    /\ (forall k, ~ In k ["b"; "zz"; "c"] ->
          Dict.get k (active_jobs (self s'))
          = Dict.get k (active_jobs (self mixed_jobs))).
Proof.
  apply (release_only_named_jobs picky_farm mixed_jobs ["b"; "zz"; "c"]
           "deadlinecommand").
  - discriminate.
  - reflexivity.
  - reflexivity.
Defined.

(** X12. Releasing one named job that is active launches its deletion,
    whatever the type of the job: when the deletion exits with code 0 the
    job is removed and the count is 1, otherwise the job stays and the count
    is 0; the other jobs keep their entries. *)
Theorem release_named_job :
  forall env s jid cmd rc out err,
    deadline_command (self s) = Some cmd ->
    nonempty cmd = true ->
    Dict.mem jid (active_jobs (self s)) = true ->
    subprocess_run env (List.length (spawned s)) (delete_job cmd jid)
    = Completed rc out err ->
    exists message s',
      release_workers env (Some [jid]) s
      = (Return (Released (if rc =? 0 then 1 else 0) message), s')
      /\ spawned s' = spawned s ++ [delete_job cmd jid]
      /\ active_jobs (self s')
         = (if rc =? 0 then Dict.del jid (active_jobs (self s))
            else active_jobs (self s))
      /\ Dict.get jid (active_jobs (self s'))
         = (if rc =? 0 then None else Dict.get jid (active_jobs (self s)))
      /\ (forall k, k <> jid ->
            Dict.get k (active_jobs (self s'))
            = Dict.get k (active_jobs (self s))).
Proof.
  intros env s jid cmd rc out err Cmd Nc Known Exit.
  pose proof (release_workers_run env (Some [jid]) s) as R.
  rewrite Cmd in R. destruct cmd as [|c cmd]; [discriminate|].
  cbv zeta in R. unfold jobs_to_release in R. cbn [filter] in R.
  rewrite Known in R. cbn [crash confirmed tried] in R. rewrite Exit in R.
  destruct R as (s' & E & HS & P & _).
  destruct (rc =? 0); simpl in *;
    do 2 eexists; (split; [exact E|]); (split; [exact P|]); rewrite HS; simpl;
    repeat split; auto using DictFacts.get_del_same, DictFacts.get_del_other.
Qed.

Lemma release_named_job_witness :
  exists message s',
    release_workers picky_farm (Some ["b"]) mixed_jobs
    = (Return (Released 1 message), s')
    /\ Dict.keys (active_jobs (self s')) = ["a"; "c"]
    /\ Dict.get "b" (active_jobs (self s')) = None.
Proof.
  destruct (release_named_job picky_farm mixed_jobs "b" "deadlinecommand"
              0 "" "")
    as (message & s' & E & _ & J & G & _); try reflexivity.
  exists message, s'. split; [exact E|]. split; [now rewrite J | exact G].
Defined.

(** ** A release that is interrupted *)

(** When the deletions of [done] run to completion and the next one raises,
    the loop stops there. *)
Lemma completed_then_crashed env cmd (rc : string -> Z) b later e done :
  forall n,
    (forall i jid, nth_error done i = Some jid ->
       exists out err,
         subprocess_run env (n + i) (delete_job cmd jid)
         = Completed (rc jid) out err) ->
    subprocess_run env (n + List.length done) (delete_job cmd b) = Crashed e ->
    crash env cmd n (done ++ b :: later) = Some e
    /\ tried env cmd n (done ++ b :: later) = done ++ [b]
    /\ confirmed env cmd n (done ++ b :: later)
       = filter (fun jid => rc jid =? 0) done.
Proof.
  induction done as [|jid done IH]; intros n H B; simpl.
  - simpl in B. rewrite Nat.add_0_r in B. rewrite B. auto.
  - destruct (H O jid eq_refl) as (out & err & E).
    rewrite Nat.add_0_r in E. rewrite E.
    destruct (IH (S n)) as (A1 & A2 & A3).
    + intros i j N. destruct (H (S i) j N) as (o & e' & E').
      rewrite Nat.add_succ_r in E'. eauto.
    + simpl in B. rewrite Nat.add_succ_r in B. exact B.
    + rewrite A1, A2, A3. destruct (rc jid =? 0); auto.
Qed.

Lemma get_fold_del_in {V} (ks : list string) k (d : Dict.t V) :
  In k ks ->
  Dict.get k (fold_left (fun acc j => Dict.del j acc) ks d) = None.
Proof.
  intros I. rewrite DictFacts.fold_del.
  rewrite (DictFacts.get_filter_keys
             (fun x => negb (existsb (fun j => String.eqb j x) ks))).
  assert (existsb (fun j => String.eqb j k) ks = true) as ->; [|reflexivity].
  apply existsb_exists. exists k. split; [exact I | apply String.eqb_refl].
Qed.

(** X13. A release that is interrupted is not undone.  When the deletions of
    the first jobs run to completion and the next deletion raises, the
    answer is the failure with the text of the exception and carries no
    count, although the jobs whose deletion had exited with code 0 are gone
    from [active_jobs]; the jobs after the one that raised are never sent to
    the scheduler and stay. *)
Theorem release_interrupted :
  forall env s job_ids cmd (rc : string -> Z) done b later e,
    deadline_command (self s) = Some cmd ->
    nonempty cmd = true ->
    jobs_to_release job_ids (active_jobs (self s)) = done ++ b :: later ->
    (forall i jid, nth_error done i = Some jid ->
       exists out err,
         subprocess_run env (List.length (spawned s) + i) (delete_job cmd jid)
         = Completed (rc jid) out err) ->
    subprocess_run env (List.length (spawned s) + List.length done)
      (delete_job cmd b) = Crashed e ->
    exists s',
      release_workers env job_ids s = (Return (Failure e), s')
      /\ spawned s' = spawned s ++ map (delete_job cmd) (done ++ [b])
      /\ (forall k, In k done -> rc k = 0 ->
            Dict.get k (active_jobs (self s')) = None)
      /\ (forall k, ~ (In k done /\ rc k = 0) ->
            Dict.get k (active_jobs (self s'))
            = Dict.get k (active_jobs (self s))).
Proof.
  intros env s job_ids cmd rc done b later e Cmd Nc Todo H B.
  pose proof (release_workers_run env job_ids s) as R.
  rewrite Cmd in R. destruct cmd as [|c cmd]; [discriminate|].
  cbv zeta in R. rewrite Todo in R.
  destruct (completed_then_crashed env (String c cmd) rc b later e done
              (List.length (spawned s)) H B) as (A1 & A2 & A3).
  rewrite A1, A2, A3 in R. destruct R as (s' & E & HS & P & _).
  exists s'. split; [exact E|]. split; [exact P|]. rewrite HS. simpl. split.
  - intros k I Z0. apply get_fold_del_in. apply filter_In.
    split; [exact I | now apply Z.eqb_eq].
  - intros k N. apply get_fold_del_other. intros I.
    apply filter_In in I as [I Z0]. apply Z.eqb_eq in Z0. tauto.
Qed.

Lemma release_interrupted_witness :
  exists s',
    release_workers flaky_farm None mixed_jobs
    = (Return (Failure "Command timed out after 10 seconds"), s')
    /\ spawned s' = [delete_job "deadlinecommand" "a";
                     delete_job "deadlinecommand" "c"]
    /\ Dict.get "a" (active_jobs (self s')) = None
    /\ Dict.get "c" (active_jobs (self s')) = Some (job_of_type "distributed").
Proof.
  destruct (release_interrupted flaky_farm mixed_jobs None "deadlinecommand"
              (fun _ => 0) ["a"] "c" []
              "Command timed out after 10 seconds")
    as (s' & E & P & Gone & Kept); try reflexivity.
  - intros [|[|i]] jid; simpl; intros [= <-] || discriminate.
    now exists "", "".
  - exists s'. split; [exact E|]. split; [exact P|].
    split; [apply Gone; simpl; auto|].
    rewrite Kept; [reflexivity|]. simpl. intros [[?|[]] _]. discriminate.
Defined.

(** ** What every run keeps *)

(** A claim records a job only under a non-empty identifier. *)
Lemma claim_workers_named env count master_ws priority pool group s :
  exists r s',
    claim_workers env count master_ws priority pool group s = (Return r, s')
    /\ (self s' = self s
        \/ exists job_id,
             nonempty job_id = true
             /\ self s'
                = set_active_jobs
                    (Dict.set job_id (claimed_job env count master_ws)
                       (active_jobs (self s)))
                    (self s)).
Proof.
  unfold claim_workers, _create_worker_job_files, with_open, run_process,
    claimed_job.
  unfold try_except, bind at 1, gets at 1.
  destruct (deadline_command (self s)) as [[|c cmd]|];
    try (do 2 eexists; split; [reflexivity | left; reflexivity]).
  destruct (fs_error env) as [[[|[]|[]] e]|];
    [run_m; do 2 eexists; split; [reflexivity | left; reflexivity] ..|].
  run_m.
  match goal with
  | |- context [subprocess_run env ?n ?argv] =>
      destruct (subprocess_run env n argv) as [rc out err|e]
  end; simpl;
    [| do 2 eexists; split; [reflexivity | left; reflexivity]].
  destruct (nonempty err); simpl;
    (destruct (rc =? 0); simpl;
     [| do 2 eexists; split; [reflexivity | left; reflexivity]];
     match goal with
     | |- context [_extract_job_id out ?s1] =>
         destruct (extract_job_id_run out s1) as (s2 & E & HS & _); rewrite E
     end;
     destruct (nonempty (job_id_of out)) eqn:N; simpl;
     do 2 eexists; (split; [reflexivity|]); simpl;
     [right; eexists; split; [exact N|]; rewrite HS; reflexivity
     | left; rewrite HS; reflexivity]).
Qed.

Lemma jobs_named_step env r s :
  Dict.ok (claimed_workers (self s)) ->
  jobs_named (self s) -> jobs_named (self (snd (handle env r s))).
Proof.
  intros OK K.
  destruct r as [| count ws pr pool grp | ids | id ip port job | id | id];
    simpl.
  - pose proof (get_worker_status_run env s OK) as R. cbv zeta in R.
    destruct (deadline_command (self s)) as [[|c cmd]|];
      try (rewrite R; exact K).
    destruct R as (s' & E & HS & _). rewrite E. simpl. rewrite HS. exact K.
  - destruct (claim_workers_named env count ws pr pool grp s)
      as (rep & s' & E & [HS | (jid & N & HS)]); rewrite E; simpl; rewrite HS;
      [exact K|].
    intros k j I. simpl in I. apply In_set in I as [[-> _]|I]; eauto.
  - pose proof (release_workers_run env ids s) as R.
    destruct (deadline_command (self s)) as [[|c cmd]|];
      try (rewrite R; exact K).
    destruct R as (s' & E & HS & _). rewrite E. simpl. rewrite HS.
    intros k j I. simpl in I. apply In_fold_del in I. eauto.
  - destruct (register_worker_run env id ip port job s) as (s' & E & HS & _).
    rewrite E. simpl. rewrite HS. exact K.
  - pose proof (worker_heartbeat_run env id s) as R.
    destruct (Dict.get id (claimed_workers (self s))).
    + destruct R as (s' & E & HS & _). rewrite E. simpl. rewrite HS. exact K.
    + rewrite R. exact K.
  - pose proof (unregister_worker_run env id s) as R.
    destruct (Dict.mem id (claimed_workers (self s))).
    + destruct R as (s' & E & HS & _). rewrite E. simpl. rewrite HS. exact K.
    + rewrite R. exact K.
Qed.

Lemma run_keeps trace : forall s,
  consistent (self s) -> jobs_named (self s) ->
  consistent (self (run trace s))
  /\ jobs_named (self (run trace s))
  /\ deadline_command (self (run trace s)) = deadline_command (self s).
Proof.
  induction trace as [|[env r] trace IH]; intros s K N; simpl; [auto|].
  destruct (handle_step env r s K) as (rep & s' & E & K' & Cmd).
  pose proof (jobs_named_step env r s (workers_distinct _ K) N) as N'. rewrite E in *. simpl in *.
  destruct (IH s' K' N') as (A & B & C). rewrite C, Cmd. auto.
Qed.

(** X14. What every run keeps.  After any sequence of requests the command
    found at start-up and the time-out of 60 seconds are unchanged, the keys
    of [active_jobs] are distinct and non-empty, every recorded job has the
    type "distributed", and every worker record is stored under its own
    identifier; so a release without identifiers selects every active
    job. *)
Theorem run_invariants :
  forall command c trace,
    let o := self (run trace (boot command c)) in
    deadline_command o = command
    /\ worker_heartbeat_timeout o = 60
    /\ NoDup (Dict.keys (active_jobs o))
    /\ NoDup (Dict.keys (claimed_workers o))
    /\ (forall k j, In (k, j) (active_jobs o) ->
          j_type j = "distributed"%string /\ nonempty k = true)
    /\ (forall k w, In (k, w) (claimed_workers o) -> w_id w = k)
    /\ jobs_to_release None (active_jobs o) = Dict.keys (active_jobs o).
Proof.
  intros command c trace o.
  destruct (run_keeps trace (boot command c)) as ([A B C D E] & N & Cmd).
  { apply consistent_new. }
  { intros k j []. }
  fold o in A, B, C, D, E, N, Cmd.
  repeat split; auto.
  - eapply D; eauto.
  - eapply N; eauto.
  - unfold jobs_to_release, Dict.keys. f_equal.
    apply forallb_filter_id. apply forallb_forall. intros [k j] I.
    unfold is_distributed. simpl. rewrite (D k j I). reflexivity.
Qed.

(** X15. No failure escapes a method.  In every state the process can reach,
    each of the six requests is answered with a reply: an error of the
    configuration store, of the file system or of the scheduler command is
    turned into the reply or swallowed, never raised to the caller. *)
Theorem requests_never_raise :
  forall command c trace env r,
    exists rep s',
      handle env r (run trace (boot command c)) = (Return rep, s').
Proof.
  intros command c trace env r.
  destruct (run_keeps trace (boot command c)) as (K & _).
  { apply consistent_new. }
  { intros k j []. }
  destruct (handle_step env r _ K) as (rep & s' & E & _). eauto.
Qed.

(** ** The job identifier in the output of the scheduler *)

Lemma split_word w : forall tok,
  no_space w = true -> Py.split_from tok w = Py.flush (tok ++ w).
Proof.
  unfold no_space.
  induction w as [|c w IH]; intros tok H; simpl in *.
  - now rewrite append_empty_r.
  - apply andb_true_iff in H as [C H]. apply negb_true_iff in C. rewrite C.
    rewrite IH by exact H. now rewrite append_assoc.
Qed.

Lemma split_word_then w c rest : forall tok,
  no_space w = true -> Py.isspace c = true ->
  Py.split_from tok (w ++ String c rest)
  = Py.flush (tok ++ w) ++ Py.split rest.
Proof.
  unfold no_space, Py.split.
  induction w as [|d w IH]; intros tok H C; simpl in *.
  - now rewrite C, append_empty_r.
  - apply andb_true_iff in H as [D H]. apply negb_true_iff in D. rewrite D.
    rewrite IH by assumption. now rewrite append_assoc.
Qed.

Lemma split_app_end a : forall tok b,
  a <> EmptyString -> ends_in_space a = true ->
  Py.split_from tok (a ++ b) = Py.split_from tok a ++ Py.split b.
Proof.
  unfold Py.split.
  induction a as [|c a IH]; intros tok b N E; [congruence|].
  destruct a as [|d a].
  - simpl in *. rewrite E. now rewrite app_nil_r.
  - change (ends_in_space (String c (String d a)))
      with (ends_in_space (String d a)) in E.
    change (String c (String d a) ++ b)%string
      with (String c (String d a ++ b)).
    cbn [Py.split_from].
    destruct (Py.isspace c).
    + rewrite IH by (congruence || assumption). now rewrite app_assoc.
    + now rewrite IH by (congruence || assumption).
Qed.

Lemma first_job_token_app l1 l2 :
  (forall token, In token l1 -> Py.startswith "JobID=" token = false) ->
  first_job_token (l1 ++ l2) = first_job_token l2.
Proof.
  induction l1 as [|t l1 IH]; intros H; [reflexivity|].
  simpl. rewrite (H t (or_introl eq_refl)). apply IH.
  intros token I. apply H. now right.
Qed.

Lemma job_token_found id rest :
  first_job_token (("JobID=" ++ id)%string :: rest) = Some id.
Proof.
  cbn [first_job_token]. unfold Py.startswith.
  assert (String.prefix "JobID=" ("JobID=" ++ id) = true) as ->
    by (simpl; now destruct id).
  reflexivity.
Qed.

(** X16. The first token of the output that starts with [JobID=] gives the
    identifier, whatever stands around it: when the output is a text without
    such a token, then [JobID=] followed by characters that are not white
    space, then the end or a white-space character, [_extract_job_id]
    returns exactly these characters.  They need not be hexadecimal digits,
    they may be none at all, and a labelled identifier earlier in the output
    is not looked for. *)
Theorem job_token_wins :
  forall pre id post s,
    ends_in_space pre = true ->
    (forall token, In token (Py.split pre) ->
       Py.startswith "JobID=" token = false) ->
    no_space id = true ->
    starts_with_space post = true ->
    exists s',
      _extract_job_id (pre ++ "JobID=" ++ id ++ post) s = (Return id, s')
      /\ self s' = self s.
Proof.
  intros pre id post s E H W P.
  destruct (extract_job_id_run (pre ++ "JobID=" ++ id ++ post) s)
    as (s' & R & HS & _).
  exists s'. split; [|exact HS]. rewrite R. do 2 f_equal.
  unfold job_id_of.
  assert (exists rest,
            Py.split ("JobID=" ++ id ++ post) = ("JobID=" ++ id)%string :: rest)
    as (rest & X).
  { assert (no_space ("JobID=" ++ id) = true) as W' by exact W.
    rewrite <- append_assoc. unfold Py.split.
    destruct post as [|c post].
    - rewrite append_empty_r, split_word by exact W'. simpl. eauto.
    - rewrite split_word_then by assumption. simpl. eauto. }
  assert (first_job_token (Py.split (pre ++ "JobID=" ++ id ++ post)) = Some id)
    as ->; [|reflexivity].
  destruct pre as [|c pre].
  - change (("" ++ "JobID=" ++ id ++ post)%string)
      with ("JobID=" ++ id ++ post)%string.
    rewrite X. apply job_token_found.
  - unfold Py.split at 1. rewrite split_app_end by (congruence || assumption).
    rewrite first_job_token_app by exact H. rewrite X. apply job_token_found.
Qed.

Lemma job_token_wins_witness :
  exists s',
    _extract_job_id
      ("Job ID: 0123456789abcdef01234567 " ++ "JobID=" ++ "abc123"
       ++ " submitted") fresh_process
    = (Return "abc123", s')
    /\ self s' = self fresh_process.
Proof.
  apply (job_token_wins "Job ID: 0123456789abcdef01234567 " "abc123"
           " submitted" fresh_process).
  - reflexivity.
  - intros token I. vm_compute in I.
    repeat (destruct I as [<-|I]; [reflexivity|]). destruct I.
  - reflexivity.
  - reflexivity.
Defined.

(** ** The worker side *)

Lemma append_inj_l (a x y : string) : (a ++ x = a ++ y)%string -> x = y.
Proof. induction a as [|c a IH]; simpl; [auto | intros [= H]; auto]. Qed.

Lemma prefix_nil (s : string) : String.prefix "" s = true.
Proof. now destruct s. Qed.

Lemma prefix_weaken (a b : string) : forall x,
  String.prefix a x = false -> String.prefix (a ++ b) x = false.
Proof.
  induction a as [|c a IH]; intros x H.
  - now rewrite prefix_nil in H.
  - destruct x as [|d x]; simpl in *; [reflexivity|].
    destruct (ascii_dec c d); [now apply IH | reflexivity].
Qed.

Lemma index_fresh a post : forall pre,
  ~ In a pre ->
  Worker.index a (pre ++ a :: post) = Some (List.length pre).
Proof.
  induction pre as [|x pre IH]; intros N; simpl.
  - now rewrite String.eqb_refl.
  - destruct (String.eqb x a) eqn:E.
    + apply String.eqb_eq in E. subst x. exfalso. apply N. now left.
    + rewrite IH; [reflexivity|]. intros I. apply N. now right.
Qed.

Lemma scan_skips int sys_argv rest : forall pre,
  (forall x, In x pre -> Py.startswith "--port" x = false) ->
  Worker.scan int sys_argv (pre ++ rest) = Worker.scan int sys_argv rest.
Proof.
  induction pre as [|x pre IH]; intros H; [reflexivity|].
  simpl. rewrite (H x (or_introl eq_refl)).
  assert (Py.startswith "--port=" x = false) as ->.
  { apply (prefix_weaken "--port" "="). apply H. now left. }
  rewrite andb_false_r. apply IH. intros y I. apply H. now right.
Qed.

(** X17. The port is read from the argument that follows the first
    argument starting with [--port], and from nowhere else on the command
    line: the text of that argument itself is never parsed, so the spelling
    [--port=8190] gives no port, and any option with this prefix counts.
    When the next argument is missing or is not a number, the port is the
    port of the task, as when no argument starts with [--port]. *)
Theorem port_follows_port_option :
  forall int p pre option rest,
    Worker.argv p = pre ++ option :: rest ->
    (forall x, In x pre -> Py.startswith "--port" x = false) ->
    Py.startswith "--port" option = true ->
    Worker._get_worker_port int p
    = match rest with
      | next :: _ =>
          match int next with
          | Return port => port
          | Raise _ => Worker.task_port int p
          end
      | [] => Worker.task_port int p
      end.
Proof.
  intros int p pre a rest A H O.
  unfold Worker._get_worker_port. rewrite A.
  rewrite scan_skips by exact H. cbn [Worker.scan]. rewrite O.
  rewrite index_fresh.
  2:{ intros I. apply H in I. congruence. }
  rewrite length_app. cbn [List.length].
  destruct rest as [|next rest]; cbn [List.length].
  - assert ((List.length pre + 1 <? List.length pre + 1)%nat = false) as ->
      by (apply Nat.ltb_ge; lia).
    reflexivity.
  - assert ((List.length pre + 1 <? List.length pre + S (S (List.length rest)))%nat
            = true) as -> by (apply Nat.ltb_lt; lia).
    replace (List.length pre + 1)%nat with (List.length (pre ++ [a]))
      by (rewrite length_app; reflexivity).
    replace (pre ++ a :: next :: rest) with ((pre ++ [a]) ++ next :: rest)
      by (rewrite <- app_assoc; reflexivity).
    rewrite nth_error_app2, Nat.sub_diag by lia. simpl.
    destruct (int next); reflexivity.
Qed.

Lemma port_follows_port_option_witness :
  Worker._get_worker_port decimal render_task = 8291
  /\ Worker._get_worker_port decimal other_task = 8292.
Proof.
  split.
  - rewrite (port_follows_port_option decimal render_task
               ["main.py"; "--listen"] "--port" ["8291"]); try reflexivity.
    intros x [<-|[<-|[]]]; reflexivity.
  - rewrite (port_follows_port_option decimal other_task
               ["main.py"] "--port=9000" []); try reflexivity.
    intros x [<-|[]]; reflexivity.
Defined.

Lemma worker_id_task p q :
  Worker.gethostname p = Worker.gethostname q ->
  Worker.job_of p = Worker.job_of q ->
  Worker._get_worker_id p = Worker._get_worker_id q ->
  Worker.task_of p = Worker.task_of q.
Proof.
  unfold Worker._get_worker_id. intros -> -> E.
  apply append_inj_l in E. apply append_inj_l in E.
  apply (append_inj_l "-") in E. apply append_inj_l in E.
  now apply (append_inj_l "-") in E.
Qed.

(** X18. Two tasks of one job on one machine register under different
    worker identifiers, so that neither registration overwrites the other:
    after both have reached the coordinator, in this order, the registry
    holds the record of each at its own address. *)
Theorem tasks_register_separately :
  forall p q env1 env2 s ip1 port1 job1 ip2 port2 job2,
    Worker.gethostname p = Worker.gethostname q ->
    Worker.job_of p = Worker.job_of q ->
    Worker.task_of p <> Worker.task_of q ->
    let id1 := Worker._get_worker_id p in
    let id2 := Worker._get_worker_id q in
    let s2 := run [ (env1, Register id1 ip1 port1 job1);
                    (env2, Register id2 ip2 port2 job2) ] s in
    id1 <> id2
    /\ Dict.get id1 (claimed_workers (self s2))
       = Some (registration env1 id1 ip1 port1 job1)
    /\ Dict.get id2 (claimed_workers (self s2))
       = Some (registration env2 id2 ip2 port2 job2).
Proof.
  intros p q env1 env2 s ip1 port1 job1 ip2 port2 job2 Host Job Task
         id1 id2 s2.
  assert (id1 <> id2) as N
    by (intros E; apply Task; now apply worker_id_task).
  split; [exact N|]. unfold s2. simpl.
  destruct (register_worker_run env1 id1 ip1 port1 job1 s)
    as (s1 & E1 & HS1 & _). rewrite E1. simpl.
  destruct (register_worker_run env2 id2 ip2 port2 job2 s1)
    as (s' & E2 & HS2 & _). rewrite E2. simpl.
  rewrite HS2, HS1. simpl. split.
  - rewrite DictFacts.get_set_other by exact N.
    apply DictFacts.get_set_same.
  - apply DictFacts.get_set_same.
Qed.

Lemma tasks_register_separately_witness :
  let id1 := Worker._get_worker_id render_task in
  let id2 := Worker._get_worker_id other_task in
  let s2 := run [ (farm 10, Register id1 "10.0.0.7" 8291 None);
                  (farm 11, Register id2 "10.0.0.7" 8292 None) ]
              fresh_process in
  id1 <> id2
  /\ Dict.get id1 (claimed_workers (self s2))
     = Some (registration (farm 10) id1 "10.0.0.7" 8291 None)
  /\ Dict.get id2 (claimed_workers (self s2))
     = Some (registration (farm 11) id2 "10.0.0.7" 8292 None).
Proof.
  apply (tasks_register_separately render_task other_task (farm 10) (farm 11)
           fresh_process "10.0.0.7" 8291 None "10.0.0.7" 8292 None).
  - reflexivity.
  - reflexivity.
  - discriminate.
Defined.

(** X19. What the node does to the outside.  It sends at most one request,
    with its own worker identifier, address and port; it starts the
    heartbeat thread exactly when it returns the status of a successful
    registration, and for the identifier it has registered; outside the
    distributed mode it sends nothing.  The only exception it lets through
    is the one of a coordinator port that is not a number, in the
    distributed mode, and then nothing has been sent. *)
Theorem node_effects :
  forall int p,
    let result := fst (Worker.register_worker int p) in
    let effects := snd (Worker.register_worker int p) in
    let distributed_mode := snd (fst (Worker.get_distributed_config p)) in
    let context := Worker.get_deadline_context p in
    (forall host port id,
       In (Worker.Start_heartbeat host port id) effects
       <-> result = Return (Worker.Registered id)
           /\ id = Worker._get_worker_id p
           /\ host = Worker.master_host context
           /\ int (Worker.master_port context) = Return port)
    /\ (exists url,
          effects = []
          \/ hd_error effects
             = Some (Worker.Post url
                       {| Worker.worker_id := Worker._get_worker_id p;
                          Worker.worker_ip := Worker._get_worker_ip p;
                          Worker.worker_port := Worker._get_worker_port int p;
                          Worker.job_id :=
                            Worker.getenv_default p "DEADLINE_JOB_ID" "" |})
             /\ forall url' data, ~ In (Worker.Post url' data) (tl effects))
    /\ (distributed_mode = false -> result = Return Worker.Skipped /\ effects = [])
    /\ (forall e,
          result = Raise e
          <-> distributed_mode = true
              /\ int (Worker.master_port context) = Raise e)
    /\ (forall e, result = Raise e -> effects = []).
Proof.
  intros int p. cbv zeta. unfold Worker.register_worker.
  destruct (Worker.get_distributed_config p) as [[w d] f].
  destruct d; cbn [fst snd negb].
  2:{ split; [|split; [|split; [|split]]].
      - intros host port id. simpl. intuition congruence.
      - exists EmptyString. now left.
      - auto.
      - intros e. intuition congruence.
      - auto. }
  destruct (int (Worker.master_port (Worker.get_deadline_context p)))
    as [port|e] eqn:P; cbn [fst snd].
  2:{ split; [|split; [|split; [|split]]].
      - intros host port id. simpl. intuition congruence.
      - exists EmptyString. now left.
      - discriminate.
      - intros e'. simpl. intuition congruence.
      - auto. }
  match goal with
  | |- context [Worker.post p ?u ?d] =>
      destruct (Worker.post p u d) as [code [e|[|] e]|e];
      [destruct (code =? 200) ..|]
  end.
  all: cbn [fst snd].
  all: split; [|split; [|split; [|split]]].
  all: try discriminate.
  all: try (intros e'; intuition congruence).
  all: try (eexists; right; split; [reflexivity|]; simpl; intuition congruence).
  all: intros host port' id; simpl.
  all: intuition congruence.
Qed.

(** X20. A registration from end to end.  In the distributed mode, with a
    coordinator port that is a number and a coordinator that receives the
    request, the node returns the status of a successful registration and
    starts the heartbeat; the coordinator then holds the record of the
    worker under the identifier of the node, with the address and port the
    node computed and the job of its environment, stamped with the
    coordinator's clock, and it accepts the heartbeat of that identifier. *)
Theorem registration_end_to_end :
  forall int p env s port,
    snd (fst (Worker.get_distributed_config p)) = true ->
    int (Worker.master_port (Worker.get_deadline_context p)) = Return port ->
    (forall url data,
       Worker.post p url data
       = fst (deadline_register_worker_endpoint env data s)) ->
    let id := Worker._get_worker_id p in
    exists url data s',
      Worker.register_worker int p
      = (Return (Worker.Registered id),
         [ Worker.Post url data;
           Worker.Start_heartbeat
             (Worker.master_host (Worker.get_deadline_context p)) port id ])
      /\ deadline_register_worker_endpoint env data s
         = (Worker.Response 200 (Worker.Json true "Unknown error"), s')
      /\ Dict.get id (claimed_workers (self s'))
         = Some {| w_id := id;
                   w_ip := Worker._get_worker_ip p;
                   w_port := Worker._get_worker_port int p;
                   w_job_id :=
                     Some (Worker.getenv_default p "DEADLINE_JOB_ID" "");
                   w_last_seen := clock env |}
      /\ forall env', fst (worker_heartbeat env' id s') = Return (Success None).
Proof.
  intros int p env s port D P Line id.
  unfold Worker.register_worker.
  destruct (Worker.get_distributed_config p) as [[w d] f]. simpl in D.
  subst d. cbn [negb]. rewrite P.
  match goal with
  | |- context [Worker.post p ?u ?d] =>
      set (url := u); set (data := d); rewrite (Line url data)
  end.
  unfold deadline_register_worker_endpoint.
  destruct (register_worker_run env (Worker.worker_id data)
              (Worker.worker_ip data) (Worker.worker_port data)
              (Some (Worker.job_id data)) s) as (s' & E & HS & _).
  rewrite E. cbn [fst]. exists url, data, s'.
  split; [reflexivity|]. split; [rewrite E; reflexivity|].
  assert (Dict.get id (claimed_workers (self s'))
          = Some (registration env id (Worker._get_worker_ip p)
                    (Worker._get_worker_port int p)
                    (Some (Worker.getenv_default p "DEADLINE_JOB_ID" ""))))
    as G by (rewrite HS; apply DictFacts.get_set_same).
  split; [exact G|]. intros env'.
  pose proof (worker_heartbeat_run env' id s') as R. rewrite G in R.
  destruct R as (s2 & R & _). now rewrite R.
Qed.

Lemma registration_end_to_end_witness :
  let id := Worker._get_worker_id connected_task in
  exists url data s',
    Worker.register_worker decimal connected_task
    = (Return (Worker.Registered id),
       [ Worker.Post url data;
         Worker.Start_heartbeat
           (Worker.master_host (Worker.get_deadline_context connected_task))
           8188 id ])
    /\ deadline_register_worker_endpoint (farm 10) data fresh_process
       = (Worker.Response 200 (Worker.Json true "Unknown error"), s')
    /\ Dict.get id (claimed_workers (self s'))
       = Some {| w_id := id;
                 w_ip := Worker._get_worker_ip connected_task;
                 w_port := Worker._get_worker_port decimal connected_task;
                 w_job_id :=
                   Some (Worker.getenv_default connected_task
                           "DEADLINE_JOB_ID" "");
                 w_last_seen := clock (farm 10) |}
    /\ forall env', fst (worker_heartbeat env' id s') = Return (Success None).
Proof.
  apply (registration_end_to_end decimal connected_task (farm 10)
           fresh_process 8188).
  - reflexivity.
  - reflexivity.
  - reflexivity.
Defined.

(** X21. The plug-in's flags and the environment.  Inside the scheduler
    plug-in, [get_distributed_config] answers with the entries of the
    plug-in and never reads the environment, while the helper of the
    plug-in falls back on the environment when the plug-in sets no flag:
    the two agree exactly when the plug-in sets a flag or the environment
    sets none. *)
Theorem plugin_flags_and_environment :
  forall entry p,
    Worker.plugin p = Worker.Plugin entry ->
    let set_by_plugin :=
      entry "WorkerMode" || entry "DistributedMode"
      || entry "ForceNewInstance" in
    Worker.get_distributed_config p
    = (entry "WorkerMode", entry "DistributedMode", entry "ForceNewInstance")
    /\ Worker.get_distributed_config_for_plugin entry p
       = (if set_by_plugin then Worker.get_distributed_config p
          else Worker.environment_flags p)
    /\ (Worker.get_distributed_config_for_plugin entry p
        = Worker.get_distributed_config p
        <-> set_by_plugin = true
            \/ Worker.environment_flags p = (false, false, false)).
Proof.
  intros entry p P. cbv zeta.
  unfold Worker.get_distributed_config_for_plugin, Worker.get_distributed_config.
  rewrite P.
  destruct (entry "WorkerMode"), (entry "DistributedMode"),
    (entry "ForceNewInstance"); simpl; repeat split; auto;
    try (intros [?|?]; congruence).
Qed.

Lemma plugin_flags_and_environment_witness :
  Worker.get_distributed_config plugin_task = (false, false, false)
  /\ Worker.get_distributed_config_for_plugin (fun _ => false) plugin_task
     = (false, true, false).
Proof.
  destruct (plugin_flags_and_environment (fun _ => false) plugin_task eq_refl)
    as (A & B & _).
  split; [exact A | exact B].
Defined.

(** ** Start-up *)

(** X22. The command of the process is the first candidate that exists:
    the executable below [DEADLINE_PATH] when that variable is set and not
    empty, then the two usual places.  On a file system where the empty path
    does not exist, a command that is found opens the guard of the
    scheduler methods, and none is found only when no candidate exists. *)
Theorem command_is_first_candidate :
  forall i c,
    os_path_exists i "" = false ->
    _find_deadline_command i = find (os_path_exists i) (candidates i)
    /\ match _find_deadline_command i with
       | Some path =>
           In path (candidates i)
           /\ os_path_exists i path = true
           /\ configured (boot (Some path) c) = true
       | None =>
           (forall path, In path (candidates i) ->
              os_path_exists i path = false)
           /\ configured (boot None c) = false
       end.
Proof.
  intros i c Empty.
  assert (_find_deadline_command i = find (os_path_exists i) (candidates i))
    as E.
  { unfold _find_deadline_command, candidates.
    destruct (DEADLINE_PATH i) as [[|a bin]|]; reflexivity. }
  split; [exact E|]. rewrite E.
  destruct (find (os_path_exists i) (candidates i)) as [path|] eqn:F.
  - apply find_some in F as [I X]. repeat split; auto.
    unfold configured. simpl. destruct path; [congruence | reflexivity].
  - split; [|reflexivity]. intros path I.
    now apply (find_none _ _ F).
Qed.

Lemma command_is_first_candidate_witness :
  _find_deadline_command installed
  = Some "/opt/Thinkbox/Deadline10/bin/deadlinecommand.exe"
  /\ configured
       (boot (_find_deadline_command installed) {| workers := None |}) = true.
Proof.
  destruct (command_is_first_candidate installed {| workers := None |} eq_refl)
    as (E & H).
  assert (_find_deadline_command installed
          = Some "/opt/Thinkbox/Deadline10/bin/deadlinecommand.exe") as F
    by (rewrite E; reflexivity).
  rewrite F in *. split; [reflexivity | apply H].
Defined.

(** ** The seed node *)

Lemma rounds_step count : forall a b,
  Seed.rounds (S (S count)) a b
  = Seed.rounds (S count) a b + Seed.rounds count a b.
Proof.
  induction count as [|count IH]; intros a b.
  - simpl. lia.
  - change (Seed.rounds (S (S (S count))) a b)
      with (Seed.rounds (S (S count)) b (a + b)).
    rewrite IH. reflexivity.
Qed.

(** X23. [_fibonacci] computes the Fibonacci numbers: from 0 on, each value
    is the sum of the two before it, starting from 0 and 1; an argument
    below 0 is returned as it is. *)
Theorem fibonacci_recurrence :
  forall n,
    (0 <= n ->
     Seed._fibonacci (n + 2) = Seed._fibonacci (n + 1) + Seed._fibonacci n)
    /\ (n <= 1 -> Seed._fibonacci n = n).
Proof.
  intros n. split.
  - intros N. unfold Seed._fibonacci.
    assert ((n + 2 <=? 1) = false) as -> by (apply Z.leb_gt; lia).
    replace (Z.to_nat (n + 2 + 1 - 2)) with (S (Z.to_nat n))
      by (rewrite <- Z2Nat.inj_succ by lia; f_equal; lia).
    destruct (Z.eq_dec n 0) as [->|P]; [reflexivity|].
    assert ((n + 1 <=? 1) = false) as -> by (apply Z.leb_gt; lia).
    replace (Z.to_nat (n + 1 + 1 - 2)) with (Z.to_nat n) by (f_equal; lia).
    destruct (Z.eq_dec n 1) as [->|Q]; [reflexivity|].
    assert ((n <=? 1) = false) as -> by (apply Z.leb_gt; lia).
    replace (Z.to_nat n) with (S (Z.to_nat (n + 1 - 2)))
      by (rewrite <- Z2Nat.inj_succ by lia; f_equal; lia).
    apply rounds_step.
  - intros N. unfold Seed._fibonacci.
    now assert ((n <=? 1) = true) as -> by (apply Z.leb_le; lia).
Qed.

Lemma fibonacci_recurrence_witness :
  Seed._fibonacci 12 = Seed._fibonacci 11 + Seed._fibonacci 10
  /\ Seed._fibonacci (-3) = -3.
Proof.
  split.
  - apply (fibonacci_recurrence 10). lia.
  - apply (fibonacci_recurrence (-3)). lia.
Defined.

(** X24. Outside the scheduler the seed is the base seed plus the offset,
    whatever the mode.  Under the scheduler a mode other than "increment",
    "random" and "fibonacci" leaves the seed unbound: the node fails exactly
    in this case. *)
Theorem seed_fails_on_unknown_mode :
  forall int randint environ base_seed mode seed_offset,
    let result :=
      Seed.generate_seed int randint environ base_seed mode seed_offset in
    (result = None
     <-> under_deadline environ = true /\ one_of_the_modes mode = false)
    /\ (under_deadline environ = false ->
        result
        = Some (base_seed + seed_offset,
                ("Local mode (no Deadline): Seed="
                 ++ Py.str (base_seed + seed_offset))%string)).
Proof.
  intros int randint environ base mode off. cbv zeta.
  unfold Seed.generate_seed, under_deadline, one_of_the_modes, env_or_empty.
  cbn [existsb].
  destruct (nonempty _ && nonempty _).
  - destruct (String.eqb mode "increment"),
      (String.eqb mode "random"), (String.eqb mode "fibonacci"); simpl;
      split; try discriminate; intuition congruence.
  - split; [|reflexivity]. split; [discriminate | intros [? _]; discriminate].
Qed.

(** X25. Seeds of different tasks.  Under the scheduler, with task
    identifiers that are numbers, the mode "increment" gives tasks with
    different numbers different seeds; the mode "fibonacci" does not: the
    tasks whose number plus the offset is 1 and 2 get the same seed, and its
    seeds are at least 0 and less than [0xffffffffffffffff]. *)
Theorem task_seeds :
  forall int randint environ1 environ2 base_seed seed_offset n1 n2,
    under_deadline environ1 = true ->
    under_deadline environ2 = true ->
    int (env_or_empty environ1 "DEADLINE_TASK_ID") = Return n1 ->
    int (env_or_empty environ2 "DEADLINE_TASK_ID") = Return n2 ->
    let seed environ mode :=
      option_map fst
        (Seed.generate_seed int randint environ base_seed mode seed_offset) in
    seed environ1 "increment" = Some (base_seed + n1 + seed_offset)
    /\ (n1 <> n2 -> seed environ1 "increment" <> seed environ2 "increment")
    /\ (n1 + seed_offset = 1 -> n2 + seed_offset = 2 ->
        seed environ1 "fibonacci" = seed environ2 "fibonacci")
    /\ exists s, seed environ1 "fibonacci" = Some s /\ 0 <= s < Seed.max_seed.
Proof.
  intros int randint e1 e2 base off n1 n2 D1 D2 T1 T2. cbv zeta.
  unfold Seed.generate_seed. unfold under_deadline, env_or_empty in *.
  rewrite D1, D2, T1, T2. simpl. repeat split.
  - intros N [= E]. lia.
  - intros -> ->. reflexivity.
  - eexists. split; [reflexivity|].
    apply Z.mod_pos_bound. reflexivity.
Qed.

Lemma task_seeds_witness :
  let seed environ mode :=
    option_map fst
      (Seed.generate_seed decimal (fun _ => 0) environ 42 mode 0) in
  seed (task_environ "1") "increment" = Some 43
  /\ seed (task_environ "1") "increment" <> seed (task_environ "2") "increment"
  /\ seed (task_environ "1") "fibonacci" = seed (task_environ "2") "fibonacci".
Proof.
  destruct (task_seeds decimal (fun _ => 0) (task_environ "1")
              (task_environ "2") 42 0 1 2 eq_refl eq_refl eq_refl eq_refl)
    as (A & B & C & _).
  split; [exact A|]. split; [apply B; discriminate | now apply C].
Defined.

(** ** The legacy module, in general *)

Lemma legacy_scan_unknown lines :
  (forall l, In l lines -> Legacy.after_first "JobID=" l = None) ->
  Legacy.scan lines = "unknown"%string.
Proof.
  induction lines as [|l lines IH]; intros H; [reflexivity|].
  cbn [Legacy.scan]. rewrite (H l (or_introl eq_refl)).
  apply IH. intros l' I. apply H. now right.
Qed.

(** X26. The legacy [claim_workers] records a job for every submission that
    exits with code 0: when no line of the output holds [JobID=], the job is
    recorded under the name "unknown" and the answer is a success.  A second
    such claim overwrites the record of the first in place, so the table
    cannot tell the two submissions apart. *)
Theorem legacy_unmarked_claims_share_a_job :
  forall env s count master_ws cmd out err,
    deadline_command (self s) = Some cmd ->
    nonempty cmd = true ->
    fs_error env = None ->
    subprocess_run env (List.length (spawned s))
      [cmd; "-SubmitJob"; (mkdtemp env ++ ".job")%string]
    = Completed 0 out err ->
    unmarked out ->
    exists message s',
      Legacy.claim_workers env count master_ws s
      = (Return (Claimed "unknown" message), s')
      /\ active_jobs (self s')
         = Dict.set "unknown" (claimed_job env count master_ws)
             (active_jobs (self s))
      /\ (Dict.mem "unknown" (active_jobs (self s)) = true ->
          Dict.keys (active_jobs (self s')) = Dict.keys (active_jobs (self s))).
Proof.
  intros env s count ws cmd out err Cmd Ne Fs Exit U.
  destruct cmd as [|c cmd]; [discriminate|].
  assert (Legacy._extract_job_id out = "unknown"%string) as X
    by (apply legacy_scan_unknown; exact U).
  unfold Legacy.claim_workers, Legacy._create_worker_job_info, run_process.
  unfold try_except, bind at 1, gets at 1. rewrite Cmd, Fs.
  run_m. rewrite Exit. simpl. rewrite X.
  do 2 eexists. split; [reflexivity|]. simpl. split; [reflexivity|].
  apply keys_set_present.
Qed.

Lemma legacy_unmarked_claims_share_a_job_witness :
  exists message s',
    Legacy.claim_workers silent_farm 3 "localhost:8188" fresh_process
    = (Return (Claimed "unknown" message), s')
    /\ active_jobs (self s')
       = Dict.set "unknown" (claimed_job silent_farm 3 "localhost:8188")
           (active_jobs (self fresh_process))
    /\ (Dict.mem "unknown" (active_jobs (self fresh_process)) = true ->
        Dict.keys (active_jobs (self s'))
        = Dict.keys (active_jobs (self fresh_process))).
Proof.
  apply (legacy_unmarked_claims_share_a_job silent_farm fresh_process 3
           "localhost:8188" "deadlinecommand" "Submitting job... done" "");
    try reflexivity.
  intros l I. vm_compute in I. destruct I as [<-|[]]. reflexivity.
Defined.
